(** * EPD2: the Pervasive Displays COG driver (Sketches/libraries/EPD2/EPD2.cpp)

    A shallow embedding of the driver: panel geometry and compensation
    tables, the line encoder, the stage 1/3 sweep, the timed frame loop
    and the power sequencer, followed by the properties proved of them. *)

From Stdlib Require Import ZArith List Bool Lia.
Import ListNotations.
Open Scope Z_scope.

(** ** Data model *)

Inductive EPD_size := EPD_1_44 | EPD_2_0 | EPD_2_7.

(** Modelled from the spec: the stages of EPD2.h, which is not among the
    sources; the spec lists two, under the names [line] switches on. *)
Inductive EPD_stage := EPD_inverse | EPD_normal.

(** Modelled from the spec: the status values of EPD2.h; the spec lists
    four, under the names [begin] and [end] assign. *)
Inductive EPD_error :=
  EPD_OK | EPD_UNSUPPORTED_COG | EPD_PANEL_BROKEN | EPD_DC_FAILED.

Inductive level := LOW | HIGH.

(** Modelled from the spec: [compensation_type] of EPD2.h, nine
    non-negative integers in the order the tables of [setFactor]
    initialise them. *)
Record compensation_type := mk_compensation {
  stage1_repeat : Z; stage1_step : Z; stage1_block : Z;
  stage2_repeat : Z; stage2_t1 : Z; stage2_t2 : Z;
  stage3_repeat : Z; stage3_step : Z; stage3_block : Z
}.

Record EPD_Class := mk_EPD {
  EPD_Pin_PANEL_ON : Z;
  EPD_Pin_BORDER : Z;
  EPD_Pin_DISCHARGE : Z;
  EPD_Pin_RESET : Z;
  EPD_Pin_BUSY : Z;
  EPD_Pin_EPD_CS : Z;
  size : EPD_size;
  lines_per_display : Z;
  dots_per_line : Z;
  bytes_per_line : Z;
  bytes_per_scan : Z;
  channel_select : list Z;
  status : EPD_error;
  temperature_offset : Z;
  compensation : compensation_type
}.

(** What the sources leave open: the width of [int] on the target (16 bits
    on AVR and MSP430, 32 bits on ARM) and the two default arguments of
    [line], declared in EPD2.h. *)
Record Target := mk_target {
  int16 : bool;
  default_stage : EPD_stage;
  default_border_byte : Z
}.

(** Fixed-width integers, with their wrap-around written out. *)
Definition u8 (z : Z) : Z := z mod 256.
Definition u16 (z : Z) : Z := z mod 65536.
Definition ULONG_MAX : Z := 4294967295.
Definition ulong (z : Z) : Z := z mod (ULONG_MAX + 1).
Definition to_long (z : Z) : Z :=
  let m := ulong z in if m <? 2147483648 then m else m - (ULONG_MAX + 1).

(** ** CompensationSelector: [EPD_Class::setFactor] *)

Definition compensation_144 : list compensation_type :=
  [ mk_compensation 2 6 42  4 392 392  2 6 42;
    mk_compensation 4 2 16  4 155 155  4 2 16;
    mk_compensation 4 2 16  4 155 155  4 2 16 ].

Definition compensation_200 : list compensation_type :=
  [ mk_compensation 2 6 42  4 392 392  2 6 42;
    mk_compensation 2 2 48  4 196 196  2 2 48;
    mk_compensation 4 2 48  4 196 196  4 2 48 ].

Definition compensation_270 : list compensation_type :=
  [ mk_compensation 2 8 64  4 392 392  2 8 64;
    mk_compensation 2 8 64  4 196 196  2 8 64;
    mk_compensation 4 8 64  4 196 196  4 8 64 ].

Definition no_compensation : compensation_type :=
  mk_compensation 0 0 0 0 0 0 0 0 0.

(** The table [switch (this->size)] indexes. *)
Definition compensation_table (sz : EPD_size) : list compensation_type :=
  match sz with
  | EPD_1_44 => compensation_144
  | EPD_2_0 => compensation_200
  | EPD_2_7 => compensation_270
  end.

Definition set_factor_fields (e : EPD_Class) (off : Z) (c : compensation_type)
  : EPD_Class :=
  mk_EPD (EPD_Pin_PANEL_ON e) (EPD_Pin_BORDER e) (EPD_Pin_DISCHARGE e)
         (EPD_Pin_RESET e) (EPD_Pin_BUSY e) (EPD_Pin_EPD_CS e)
         (size e) (lines_per_display e) (dots_per_line e) (bytes_per_line e)
         (bytes_per_scan e) (channel_select e) (status e) off c.

Definition setFactor (temperature : Z) (e : EPD_Class) : EPD_Class :=
  let off :=
    if temperature <? 10 then 0
    else if temperature >? 40 then 2
    else 1 in
  set_factor_fields e off
    (nth (Z.to_nat off) (compensation_table (size e)) no_compensation).

(** Modelled from the spec: the default argument of [setFactor], declared
    in EPD2.h; the spec gives it as 25. *)
Definition setFactor_default_temperature : Z := 25.

(** ** PanelProfile: the constructor *)

(** The constructor writes every member but [status], which keeps
    whatever value the object's storage held: [unset_status], an argument
    of the model's constructor; [begin] sets it before anything else. *)

Record pin_assignment := mk_pins {
  panel_on_pin : Z; border_pin : Z; discharge_pin : Z;
  reset_pin : Z; busy_pin : Z; chip_select_pin : Z
}.

Definition EPD_new (unset_status : EPD_error) (sz : EPD_size)
  (p : pin_assignment) : EPD_Class :=
  let e0 :=
    mk_EPD (panel_on_pin p) (border_pin p) (discharge_pin p)
           (reset_pin p) (busy_pin p) (chip_select_pin p)
           sz 96 128 (128 / 8) (96 / 4)
           [0x72; 0x00; 0x00; 0x00; 0x00; 0x00; 0x0f; 0xff; 0x00]
           unset_status 0 no_compensation in
  let e1 := setFactor setFactor_default_temperature e0 in
  let geometry lines dots cs :=
    mk_EPD (EPD_Pin_PANEL_ON e1) (EPD_Pin_BORDER e1) (EPD_Pin_DISCHARGE e1)
           (EPD_Pin_RESET e1) (EPD_Pin_BUSY e1) (EPD_Pin_EPD_CS e1)
           (size e1) lines dots (dots / 8) (lines / 4) cs
           (status e1) (temperature_offset e1) (compensation e1) in
  match sz with
  | EPD_1_44 => e1
  | EPD_2_0 =>
      geometry 96 200 [0x72; 0x00; 0x00; 0x00; 0x00; 0x01; 0xff; 0xe0; 0x00]
  | EPD_2_7 =>
      geometry 176 264 [0x72; 0x00; 0x00; 0x00; 0x7f; 0xff; 0xfe; 0x00; 0x00]
  end.

(** ** Line encoder: the per-byte computations of [EPD_Class::line] *)

(** Odd pixels: [pixels = data[b - 1] & 0x55], then the [switch (stage)]. *)
Definition odd_pixels (stage : EPD_stage) (x : Z) : Z :=
  let pixels := u8 (Z.land x 0x55) in
  match stage with
  | EPD_inverse => u8 (Z.lor 0xaa (Z.lxor pixels 0x55))
  | EPD_normal => u8 (Z.lor 0xaa pixels)
  end.

(** Even pixels: [pixels = data[b] & 0xaa], the [switch (stage)], then the
    four pairs [p1 .. p4] put back in the opposite order. *)
Definition even_pixels (stage : EPD_stage) (x : Z) : Z :=
  let pixels := u8 (Z.land x 0xaa) in
  let pixels :=
    match stage with
    | EPD_inverse => u8 (Z.lor 0xaa (Z.shiftr (Z.lxor pixels 0xaa) 1))
    | EPD_normal => u8 (Z.lor 0xaa (Z.shiftr pixels 1))
    end in
  let p1 := u8 (Z.land (Z.shiftr pixels 6) 0x03) in
  let p2 := u8 (Z.land (Z.shiftr pixels 4) 0x03) in
  let p3 := u8 (Z.land (Z.shiftr pixels 2) 0x03) in
  let p4 := u8 (Z.land (Z.shiftr pixels 0) 0x03) in
  u8 (Z.lor (Z.lor (Z.lor (Z.shiftl p1 0) (Z.shiftl p2 2)) (Z.shiftl p3 4))
            (Z.shiftl p4 6)).

(** [int scan_pos = (this->lines_per_display - line - 1) / 4]: with a
    16-bit [int] the [uint16_t] operands are unsigned and the difference
    wraps; with a 32-bit [int] they promote to [int] and the division
    truncates toward zero. *)
Definition scan_pos (t : Target) (e : EPD_Class) (line : Z) : Z :=
  if int16 t then u16 (lines_per_display e - line - 1) / 4
  else Z.quot (lines_per_display e - line - 1) 4.

(** [int scan_shift = 2 * (line & 0x03)] *)
Definition scan_shift (line : Z) : Z := 2 * Z.land line 0x03.

(** The byte the scan loop puts at position [b]. *)
Definition scan_byte (t : Target) (e : EPD_Class) (line b : Z) : Z :=
  if scan_pos t e line =? b then u8 (Z.shiftl 0x03 (scan_shift line))
  else 0x00.

(** ** Reading the caller's image *)

(** The image is a borrowed byte sequence; a read outside it has no defined
    value in the source, so the model stops with the offending index. *)
Inductive fetch (A : Type) :=
| Fetched (a : A)
| OutOfBounds (index : Z).
Arguments Fetched {A} a.
Arguments OutOfBounds {A} index.

Definition fetch_bind {A B} (m : fetch A) (k : A -> fetch B) : fetch B :=
  match m with
  | Fetched a => k a
  | OutOfBounds i => OutOfBounds i
  end.

Definition read_byte (image : list Z) (index : Z) : fetch Z :=
  if index <? 0 then OutOfBounds index
  else match nth_error image (Z.to_nat index) with
       | Some x => Fetched x
       | None => OutOfBounds index
       end.

(** The arguments of one call of [line]; [lc_data] is [None] for the null
    pointer and [Some off] for [&image[off]]. *)
Record line_call := mk_line {
  lc_line : Z;
  lc_data : option Z;
  lc_fixed_value : Z;
  lc_read_progmem : bool;
  lc_stage : EPD_stage;
  lc_border_byte : Z
}.

(** [for (uint16_t b = this->bytes_per_line; b > 0; --b)]: the iteration
    with [b = S b'] reads [data[b - 1]]. *)
Fixpoint odd_loop (image : list Z) (c : line_call) (b : nat)
  : fetch (list Z) :=
  match b with
  | O => Fetched []
  | S b' =>
      match lc_data c with
      | Some off =>
          fetch_bind (read_byte image (off + Z.of_nat b')) (fun x =>
          fetch_bind (odd_loop image c b') (fun rest =>
          Fetched (odd_pixels (lc_stage c) x :: rest)))
      | None =>
          fetch_bind (odd_loop image c b') (fun rest =>
          Fetched (lc_fixed_value c :: rest))
      end
  end.

(** [for (uint16_t b = 0; b < this->bytes_per_scan; ++b)], with [n]
    iterations left. *)
Fixpoint scan_loop (t : Target) (e : EPD_Class) (line : Z) (n : nat) (b : Z)
  : list Z :=
  match n with
  | O => []
  | S n' => scan_byte t e line b :: scan_loop t e line n' (b + 1)
  end.

(** [for (uint16_t b = 0; b < this->bytes_per_line; ++b)], with [n]
    iterations left. *)
Fixpoint even_loop (image : list Z) (c : line_call) (n : nat) (b : Z)
  : fetch (list Z) :=
  match n with
  | O => Fetched []
  | S n' =>
      match lc_data c with
      | Some off =>
          fetch_bind (read_byte image (off + b)) (fun x =>
          fetch_bind (even_loop image c n' (b + 1)) (fun rest =>
          Fetched (even_pixels (lc_stage c) x :: rest)))
      | None =>
          fetch_bind (even_loop image c n' (b + 1)) (fun rest =>
          Fetched (lc_fixed_value c :: rest))
      end
  end.

(** The bytes [line] sends with [SPI_put_wait] while chip select is low, in
    the order sent: sub-command, border byte, odd pixels, scan bytes, even
    pixels. *)
Definition line_bytes (t : Target) (e : EPD_Class) (image : list Z)
  (c : line_call) : fetch (list Z) :=
  let line := u16 (lc_line c) in
  fetch_bind (odd_loop image c (Z.to_nat (bytes_per_line e))) (fun odd =>
  fetch_bind (even_loop image c (Z.to_nat (bytes_per_line e)) 0) (fun even =>
  Fetched ([0x72; lc_border_byte c] ++ odd
           ++ scan_loop t e line (Z.to_nat (bytes_per_scan e)) 0
           ++ even))).

(** ** Frame sequencer: the stage 1 / stage 3 sweep *)

(** [for (int i = start; ...; ++i)] with [n] iterations
    left, as in [for (int offset = 0; offset < block; ++offset)]. *)
Fixpoint for_up {A} (body : Z -> A) (n : nat) (offset : Z) : list A :=
  match n with
  | O => []
  | S n' => body offset :: for_up body n' (offset + 1)
  end.

(** [for (int line = ...; line < total_lines + step; line += step)]; the
    loop does not end when [step <= 0], so the model counts iterations down
    from [fuel] and has no result when they run out. *)
Fixpoint for_lines {A} (body : Z -> Z -> A) (step block total_lines : Z)
  (fuel : nat) (line : Z) : option (list A) :=
  match fuel with
  | O => None
  | S fuel' =>
      if line <? total_lines + step then
        match for_lines body step block total_lines fuel' (line + step) with
        | Some rest =>
            Some (for_up (body line) (Z.to_nat block) 0 ++ rest)
        | None => None
        end
      else Some []
  end.

(** [for (int n = 0; n < repeat; ++n)], with [k] iterations left. *)
Fixpoint for_repeat {A} (body : Z -> option (list A)) (k : nat) (n : Z)
  : option (list A) :=
  match k with
  | O => Some []
  | S k' =>
      match body n, for_repeat body k' (n + 1) with
      | Some pass, Some rest => Some (pass ++ rest)
      | _, _ => None
      end
  end.

(** Iterations that suffice for the line loop whenever it ends. *)
Definition sweep_fuel (block total_lines : Z) : nat :=
  S (Z.to_nat (total_lines + block)).

(** The three nested loops shared by [frame_fixed_13] and [frame_data_13];
    [body n line offset] stands for the loop body. *)
Definition sweep_13 {A} (body : Z -> Z -> Z -> A)
  (repeat step block total_lines : Z) : option (list A) :=
  for_repeat
    (fun n => for_lines (body n) step block total_lines
                        (sweep_fuel block total_lines) (step - block))
    (Z.to_nat repeat) 0.

(** The parameters chosen by [if (EPD_inverse == stage)]. *)
Definition stage_repeat (e : EPD_Class) (stage : EPD_stage) : Z :=
  match stage with
  | EPD_inverse => stage1_repeat (compensation e)
  | EPD_normal => stage3_repeat (compensation e)
  end.
Definition stage_step (e : EPD_Class) (stage : EPD_stage) : Z :=
  match stage with
  | EPD_inverse => stage1_step (compensation e)
  | EPD_normal => stage3_step (compensation e)
  end.
Definition stage_block (e : EPD_Class) (stage : EPD_stage) : Z :=
  match stage with
  | EPD_inverse => stage1_block (compensation e)
  | EPD_normal => stage3_block (compensation e)
  end.

(** The calls of [line] made by [frame_fixed_13], in program order. *)
Definition frame_fixed_13_calls (t : Target) (e : EPD_Class) (value : Z)
  (stage : EPD_stage) : option (list line_call) :=
  let repeat := stage_repeat e stage in
  let total_lines := lines_per_display e in
  sweep_13
    (fun n line offset =>
       let pos := line + offset in
       if (pos <? 0) || (pos >? total_lines) then
         mk_line 0x7fff None 0x00 false EPD_normal (default_border_byte t)
       else if (0 =? offset) && (n =? repeat - 1) then
         mk_line pos None 0x00 false EPD_normal (default_border_byte t)
       else
         mk_line pos None value false stage (default_border_byte t))
    repeat (stage_step e stage) (stage_block e stage) total_lines.

(** The calls of [line] made by [frame_data_13], in program order; the data
    pointer of the last branch is [&image[pos * this->bytes_per_line]]. *)
Definition frame_data_13_calls (t : Target) (e : EPD_Class) (stage : EPD_stage)
  : option (list line_call) :=
  let repeat := stage_repeat e stage in
  let total_lines := lines_per_display e in
  sweep_13
    (fun n line offset =>
       let pos := line + offset in
       if (pos <? 0) || (pos >? total_lines) then
         mk_line 0x7fff None 0x00 false EPD_normal (default_border_byte t)
       else if (0 =? offset) && (n =? repeat - 1) then
         mk_line pos None 0x00 false EPD_normal (default_border_byte t)
       else
         mk_line pos (Some (pos * bytes_per_line e)) 0 true stage
                 (default_border_byte t))
    repeat (stage_step e stage) (stage_block e stage) total_lines.

(** The positions the sweep visits: pass, block offset and [pos]. *)
Record visit := mk_visit { v_pass : Z; v_offset : Z; v_pos : Z }.

Definition sweep_visits (repeat step block total_lines : Z)
  : option (list visit) :=
  sweep_13 (fun n line offset => mk_visit n offset (line + offset))
           repeat step block total_lines.

(** ** Transport port: pins, delays, clock and SPI bus *)

(** What the driver does to the outside, in program order. *)
Inductive event :=
| DigitalWrite (pin : Z) (v : level)
| DelayMs (ms : Z)
| DelayUs (us : Z)
| SpiEnd
| SpiBegin
| SpiSetBitOrder_MSBFIRST
| SpiSetDataMode_MODE0
| SpiSetClockDivider_DIV2
| SpiTransfer (c : Z).

(** The outside world: the level last written to each pin, the events so
    far (oldest first), and what the world will answer: the samples
    [digitalRead] of the BUSY pin will return, the byte the COG returns on
    the k-th [SPI.transfer], and the values [millis] will return. *)
Record World := mk_world {
  pins : Z -> level;
  trace : list event;
  busy_in : list level;
  spi_in : nat -> Z;
  spi_count : nat;
  clock_in : list Z
}.

(** A run ends with a value and a world, or needs more input than the
    world holds (a busy-wait that saw only HIGH, a clock read past the
    script), or reads outside the image. *)
Inductive result (A : Type) :=
| Ok (a : A) (w : World)
| Starved
| BadRead (index : Z).
Arguments Ok {A} a w.
Arguments Starved {A}.
Arguments BadRead {A} index.

Definition M (A : Type) : Type := World -> result A.

Definition ret {A} (a : A) : M A := fun w => Ok a w.

Definition bind {A B} (m : M A) (k : A -> M B) : M B :=
  fun w =>
    match m w with
    | Ok a w' => k a w'
    | Starved => Starved
    | BadRead i => BadRead i
    end.

Notation "x <- m ;; k" := (bind m (fun x => k))
  (at level 61, m at next level, right associativity).
Notation "m ;; k" := (bind m (fun _ => k))
  (at level 61, right associativity).

(** The events that are SPI transfers, and their number in a list. *)
Definition is_transfer (ev : event) : bool :=
  match ev with SpiTransfer _ => true | _ => false end.

Definition transfers (evs : list event) : nat :=
  length (filter is_transfer evs).

(** The pin levels after an event. *)
Definition apply_event (ps : Z -> level) (ev : event) : Z -> level :=
  match ev with
  | DigitalWrite pin v => fun q => if q =? pin then v else ps q
  | _ => ps
  end.

(** The world after the driver has produced [evs]. *)
Definition output (evs : list event) (w : World) : World :=
  mk_world (fold_left apply_event evs (pins w)) (trace w ++ evs)
           (busy_in w) (spi_in w) (transfers evs + spi_count w)
           (clock_in w).

(** The world with the BUSY samples [samples] left. *)
Definition set_busy (samples : list level) (w : World) : World :=
  mk_world (pins w) (trace w) samples (spi_in w) (spi_count w) (clock_in w).

Definition emit (ev : event) : M unit := fun w => Ok tt (output [ev] w).

Definition digitalWrite (pin : Z) (v : level) : M unit :=
  emit (DigitalWrite pin v).

Definition Delay_ms (ms : Z) : M unit := emit (DelayMs ms).
Definition Delay_us (us : Z) : M unit := emit (DelayUs us).

(** [SPI.transfer(c)] *)
Definition SPI_transfer (c : Z) : M Z :=
  fun w => Ok (spi_in w (spi_count w)) (output [SpiTransfer c] w).

(** The world with the clock values [later] left. *)
Definition set_clock (later : list Z) (w : World) : World :=
  mk_world (pins w) (trace w) (busy_in w) (spi_in w) (spi_count w) later.

(** [millis()] *)
Definition millis : M Z :=
  fun w =>
    match clock_in w with
    | [] => Starved
    | now :: later => Ok now (set_clock later w)
    end.

(** The HIGH samples read before the first LOW one, and the samples left. *)
Fixpoint busy_wait (samples : list level) : option (nat * list level) :=
  match samples with
  | [] => None
  | LOW :: rest => Some (O, rest)
  | HIGH :: rest =>
      match busy_wait rest with
      | Some (n, remaining) => Some (S n, remaining)
      | None => None
      end
  end.

(** [while (HIGH == digitalRead(busy_pin)) { body }], where the body
    produces [per_iteration]. *)
Definition while_busy (per_iteration : list event) : M unit :=
  fun w =>
    match busy_wait (busy_in w) with
    | None => Starved
    | Some (n, remaining) =>
        Ok tt (set_busy remaining
                        (output (concat (repeat per_iteration n)) w))
    end.

Definition SPI_put (c : Z) : M unit := _ <- SPI_transfer c ;; ret tt.

Definition SPI_put_wait (c : Z) (busy_pin : Z) : M unit :=
  SPI_put c ;; while_busy [].

Definition SPI_on : M unit :=
  emit SpiEnd ;; emit SpiBegin ;; emit SpiSetBitOrder_MSBFIRST ;;
  emit SpiSetDataMode_MODE0 ;; emit SpiSetClockDivider_DIV2 ;;
  SPI_put 0x00 ;; SPI_put 0x00 ;; Delay_us 10.

Definition SPI_off : M unit :=
  emit SpiSetDataMode_MODE0 ;;
  SPI_put 0x00 ;; SPI_put 0x00 ;; Delay_us 10 ;; emit SpiEnd.

Fixpoint put_all (buffer : list Z) : M unit :=
  match buffer with
  | [] => ret tt
  | c :: rest => SPI_put c ;; put_all rest
  end.

(** [SPI_send]; its [cs_pin] parameter is a [uint8_t]. *)
Definition SPI_send (cs_pin : Z) (buffer : list Z) : M unit :=
  Delay_us 10 ;; digitalWrite (u8 cs_pin) LOW ;;
  put_all buffer ;;
  digitalWrite (u8 cs_pin) HIGH.

Fixpoint read_all (buffer : list Z) (result : Z) : M Z :=
  match buffer with
  | [] => ret result
  | c :: rest => r <- SPI_transfer c ;; read_all rest r
  end.

(** [SPI_read]: the byte returned on the last transfer, 0 when there is
    none. *)
Definition SPI_read (cs_pin : Z) (buffer : list Z) : M Z :=
  Delay_us 10 ;; digitalWrite (u8 cs_pin) LOW ;;
  result <- read_all buffer 0 ;;
  digitalWrite (u8 cs_pin) HIGH ;;
  ret result.

(** ** Line encoder: [EPD_Class::line] *)

(** A read of the image inside a run. *)
Definition lift_fetch {A} (f : fetch A) : M A :=
  fun w => match f with Fetched a => Ok a w | OutOfBounds i => BadRead i end.

Fixpoint put_wait_all (bytes : list Z) (busy_pin : Z) : M unit :=
  match bytes with
  | [] => ret tt
  | c :: rest => SPI_put_wait c busy_pin ;; put_wait_all rest busy_pin
  end.

(** One scanline transaction.  The bytes of the three loops are those of
    [line_bytes], each sent with [SPI_put_wait]; the source reads each
    image byte just before sending it, the model reads the scanline first,
    which only moves the point where a read outside the image stops the
    run. *)
Definition line (t : Target) (e : EPD_Class) (image : list Z)
  (c : line_call) : M unit :=
  SPI_on ;;
  SPI_send (EPD_Pin_EPD_CS e) [0x70; 0x0a] ;;
  Delay_us 10 ;;
  digitalWrite (EPD_Pin_EPD_CS e) LOW ;;
  bytes <- lift_fetch (line_bytes t e image c) ;;
  put_wait_all bytes (EPD_Pin_BUSY e) ;;
  digitalWrite (EPD_Pin_EPD_CS e) HIGH ;;
  SPI_send (EPD_Pin_EPD_CS e) [0x70; 0x02] ;;
  SPI_send (EPD_Pin_EPD_CS e) [0x72; 0x07] ;;
  SPI_off.

(** The calls [calls] of [line], one after the other. *)
Fixpoint line_all (t : Target) (e : EPD_Class) (image : list Z)
  (calls : list line_call) : M unit :=
  match calls with
  | [] => ret tt
  | c :: rest => line t e image c ;; line_all t e image rest
  end.

(** A sweep run: its calls of [line], or no result when the sweep does
    not end. *)
Definition run_calls (t : Target) (e : EPD_Class) (image : list Z)
  (calls : option (list line_call)) : M unit :=
  match calls with
  | Some cs => line_all t e image cs
  | None => fun _ => Starved
  end.

(** [EPD_Class::frame_fixed_13] and [EPD_Class::frame_data_13]. *)
Definition frame_fixed_13 (t : Target) (e : EPD_Class) (value : Z)
  (stage : EPD_stage) : M unit :=
  run_calls t e [] (frame_fixed_13_calls t e value stage).

Definition frame_data_13 (t : Target) (e : EPD_Class) (image : list Z)
  (stage : EPD_stage) : M unit :=
  run_calls t e image (frame_data_13_calls t e stage).

(** ** Frame sequencer: the timed frame *)

(** The update of [stage_time] at the end of a pass: [stage_time] is a
    [long], the clock values are [unsigned long], and [-=] is computed in
    [unsigned long] and stored back. *)
Definition stage_time_after_pass (stage_time t_start t_end : Z) : Z :=
  if t_end >? t_start then
    to_long (stage_time - ulong (t_end - t_start))
  else
    to_long (stage_time - ulong (t_start - t_end + 1 + ULONG_MAX)).

(** [for (uint8_t line = 0; line < this->lines_per_display; ++line)
       this->line(line, 0, fixed_value, false);]
    (every panel has fewer than 256 lines, so the counter does not wrap). *)
Definition frame_fixed_pass (t : Target) (e : EPD_Class) (fixed_value : Z)
  : list line_call :=
  for_up (fun line => mk_line line None fixed_value false
                              (default_stage t) (default_border_byte t))
         (Z.to_nat (lines_per_display e)) 0.

(** The [do ... while (stage_time > 0)] loop, with [fuel] passes left. *)
Fixpoint timed_loop (fuel : nat) (t : Target) (e : EPD_Class)
  (fixed_value stage_time : Z) : M unit :=
  match fuel with
  | O => fun _ => Starved
  | S fuel' =>
      t_start <- millis ;;
      line_all t e [] (frame_fixed_pass t e fixed_value) ;;
      t_end <- millis ;;
      let stage_time := stage_time_after_pass stage_time t_start t_end in
      if stage_time >? 0 then timed_loop fuel' t e fixed_value stage_time
      else ret tt
  end.

(** Each pass reads the clock twice, so the passes cannot outnumber the
    clock values the world holds. *)
Definition frame_fixed_timed (t : Target) (e : EPD_Class)
  (fixed_value stage_time : Z) : M unit :=
  fun w => timed_loop (length (clock_in w)) t e fixed_value stage_time w.

Fixpoint stage2_loop (t : Target) (e : EPD_Class) (n : nat) : M unit :=
  match n with
  | O => ret tt
  | S n' =>
      frame_fixed_timed t e 0xff (stage2_t1 (compensation e)) ;;
      frame_fixed_timed t e 0xaa (stage2_t2 (compensation e)) ;;
      stage2_loop t e n'
  end.

Definition frame_stage2 (t : Target) (e : EPD_Class) : M unit :=
  stage2_loop t e (Z.to_nat (stage2_repeat (compensation e))).

(** ** Power sequencer *)

Definition set_status (e : EPD_Class) (s : EPD_error) : EPD_Class :=
  mk_EPD (EPD_Pin_PANEL_ON e) (EPD_Pin_BORDER e) (EPD_Pin_DISCHARGE e)
         (EPD_Pin_RESET e) (EPD_Pin_BUSY e) (EPD_Pin_EPD_CS e)
         (size e) (lines_per_display e) (dots_per_line e) (bytes_per_line e)
         (bytes_per_scan e) (channel_select e) s (temperature_offset e)
         (compensation e).

(** [for (int i = 0; i < 10; ++i)] of [power_off], with [n] pulses left. *)
Fixpoint discharge_pulses (e : EPD_Class) (n : nat) : M unit :=
  match n with
  | O => ret tt
  | S n' =>
      Delay_ms 10 ;;
      digitalWrite (EPD_Pin_DISCHARGE e) HIGH ;;
      Delay_ms 10 ;;
      digitalWrite (EPD_Pin_DISCHARGE e) LOW ;;
      discharge_pulses e n'
  end.

Definition power_off (e : EPD_Class) : M unit :=
  digitalWrite (EPD_Pin_RESET e) LOW ;;
  digitalWrite (EPD_Pin_PANEL_ON e) LOW ;;
  digitalWrite (EPD_Pin_BORDER e) LOW ;;
  SPI_off ;;
  digitalWrite (EPD_Pin_EPD_CS e) LOW ;;
  discharge_pulses e 10.

(** [for (int i = 0; i < 4; ++i)] of [begin], with [attempts] iterations
    left; the value is [dc_ok]. *)
Fixpoint charge_pump_loop (e : EPD_Class) (attempts : nat) : M bool :=
  match attempts with
  | O => ret false
  | S attempts' =>
      let cs := EPD_Pin_EPD_CS e in
      SPI_send cs [0x70; 0x05] ;;
      SPI_send cs [0x72; 0x01] ;;
      Delay_ms 240 ;;
      SPI_send cs [0x70; 0x05] ;;
      SPI_send cs [0x72; 0x03] ;;
      Delay_ms 40 ;;
      SPI_send cs [0x70; 0x05] ;;
      SPI_send cs [0x72; 0x0f] ;;
      Delay_ms 40 ;;
      SPI_send cs [0x70; 0x0f] ;;
      dc_state <- SPI_read cs [0x73; 0x00] ;;
      if 0x40 =? Z.land 0x40 dc_state then ret true
      else charge_pump_loop e attempts'
  end.

(** [EPD_Class::begin]; the value is the driver with its new status. *)
Definition begin (e : EPD_Class) : M EPD_Class :=
  let cs := EPD_Pin_EPD_CS e in
  let e := set_status e EPD_OK in
  digitalWrite (EPD_Pin_RESET e) LOW ;;
  digitalWrite (EPD_Pin_PANEL_ON e) LOW ;;
  digitalWrite (EPD_Pin_DISCHARGE e) LOW ;;
  digitalWrite (EPD_Pin_BORDER e) LOW ;;
  digitalWrite (EPD_Pin_EPD_CS e) LOW ;;
  SPI_on ;;
  Delay_ms 5 ;;
  digitalWrite (EPD_Pin_PANEL_ON e) HIGH ;;
  Delay_ms 10 ;;
  digitalWrite (EPD_Pin_RESET e) HIGH ;;
  digitalWrite (EPD_Pin_BORDER e) HIGH ;;
  digitalWrite (EPD_Pin_EPD_CS e) HIGH ;;
  Delay_ms 5 ;;
  digitalWrite (EPD_Pin_RESET e) LOW ;;
  Delay_ms 5 ;;
  digitalWrite (EPD_Pin_RESET e) HIGH ;;
  Delay_ms 5 ;;
  while_busy [DelayUs 10] ;;
  _ <- SPI_read cs [0x71; 0x00] ;;
  cog_id <- SPI_read cs [0x71; 0x00] ;;
  if negb (0x02 =? Z.land 0x0f cog_id) then
    let e := set_status e EPD_UNSUPPORTED_COG in power_off e ;; ret e
  else
    SPI_send cs [0x70; 0x02] ;;
    SPI_send cs [0x72; 0x40] ;;
    SPI_send cs [0x70; 0x0f] ;;
    broken_panel <- SPI_read cs [0x73; 0x00] ;;
    if 0x00 =? Z.land 0x80 broken_panel then
      let e := set_status e EPD_PANEL_BROKEN in power_off e ;; ret e
    else
      SPI_send cs [0x70; 0x0b] ;;
      SPI_send cs [0x72; 0x02] ;;
      SPI_send cs [0x70; 0x01] ;;
      SPI_send cs (channel_select e) ;;
      SPI_send cs [0x70; 0x07] ;;
      SPI_send cs [0x72; 0xd1] ;;
      SPI_send cs [0x70; 0x08] ;;
      SPI_send cs [0x72; 0x02] ;;
      SPI_send cs [0x70; 0x09] ;;
      SPI_send cs [0x72; 0xc2] ;;
      SPI_send cs [0x70; 0x04] ;;
      SPI_send cs [0x72; 0x03] ;;
      SPI_send cs [0x70; 0x03] ;;
      SPI_send cs [0x72; 0x01] ;;
      SPI_send cs [0x70; 0x03] ;;
      SPI_send cs [0x72; 0x00] ;;
      Delay_ms 5 ;;
      dc_ok <- charge_pump_loop e 4 ;;
      if negb dc_ok then
        let e := set_status e EPD_DC_FAILED in power_off e ;; ret e
      else
        SPI_send cs [0x70; 0x02] ;;
        SPI_send cs [0x72; 0x40] ;;
        SPI_off ;;
        ret e.

(** [EPD_Class::end] from [SPI_on()] on: the DC/DC check and the power-down
    commands. *)
Definition end_teardown (e : EPD_Class) : M EPD_Class :=
  let cs := EPD_Pin_EPD_CS e in
  SPI_on ;;
  SPI_send cs [0x70; 0x0f] ;;
  dc_state <- SPI_read cs [0x73; 0x00] ;;
  if negb (0x40 =? Z.land 0x40 dc_state) then
    let e := set_status e EPD_DC_FAILED in power_off e ;; ret e
  else
    SPI_send cs [0x70; 0x03] ;;
    SPI_send cs [0x72; 0x01] ;;
    SPI_send cs [0x70; 0x02] ;;
    SPI_send cs [0x72; 0x05] ;;
    SPI_send cs [0x70; 0x05] ;;
    SPI_send cs [0x72; 0x0e] ;;
    SPI_send cs [0x70; 0x05] ;;
    SPI_send cs [0x72; 0x02] ;;
    SPI_send cs [0x70; 0x05] ;;
    SPI_send cs [0x72; 0x00] ;;
    SPI_send cs [0x70; 0x07] ;;
    SPI_send cs [0x72; 0x0d] ;;
    SPI_send cs [0x70; 0x04] ;;
    SPI_send cs [0x72; 0x83] ;;
    Delay_ms 120 ;;
    SPI_send cs [0x70; 0x04] ;;
    SPI_send cs [0x72; 0x00] ;;
    power_off e ;;
    ret e.

(** [EPD_Class::end]: the dummy line and border part, chosen by
    [if (EPD_2_7 == this->size)], then the teardown; the value is the
    driver with its new status. *)
Definition end_ (t : Target) (e : EPD_Class) : M EPD_Class :=
  match size e with
  | EPD_2_7 =>
      Delay_ms 25 ;;
      digitalWrite (EPD_Pin_BORDER e) LOW ;;
      Delay_ms 250 ;;
      digitalWrite (EPD_Pin_BORDER e) HIGH
  | _ =>
      line t e [] (mk_line 0x7fff None 0x00 false EPD_normal 0xff) ;;
      Delay_ms 40 ;;
      line t e [] (mk_line 0x7fff None 0x00 false EPD_normal 0xaa) ;;
      Delay_ms 200 ;;
      line t e [] (mk_line 0x7fff None 0x00 false EPD_normal
                           (default_border_byte t)) ;;
      Delay_ms 25
  end ;;
  end_teardown e.

(** ** Notions used to state the properties *)

(** The two bits of [v] at bit position [k]. *)
Definition bit_pair (v k : Z) : Z := Z.land (Z.shiftr v k) 0x03.

(** The bytes [image[off] .. image[off + n - 1]] of one scanline. *)
Definition scanline (image : list Z) (off : Z) (n : nat) : list Z :=
  firstn n (skipn (Z.to_nat off) image).

(** The time a pass took when the clock wrapped once between the two
    readings: the end reading counted as if the counter had gone on. *)
Definition elapsed_unwrapped (t_start t_end : Z) : Z :=
  t_end + (ULONG_MAX + 1) - t_start.

(** The values of a byte. *)
Definition all_bytes : list Z := map Z.of_nat (seq 0 256).

(** The even-pixel value before the pairs are put in the opposite order:
    the masked byte, inverted or not, moved down one bit under [0xAA]. *)
Definition even_extract (stage : EPD_stage) (x : Z) : Z :=
  let masked := Z.land x 0xaa in
  match stage with
  | EPD_inverse => Z.lor 0xaa (Z.shiftr (Z.lxor masked 0xaa) 1)
  | EPD_normal => Z.lor 0xaa (Z.shiftr masked 1)
  end.

(** The check behind the even-pixel property, for one byte. *)
Definition even_pixels_ok (stage : EPD_stage) (x : Z) : bool :=
  let r := even_pixels stage x in
  let m := even_extract stage x in
  (0 <=? r) && (r <? 256) &&
  (bit_pair r 0 =? bit_pair m 6) && (bit_pair r 2 =? bit_pair m 4) &&
  (bit_pair r 4 =? bit_pair m 2) && (bit_pair r 6 =? bit_pair m 0).

(** The call the body of the sweep makes at a visit, [real pos] being the
    call of its last branch. *)
Definition call_of_visit (total_lines repeat border : Z)
  (real : Z -> line_call) (v : visit) : line_call :=
  if (v_pos v <? 0) || (v_pos v >? total_lines) then
    mk_line 0x7fff None 0x00 false EPD_normal border
  else if (0 =? v_offset v) && (v_pass v =? repeat - 1) then
    mk_line (v_pos v) None 0x00 false EPD_normal border
  else real (v_pos v).

(** The policy of the sweep at one visited position: what call [c] of
    [line] a visit [v] must produce, [real pos] being the call that writes
    the real value or image scanline at [pos]; the last part says that
    offset 0 of the last pass gets a zero-value line in either range. *)
Definition sweep_policy (total_lines repeat border : Z)
  (real : Z -> line_call) (v : visit) (c : line_call) : Prop :=
  (v_pos v < 0 \/ total_lines < v_pos v ->
   c = mk_line 0x7fff None 0x00 false EPD_normal border) /\
  (0 <= v_pos v <= total_lines ->
   v_offset v = 0 /\ v_pass v = repeat - 1 ->
   c = mk_line (v_pos v) None 0x00 false EPD_normal border) /\
  (0 <= v_pos v <= total_lines ->
   ~ (v_offset v = 0 /\ v_pass v = repeat - 1) ->
   c = real (v_pos v)) /\
  (v_offset v = 0 /\ v_pass v = repeat - 1 ->
   lc_data c = None /\ lc_fixed_value c = 0x00 /\ lc_stage c = EPD_normal).

(** The positions of the sweep in closed form: pass [n] below [repeat],
    the [k]-th block start [step - block + k * step] below
    [total_lines + step], and an offset below [block]. *)
Definition visited (repeat step block total_lines : Z) (v : visit) : Prop :=
  0 <= v_pass v < repeat /\
  0 <= v_offset v < block /\
  exists k, 0 <= k /\
            step - block + k * step < total_lines + step /\
            v_pos v = step - block + k * step + v_offset v.

(** ** Event lists used to state the properties of the power sequencer *)

(** The byte the COG returns on the [k]-th transfer from now (from 0). *)
Definition reply (w : World) (k : nat) : Z := spi_in w (k + spi_count w).

(** The samples left after [n] busy-waits. *)
Fixpoint skip_waits (n : nat) (samples : list level) : option (list level) :=
  match n with
  | O => Some samples
  | S n' =>
      match busy_wait samples with
      | Some (_, rest) => skip_waits n' rest
      | None => None
      end
  end.

Definition low_samples (samples : list level) : nat :=
  length (filter (fun v => match v with LOW => true | HIGH => false end)
                 samples).

(** One framed transaction of [SPI_send] or [SPI_read]. *)
Definition spi_frame (cs_pin : Z) (buffer : list Z) : list event :=
  [DelayUs 10; DigitalWrite (u8 cs_pin) LOW]
  ++ map SpiTransfer buffer ++ [DigitalWrite (u8 cs_pin) HIGH].

Definition spi_on_events : list event :=
  [SpiEnd; SpiBegin; SpiSetBitOrder_MSBFIRST; SpiSetDataMode_MODE0;
   SpiSetClockDivider_DIV2; SpiTransfer 0x00; SpiTransfer 0x00; DelayUs 10].

Definition spi_off_events : list event :=
  [SpiSetDataMode_MODE0; SpiTransfer 0x00; SpiTransfer 0x00; DelayUs 10;
   SpiEnd].

Definition power_off_events (e : EPD_Class) : list event :=
  [DigitalWrite (EPD_Pin_RESET e) LOW;
   DigitalWrite (EPD_Pin_PANEL_ON e) LOW;
   DigitalWrite (EPD_Pin_BORDER e) LOW]
  ++ spi_off_events
  ++ [DigitalWrite (EPD_Pin_EPD_CS e) LOW]
  ++ concat (repeat [DelayMs 10; DigitalWrite (EPD_Pin_DISCHARGE e) HIGH;
                     DelayMs 10; DigitalWrite (EPD_Pin_DISCHARGE e) LOW]
                    10).

(** [begin] up to the wait for the COG, after [n] polls that read HIGH. *)
Definition power_up_events (e : EPD_Class) (n : nat) : list event :=
  [DigitalWrite (EPD_Pin_RESET e) LOW;
   DigitalWrite (EPD_Pin_PANEL_ON e) LOW;
   DigitalWrite (EPD_Pin_DISCHARGE e) LOW;
   DigitalWrite (EPD_Pin_BORDER e) LOW;
   DigitalWrite (EPD_Pin_EPD_CS e) LOW]
  ++ spi_on_events
  ++ [DelayMs 5; DigitalWrite (EPD_Pin_PANEL_ON e) HIGH; DelayMs 10;
      DigitalWrite (EPD_Pin_RESET e) HIGH;
      DigitalWrite (EPD_Pin_BORDER e) HIGH;
      DigitalWrite (EPD_Pin_EPD_CS e) HIGH; DelayMs 5;
      DigitalWrite (EPD_Pin_RESET e) LOW; DelayMs 5;
      DigitalWrite (EPD_Pin_RESET e) HIGH; DelayMs 5]
  ++ concat (repeat [DelayUs 10] n).

(** The two reads of the COG identifier. *)
Definition cog_id_events (cs : Z) : list event :=
  spi_frame cs [0x71; 0x00] ++ spi_frame cs [0x71; 0x00].

(** Output enable off, then the read of the panel status. *)
Definition panel_check_events (cs : Z) : list event :=
  spi_frame cs [0x70; 0x02] ++ spi_frame cs [0x72; 0x40]
  ++ spi_frame cs [0x70; 0x0f] ++ spi_frame cs [0x73; 0x00].

(** Power saving, channel select, oscillator, power, Vcom and latch. *)
Definition configure_events (e : EPD_Class) : list event :=
  let cs := EPD_Pin_EPD_CS e in
  spi_frame cs [0x70; 0x0b] ++ spi_frame cs [0x72; 0x02]
  ++ spi_frame cs [0x70; 0x01] ++ spi_frame cs (channel_select e)
  ++ spi_frame cs [0x70; 0x07] ++ spi_frame cs [0x72; 0xd1]
  ++ spi_frame cs [0x70; 0x08] ++ spi_frame cs [0x72; 0x02]
  ++ spi_frame cs [0x70; 0x09] ++ spi_frame cs [0x72; 0xc2]
  ++ spi_frame cs [0x70; 0x04] ++ spi_frame cs [0x72; 0x03]
  ++ spi_frame cs [0x70; 0x03] ++ spi_frame cs [0x72; 0x01]
  ++ spi_frame cs [0x70; 0x03] ++ spi_frame cs [0x72; 0x00]
  ++ [DelayMs 5].

(** One attempt of the charge-pump bring-up: positive pump, 240 ms,
    negative pump, 40 ms, Vcom pump, 40 ms, then the DC/DC status poll. *)
Definition pump_cycle_events (cs : Z) : list event :=
  spi_frame cs [0x70; 0x05] ++ spi_frame cs [0x72; 0x01] ++ [DelayMs 240]
  ++ spi_frame cs [0x70; 0x05] ++ spi_frame cs [0x72; 0x03] ++ [DelayMs 40]
  ++ spi_frame cs [0x70; 0x05] ++ spi_frame cs [0x72; 0x0f] ++ [DelayMs 40]
  ++ spi_frame cs [0x70; 0x0f] ++ spi_frame cs [0x73; 0x00].

(** The end of a successful [begin]. *)
Definition begin_finish_events (cs : Z) : list event :=
  spi_frame cs [0x70; 0x02] ++ spi_frame cs [0x72; 0x40] ++ spi_off_events.

(** Everything [begin] does before the first charge-pump attempt. *)
Definition begin_prelude_events (e : EPD_Class) (n : nat) : list event :=
  power_up_events e n ++ cog_id_events (EPD_Pin_EPD_CS e)
  ++ panel_check_events (EPD_Pin_EPD_CS e) ++ configure_events e.

(** The transfers, counted from 0 at the start of [begin], whose replies
    [begin] tests: [SPI_on] makes transfers 0 and 1, the two identifier
    reads 2 to 5, the panel check 6 to 13, the configuration 14 to 52, and
    each charge-pump attempt 16 more, the DC/DC poll being the last. *)
Definition cog_id_reply : nat := 5.
Definition panel_status_reply : nat := 13.
Definition dc_poll (k : nat) : nat := 68 + 16 * k.

(** The events of one call of [line] that sends [bytes]. *)
Definition line_events (e : EPD_Class) (bytes : list Z) : list event :=
  spi_on_events
  ++ spi_frame (EPD_Pin_EPD_CS e) [0x70; 0x0a]
  ++ [DelayUs 10; DigitalWrite (EPD_Pin_EPD_CS e) LOW]
  ++ map SpiTransfer bytes
  ++ [DigitalWrite (EPD_Pin_EPD_CS e) HIGH]
  ++ spi_frame (EPD_Pin_EPD_CS e) [0x70; 0x02]
  ++ spi_frame (EPD_Pin_EPD_CS e) [0x72; 0x07]
  ++ spi_off_events.

(** The bytes of a dummy line: sub-command, border byte, and zero for
    every pixel and scan byte. *)
Definition dummy_line_bytes (e : EPD_Class) (border : Z) : list Z :=
  [0x72; border]
  ++ repeat 0x00 (Z.to_nat (bytes_per_line e))
  ++ repeat 0x00 (Z.to_nat (bytes_per_scan e))
  ++ repeat 0x00 (Z.to_nat (bytes_per_line e)).

(** The number of bytes [line] sends with [SPI_put_wait]. *)
Definition line_length (e : EPD_Class) : nat :=
  2 + Z.to_nat (bytes_per_line e) + Z.to_nat (bytes_per_scan e)
  + Z.to_nat (bytes_per_line e).

(** How [end] starts on the panels other than 2.7 inch: three dummy lines
    with border bytes 0xff, 0xaa and the default, each followed by its
    delay. *)
Definition end_dummy_lines_events (t : Target) (e : EPD_Class)
  : list event :=
  line_events e (dummy_line_bytes e 0xff) ++ [DelayMs 40]
  ++ line_events e (dummy_line_bytes e 0xaa) ++ [DelayMs 200]
  ++ line_events e (dummy_line_bytes e (default_border_byte t))
  ++ [DelayMs 25].

(** How [end] starts on the 2.7 inch panel. *)
Definition end_border_pulse_events (e : EPD_Class) : list event :=
  [DelayMs 25; DigitalWrite (EPD_Pin_BORDER e) LOW; DelayMs 250;
   DigitalWrite (EPD_Pin_BORDER e) HIGH].

(** The events of a call of [line] without image data. *)
Definition call_events (t : Target) (e : EPD_Class) (c : line_call)
  : list event :=
  match line_bytes t e [] c with
  | Fetched bytes => line_events e bytes
  | OutOfBounds _ => []
  end.

(** A full-frame write of a fixed value: every scanline of the panel
    written with [value], as one pass of [frame_fixed_timed] does. *)
Definition full_frame_events (t : Target) (e : EPD_Class) (value : Z)
  : list event :=
  concat (map (call_events t e) (frame_fixed_pass t e value)).

(** The start of [end] as three full-frame writes of 0xff, 0xaa and 0x00
    with delays of 40, 200 and 25 ms. *)
Definition end_full_frames_events (t : Target) (e : EPD_Class)
  : list event :=
  full_frame_events t e 0xff ++ [DelayMs 40]
  ++ full_frame_events t e 0xaa ++ [DelayMs 200]
  ++ full_frame_events t e 0x00 ++ [DelayMs 25].

(** [end] run in [w] starts with the events [evs]. *)
Definition end_starts_with (t : Target) (e : EPD_Class) (w : World)
  (evs : list event) : Prop :=
  exists e' w' later,
    end_ t e w = Ok e' w' /\ trace w' = trace w ++ evs ++ later.

(** Inputs of the worked examples. *)
Definition example_target : Target := mk_target true EPD_normal 0x00.
Definition example_status : EPD_error := EPD_DC_FAILED.
Definition example_pins : pin_assignment := mk_pins 2 3 4 5 6 7.
Definition example_world : World :=
  mk_world (fun _ => LOW) [] (repeat LOW 200) (fun _ => 0xff) O [].

(** A world whose COG answers at once for as long as a whole sweep of the
    1.44 inch panel takes (3584 lines of 58 bytes). *)
Definition patient_world : World :=
  mk_world (fun _ => LOW) [] (repeat LOW (3584 * 58)) (fun _ => 0xff) O [].

(** A world whose clock wraps during the first pass of a timed frame:
    it reads [ULONG_MAX], then 0 one millisecond later, then 5 and 7. *)
Definition wrapping_world : World :=
  mk_world (fun _ => LOW) [] (repeat LOW (2 * (96 * 58))) (fun _ => 0xff) O
           [ULONG_MAX; 0; 5; 7].

(** ** Notions used to state further properties *)

(** A byte with its four bit pairs in the opposite order. *)
Definition reverse_pairs (v : Z) : Z :=
  Z.lor (Z.lor (Z.lor (bit_pair v 6) (Z.shiftl (bit_pair v 4) 2))
               (Z.shiftl (bit_pair v 2) 4))
        (Z.shiftl (bit_pair v 0) 6).

(** The image byte read back from its odd-pixel and even-pixel bytes: the
    low bit of each pair of the odd byte gives the bits 0, 2, 4, 6, and the
    low bit of each pair of the even byte, pairs put back in order, gives
    the bits 1, 3, 5, 7. *)
Definition decode_pixels (odd even : Z) : Z :=
  Z.lor (Z.land odd 0x55)
        (Z.shiftl (Z.land (reverse_pairs even) 0x55) 1).

(** The checks behind the pixel-byte properties, for one byte. *)
Definition pixel_pairs_ok (x : Z) : bool :=
  (Z.land (odd_pixels EPD_normal x) 0xaa =? 0xaa) &&
  (Z.land (odd_pixels EPD_inverse x) 0xaa =? 0xaa) &&
  (Z.land (even_pixels EPD_normal x) 0xaa =? 0xaa) &&
  (Z.land (even_pixels EPD_inverse x) 0xaa =? 0xaa) &&
  (odd_pixels EPD_normal x <? 256) && (odd_pixels EPD_inverse x <? 256).

Definition pixel_complement_ok (x : Z) : bool :=
  (Z.lxor (odd_pixels EPD_inverse x) (odd_pixels EPD_normal x) =? 0x55) &&
  (Z.lxor (even_pixels EPD_inverse x) (even_pixels EPD_normal x) =? 0x55).

Definition pixel_decode_ok (x : Z) : bool :=
  (decode_pixels (odd_pixels EPD_normal x) (even_pixels EPD_normal x) =? x)
  && (decode_pixels (odd_pixels EPD_inverse x) (even_pixels EPD_inverse x)
      =? Z.lxor x 0xff).

(** The events [evs] write to no pin but [pin]. *)
Definition writes_only (pin : Z) (evs : list event) : Prop :=
  Forall (fun ev => match ev with
                    | DigitalWrite q _ => q = pin
                    | _ => True
                    end) evs.

(** How [end] starts, by panel size. *)
Definition end_start_events (t : Target) (e : EPD_Class) : list event :=
  match size e with
  | EPD_2_7 => end_border_pulse_events e
  | _ => end_dummy_lines_events t e
  end.

(** The DC/DC check of [end]. *)
Definition end_check_events (cs : Z) : list event :=
  spi_on_events ++ spi_frame cs [0x70; 0x0f] ++ spi_frame cs [0x73; 0x00].

(** The power-down commands of [end]: latch, output enable, the three
    charge-pump steps, oscillator, internal discharge on, 120 ms, internal
    discharge off. *)
Definition end_power_down_events (cs : Z) : list event :=
  spi_frame cs [0x70; 0x03] ++ spi_frame cs [0x72; 0x01]
  ++ spi_frame cs [0x70; 0x02] ++ spi_frame cs [0x72; 0x05]
  ++ spi_frame cs [0x70; 0x05] ++ spi_frame cs [0x72; 0x0e]
  ++ spi_frame cs [0x70; 0x05] ++ spi_frame cs [0x72; 0x02]
  ++ spi_frame cs [0x70; 0x05] ++ spi_frame cs [0x72; 0x00]
  ++ spi_frame cs [0x70; 0x07] ++ spi_frame cs [0x72; 0x0d]
  ++ spi_frame cs [0x70; 0x04] ++ spi_frame cs [0x72; 0x83]
  ++ [DelayMs 120]
  ++ spi_frame cs [0x70; 0x04] ++ spi_frame cs [0x72; 0x00].

(** The transfer, counted from 0 at the start of [end], that returns the
    DC/DC status: the transfers of the start, two of [SPI_on], two of the
    register select, and the read's own two. *)
Definition end_dc_reply (t : Target) (e : EPD_Class) : nat :=
  5 + transfers (end_start_events t e).

(** The clock readings let each timed frame end after one pass: for each
    stage time a start and an end reading in order, without wrap, with at
    least the stage time between them and a difference that fits a
    [long]. *)
Fixpoint one_pass_each (stage_times : list Z) (clock : list Z) : Prop :=
  match stage_times with
  | [] => True
  | st :: sts =>
      match clock with
      | t_start :: t_end :: later =>
          0 <= t_start <= t_end /\ t_end <= ULONG_MAX /\
          st <= t_end - t_start /\ t_end - t_start - st <= 2147483648 /\
          one_pass_each sts later
      | _ => False
      end
  end.

(** One round of stage 2: a full frame of 0xff, then one of 0xaa. *)
Definition stage2_round_events (t : Target) (e : EPD_Class) : list event :=
  full_frame_events t e 0xff ++ full_frame_events t e 0xaa.

(** ** Notions used to state what [line] sends *)

(** The data of call [c], if any, is a whole scanline inside [image]. *)
Definition in_image (e : EPD_Class) (image : list Z) (c : line_call) : Prop :=
  match lc_data c with
  | None => True
  | Some off =>
      0 <= off /\
      (Z.to_nat off + Z.to_nat (bytes_per_line e) <= length image)%nat
  end.

(** Call [c] of [line], run in [w], computes [bytes] and returns having
    sent them, one transfer each, between its two chip-select edges. *)
Definition line_sends (t : Target) (e : EPD_Class) (image : list Z)
  (c : line_call) (w : World) (bytes : list Z) : Prop :=
  line_bytes t e image c = Fetched bytes /\
  exists w',
    line t e image c w = Ok tt w' /\
    trace w' = trace w ++ line_events e bytes.

(** Call [c] of [line] sends the sub-command 0x72, its border byte,
    [bytes_per_line] odd-pixel bytes, the scan bytes [scan], and
    [bytes_per_line] even-pixel bytes. *)
Definition line_sends_scan (t : Target) (e : EPD_Class) (image : list Z)
  (c : line_call) (w : World) (scan : list Z) : Prop :=
  exists odd even,
    length odd = Z.to_nat (bytes_per_line e) /\
    length even = Z.to_nat (bytes_per_line e) /\
    line_sends t e image c w
               ([0x72; lc_border_byte c] ++ odd ++ scan ++ even).

(** Call [c] of [line] sends the scan bytes of line [l]: it drives the
    row of the panel that a write of line [l] drives. *)
Definition drives_row (t : Target) (e : EPD_Class) (c : line_call) (l : Z)
  : Prop :=
  scan_loop t e (u16 (lc_line c)) (Z.to_nat (bytes_per_scan e)) 0 =
  scan_loop t e (u16 l) (Z.to_nat (bytes_per_scan e)) 0.

(** * Properties *)

(** ** CompensationSelector *)

(** C6: [setFactor t] sets the offset to 0 below 10, to 1 from 10 to 40
    inclusive and to 2 above 40, and selects the band of the configured
    panel size at that offset; the constructor's call uses the default
    temperature 25, which lies in band 1. *)
Theorem setFactor_temperature_bands (temperature : Z) (e : EPD_Class) :
  (temperature < 10 -> temperature_offset (setFactor temperature e) = 0) /\
  (10 <= temperature <= 40 ->
   temperature_offset (setFactor temperature e) = 1) /\
  (40 < temperature -> temperature_offset (setFactor temperature e) = 2) /\
  temperature_offset (setFactor 10 e) = 1 /\
  temperature_offset (setFactor 40 e) = 1 /\
  compensation (setFactor temperature e) =
    nth (Z.to_nat (temperature_offset (setFactor temperature e)))
        (compensation_table (size e)) no_compensation /\
  size (setFactor temperature e) = size e /\
  setFactor_default_temperature = 25 /\
  (forall s0 sz p,
      temperature_offset (EPD_new s0 sz p) = 1 /\
      compensation (EPD_new s0 sz p) =
        nth 1 (compensation_table sz) no_compensation).
Proof.
  unfold setFactor, set_factor_fields.
  cbn [temperature_offset compensation size].
  repeat split.
  - intros H. apply Z.ltb_lt in H. now rewrite H.
  - intros [H1 H2].
    destruct (Z.ltb_spec temperature 10); [lia|].
    destruct (Z.gtb_spec temperature 40); [lia|reflexivity].
  - intros H.
    destruct (Z.ltb_spec temperature 10); [lia|].
    destruct (Z.gtb_spec temperature 40); [reflexivity|lia].
  - destruct sz; reflexivity.
  - destruct sz; reflexivity.
Qed.

Lemma setFactor_temperature_bands_witness :
  temperature_offset
    (setFactor 40 (EPD_new example_status EPD_2_0 (mk_pins 1 2 3 4 5 6))) = 1.
Proof.
  apply (proj1 (proj2 (setFactor_temperature_bands
                         40 (EPD_new example_status EPD_2_0
                                     (mk_pins 1 2 3 4 5 6))))).
  lia.
Defined.

(** ** Bytes *)

Lemma in_all_bytes (x : Z) : 0 <= x < 256 -> In x all_bytes.
Proof.
  intros H. unfold all_bytes.
  apply in_map_iff. exists (Z.to_nat x). split; [lia|].
  apply in_seq. lia.
Qed.

Lemma forall_bytes (P : Z -> bool) :
  forallb P all_bytes = true -> forall x, 0 <= x < 256 -> P x = true.
Proof.
  intros H x Hx. rewrite forallb_forall in H. apply H, in_all_bytes, Hx.
Qed.

Lemma land_u8_mask (x m : Z) : 0 <= m < 256 -> Z.land x m = Z.land (u8 x) m.
Proof.
  intros Hm. unfold u8.
  change 256 with (2 ^ 8). rewrite <- Z.land_ones by lia.
  rewrite <- Z.land_assoc. f_equal.
  symmetry. change (Z.ones 8) with 255.
  apply Z.bits_inj'. intros n Hn.
  rewrite Z.land_spec.
  destruct (Z.ltb_spec n 8).
  - change 255 with (Z.ones 8). rewrite Z.ones_spec_low by lia.
    apply andb_true_l.
  - replace (Z.testbit m n) with false; [apply andb_false_r|].
    symmetry. apply Z.bits_above_log2; [lia|].
    destruct (Z.eq_dec m 0) as [->|]; [simpl; lia|].
    apply Z.log2_lt_pow2; [lia|].
    apply Z.lt_le_trans with (2 ^ 8); [lia|].
    apply Z.pow_le_mono_r; lia.
Qed.

Lemma u8_range (x : Z) : 0 <= u8 x < 256.
Proof. unfold u8. apply Z.mod_pos_bound. lia. Qed.

(** ** Line encoder: pixel bytes *)

Lemma odd_pixels_checked :
  forallb (fun x =>
    (odd_pixels EPD_normal x =? Z.lor 0xaa (Z.land x 0x55)) &&
    (odd_pixels EPD_inverse x =? Z.lor 0xaa (Z.lxor (Z.land x 0x55) 0x55)))
    all_bytes = true.
Proof. vm_compute. reflexivity. Qed.

Lemma odd_pixels_u8 (stage : EPD_stage) (x : Z) :
  odd_pixels stage x = odd_pixels stage (u8 x).
Proof.
  unfold odd_pixels. now rewrite (land_u8_mask x 0x55) by lia.
Qed.

Lemma odd_pixels_formula (x : Z) :
  odd_pixels EPD_normal x = Z.lor 0xaa (Z.land x 0x55) /\
  odd_pixels EPD_inverse x = Z.lor 0xaa (Z.lxor (Z.land x 0x55) 0x55).
Proof.
  rewrite (odd_pixels_u8 EPD_normal), (odd_pixels_u8 EPD_inverse).
  rewrite (land_u8_mask x 0x55) by lia.
  pose proof (forall_bytes _ odd_pixels_checked (u8 x) (u8_range x)) as H.
  apply andb_prop in H. destruct H as [H1 H2].
  apply Z.eqb_eq in H1, H2. now split.
Qed.

Lemma read_byte_scanline (image : list Z) (off : Z) (i : nat) (x : Z) :
  0 <= off ->
  nth_error (skipn (Z.to_nat off) image) i = Some x ->
  read_byte image (off + Z.of_nat i) = Fetched x.
Proof.
  intros Hoff H. unfold read_byte.
  destruct (Z.ltb_spec (off + Z.of_nat i) 0); [lia|].
  rewrite nth_error_skipn in H.
  replace (Z.to_nat (off + Z.of_nat i)) with (Z.to_nat off + i)%nat by lia.
  now rewrite H.
Qed.

Lemma firstn_snoc {A} (l : list A) (n : nat) (x : A) :
  nth_error l n = Some x -> firstn (S n) l = firstn n l ++ [x].
Proof.
  revert l. induction n as [|n IH]; intros [|a l] H; try discriminate.
  - inversion H. reflexivity.
  - cbn [nth_error] in H. rewrite !firstn_cons, (IH l H). reflexivity.
Qed.

Lemma odd_loop_backward (image : list Z) (c : line_call) (off : Z) (n : nat) :
  lc_data c = Some off ->
  0 <= off ->
  (Z.to_nat off + n <= length image)%nat ->
  odd_loop image c n =
    Fetched (map (odd_pixels (lc_stage c)) (rev (scanline image off n))).
Proof.
  intros Hd Hoff. unfold scanline.
  induction n as [|n IH]; intros Hlen; cbn [odd_loop].
  - reflexivity.
  - rewrite Hd.
    destruct (nth_error (skipn (Z.to_nat off) image) n) as [x|] eqn:Hx.
    + rewrite (read_byte_scanline image off n x Hoff Hx). cbn [fetch_bind].
      rewrite IH by lia. cbn [fetch_bind].
      rewrite (firstn_snoc _ n x Hx), rev_app_distr. reflexivity.
    + apply nth_error_None in Hx. rewrite length_skipn in Hx. lia.
Qed.

Lemma even_pixels_checked :
  forallb (fun x => even_pixels_ok EPD_normal x && even_pixels_ok EPD_inverse x)
          all_bytes = true.
Proof. vm_compute. reflexivity. Qed.

Lemma even_pixels_u8 (stage : EPD_stage) (x : Z) :
  even_pixels stage x = even_pixels stage (u8 x) /\
  even_extract stage x = even_extract stage (u8 x).
Proof.
  unfold even_pixels, even_extract.
  now rewrite (land_u8_mask x 0xaa) by lia.
Qed.

Lemma even_pixels_pairs (stage : EPD_stage) (x : Z) :
  0 <= even_pixels stage x < 256 /\
  bit_pair (even_pixels stage x) 0 = bit_pair (even_extract stage x) 6 /\
  bit_pair (even_pixels stage x) 2 = bit_pair (even_extract stage x) 4 /\
  bit_pair (even_pixels stage x) 4 = bit_pair (even_extract stage x) 2 /\
  bit_pair (even_pixels stage x) 6 = bit_pair (even_extract stage x) 0.
Proof.
  destruct (even_pixels_u8 stage x) as [-> ->].
  pose proof (forall_bytes _ even_pixels_checked (u8 x) (u8_range x)) as H.
  apply andb_prop in H. destruct H as [Hn Hi].
  assert (Hs : even_pixels_ok stage (u8 x) = true)
    by (destruct stage; assumption).
  unfold even_pixels_ok in Hs.
  repeat (apply andb_prop in Hs; destruct Hs as [Hs ?]).
  repeat match goal with
         | H : (_ =? _) = true |- _ => apply Z.eqb_eq in H
         | H : (_ <=? _) = true |- _ => apply Z.leb_le in H
         | H : (_ <? _) = true |- _ => apply Z.ltb_lt in H
         end.
  repeat split; assumption.
Qed.

Lemma skipn_nth_cons {A} (l : list A) (k : nat) (x : A) :
  nth_error l k = Some x -> skipn k l = x :: skipn (S k) l.
Proof.
  revert l. induction k as [|k IH]; intros [|a l] H; try discriminate.
  - inversion H. reflexivity.
  - cbn [nth_error] in H. rewrite !skipn_cons. now apply IH.
Qed.

Lemma even_loop_forward (image : list Z) (c : line_call) (off : Z) (n : nat) :
  lc_data c = Some off ->
  0 <= off ->
  forall b,
    0 <= b ->
    (Z.to_nat (off + b) + n <= length image)%nat ->
    even_loop image c n b =
      Fetched (map (even_pixels (lc_stage c)) (scanline image (off + b) n)).
Proof.
  intros Hd Hoff. unfold scanline.
  induction n as [|n IH]; intros b Hb Hlen; cbn [even_loop].
  - reflexivity.
  - rewrite Hd.
    destruct (nth_error image (Z.to_nat (off + b))) as [x|] eqn:Hx.
    + unfold read_byte. destruct (Z.ltb_spec (off + b) 0); [lia|].
      rewrite Hx. cbn [fetch_bind].
      rewrite IH by lia. cbn [fetch_bind].
      rewrite (skipn_nth_cons _ _ x Hx), firstn_cons, map_cons.
      replace (Z.to_nat (off + (b + 1))) with (S (Z.to_nat (off + b))) by lia.
      reflexivity.
    + apply nth_error_None in Hx. lia.
Qed.

(** ** Line encoder: scan bytes *)

Lemma scan_loop_zero (t : Target) (e : EPD_Class) (line : Z) (n : nat) :
  forall b,
    scan_pos t e line < b \/ b + Z.of_nat n <= scan_pos t e line ->
    scan_loop t e line n b = repeat 0 n.
Proof.
  induction n as [|n IH]; intros b H; cbn [scan_loop repeat].
  - reflexivity.
  - unfold scan_byte at 1.
    destruct (Z.eqb_spec (scan_pos t e line) b); [lia|].
    f_equal. apply IH. lia.
Qed.

Lemma scan_loop_marker (t : Target) (e : EPD_Class) (line : Z) (n : nat) :
  forall b,
    b <= scan_pos t e line < b + Z.of_nat n ->
    scan_loop t e line n b =
      repeat 0 (Z.to_nat (scan_pos t e line - b))
      ++ u8 (Z.shiftl 0x03 (scan_shift line))
      :: repeat 0 (n - 1 - Z.to_nat (scan_pos t e line - b)).
Proof.
  induction n as [|n IH]; intros b H; [lia|].
  cbn [scan_loop]. unfold scan_byte at 1.
  destruct (Z.eqb_spec (scan_pos t e line) b) as [E|E].
  - rewrite E, Z.sub_diag. cbn [Z.to_nat repeat app].
    f_equal. rewrite scan_loop_zero by lia. f_equal. lia.
  - rewrite IH by lia.
    replace (Z.to_nat (scan_pos t e line - b))
      with (S (Z.to_nat (scan_pos t e line - (b + 1)))) by lia.
    cbn [repeat app].
    replace (S n - 1 - S (Z.to_nat (scan_pos t e line - (b + 1))))%nat
      with (n - 1 - Z.to_nat (scan_pos t e line - (b + 1)))%nat by lia.
    reflexivity.
Qed.

Lemma scan_marker_value (line : Z) :
  0 <= line ->
  u8 (Z.shiftl 0x03 (scan_shift line)) = Z.shiftl 0x03 (2 * (line mod 4)) /\
  Z.shiftl 0x03 (2 * (line mod 4)) <> 0.
Proof.
  intros H. unfold scan_shift.
  change 0x03 with (Z.ones 2) at 2. rewrite Z.land_ones by lia.
  change (2 ^ 2) with 4.
  assert (Hm : 0 <= line mod 4 < 4) by (apply Z.mod_pos_bound; lia).
  assert (Hc : line mod 4 = 0 \/ line mod 4 = 1 \/ line mod 4 = 2 \/
               line mod 4 = 3) by lia.
  destruct Hc as [-> | [-> | [-> | ->]]]; vm_compute; split;
    (reflexivity || discriminate).
Qed.

Lemma scan_pos_in_range (t : Target) (e : EPD_Class) (line : Z) :
  0 <= line < lines_per_display e ->
  lines_per_display e < 65536 ->
  scan_pos t e line = (lines_per_display e - line - 1) / 4.
Proof.
  intros H Hl. unfold scan_pos, u16. destruct (int16 t).
  - now rewrite Z.mod_small by lia.
  - apply Z.quot_div_nonneg; lia.
Qed.

Lemma scan_pos_sentinel (t : Target) (e : EPD_Class) :
  0 <= lines_per_display e <= 32764 ->
  0 <= bytes_per_scan e <= 8192 ->
  scan_pos t e 0x7fff < 0 \/ bytes_per_scan e <= scan_pos t e 0x7fff.
Proof.
  intros Hl Hb. unfold scan_pos, u16. destruct (int16 t).
  - right.
    replace (lines_per_display e - 32767 - 1)
      with (lines_per_display e + 32768 + (-1) * 65536) by lia.
    rewrite Z.mod_add, Z.mod_small by lia.
    apply Z.le_trans with (32768 / 4); [exact (proj2 Hb)|].
    apply Z.div_le_mono; lia.
  - left.
    replace (lines_per_display e - 32767 - 1)
      with (- (32768 - lines_per_display e)) by lia.
    rewrite Z.quot_opp_l by lia.
    rewrite Z.quot_div_nonneg by lia.
    assert (1 <= (32768 - lines_per_display e) / 4);
      [apply Z.div_le_lower_bound; lia | lia].
Qed.

(** ** Timed frame *)

(** When the end reading is below the start reading, the pass subtracts
    [t_start - t_end] from [stage_time]. *)
Lemma stage_time_after_wrap (stage_time t_start t_end : Z) :
  0 <= t_end < t_start -> t_start <= ULONG_MAX ->
  stage_time_after_pass stage_time t_start t_end =
    to_long (stage_time - (t_start - t_end)).
Proof.
  intros H Hmax. unfold stage_time_after_pass.
  destruct (Z.gtb_spec t_end t_start); [lia|].
  f_equal. f_equal. unfold ulong, ULONG_MAX in *.
  replace (t_start - t_end + 1 + 4294967295)
    with (t_start - t_end + 1 * (4294967295 + 1)) by lia.
  rewrite Z.mod_add by lia. apply Z.mod_small. lia.
Qed.

(** ** The stage 1 / stage 3 sweep *)

Lemma for_up_In {A} (body : Z -> A) (n : nat) (x : A) :
  forall b,
    In x (for_up body n b) <->
    exists i, b <= i < b + Z.of_nat n /\ x = body i.
Proof.
  induction n as [|n IH]; intros b; cbn [for_up In].
  - split; [tauto | intros (i & H & _); lia].
  - rewrite IH. split.
    + intros [H | (i & H & E)].
      * exists b. split; [lia | now symmetry].
      * exists i. split; [lia | exact E].
    + intros (i & H & E).
      destruct (Z.eq_dec i b) as [->|]; [left; now symmetry|].
      right. exists i. split; [lia | exact E].
Qed.

Lemma for_up_map {A B} (f : A -> B) (g : Z -> A) (body : Z -> B) (n : nat) :
  (forall i, body i = f (g i)) ->
  forall b, for_up body n b = map f (for_up g n b).
Proof.
  intros H. induction n as [|n IH]; intros b; cbn [for_up map].
  - reflexivity.
  - now rewrite H, IH.
Qed.

Lemma for_lines_map {A B} (f : A -> B) (g : Z -> Z -> A)
  (body : Z -> Z -> B) (step block total_lines : Z) (fuel : nat) :
  (forall l o, body l o = f (g l o)) ->
  forall line,
    for_lines body step block total_lines fuel line =
    option_map (map f) (for_lines g step block total_lines fuel line).
Proof.
  intros H. induction fuel as [|fuel IH]; intros line; cbn [for_lines].
  - reflexivity.
  - destruct (line <? total_lines + step); [|reflexivity].
    rewrite IH.
    destruct (for_lines g step block total_lines fuel (line + step));
      cbn [option_map]; [|reflexivity].
    rewrite map_app. do 2 f_equal. apply for_up_map. intros i. apply H.
Qed.

Lemma for_repeat_map {A B} (f : A -> B) (g : Z -> option (list A))
  (body : Z -> option (list B)) (k : nat) :
  (forall n, body n = option_map (map f) (g n)) ->
  forall n, for_repeat body k n = option_map (map f) (for_repeat g k n).
Proof.
  intros H. induction k as [|k IH]; intros n; cbn [for_repeat].
  - reflexivity.
  - rewrite H, IH.
    destruct (g n); cbn [option_map]; [|reflexivity].
    destruct (for_repeat g k (n + 1)); cbn [option_map]; [|reflexivity].
    now rewrite map_app.
Qed.

Lemma sweep_13_map {A B} (f : A -> B) (g : Z -> Z -> Z -> A)
  (body : Z -> Z -> Z -> B) (repeat step block total_lines : Z) :
  (forall n l o, body n l o = f (g n l o)) ->
  sweep_13 body repeat step block total_lines =
  option_map (map f) (sweep_13 g repeat step block total_lines).
Proof.
  intros H. unfold sweep_13. apply for_repeat_map.
  intros n. apply for_lines_map. intros l o. apply H.
Qed.

Lemma for_lines_total {A} (body : Z -> Z -> A) (step block total_lines : Z)
  (fuel : nat) :
  0 < step ->
  forall line,
    (Z.to_nat (total_lines + step - line) < fuel)%nat ->
    exists xs, for_lines body step block total_lines fuel line = Some xs.
Proof.
  intros Hs. induction fuel as [|fuel IH]; intros line Hf; [lia|].
  cbn [for_lines].
  destruct (Z.ltb_spec line (total_lines + step)); [|now eexists].
  destruct (IH (line + step)) as [xs ->]; [lia|]. now eexists.
Qed.

Lemma for_lines_In {A} (body : Z -> Z -> A) (step block total_lines : Z)
  (x : A) (fuel : nat) :
  0 < step ->
  forall line xs,
    for_lines body step block total_lines fuel line = Some xs ->
    (In x xs <->
     exists k o, 0 <= k /\ line + k * step < total_lines + step /\
                 0 <= o < block /\ x = body (line + k * step) o).
Proof.
  intros Hs. induction fuel as [|fuel IH]; intros line xs; cbn [for_lines];
    [discriminate|].
  destruct (Z.ltb_spec line (total_lines + step)) as [Hlt|Hge].
  - destruct (for_lines body step block total_lines fuel (line + step))
      as [rest|] eqn:Hrest; [|discriminate].
    intros E. inversion E; subst xs; clear E.
    rewrite in_app_iff, for_up_In, (IH _ _ Hrest). split.
    + intros [(o & Ho & E) | (k & o & Hk & Hl & Ho & E)].
      * exists 0, o. rewrite Z.mul_0_l, Z.add_0_r.
        repeat split; try lia. exact E.
      * exists (k + 1), o.
        replace (line + (k + 1) * step) with (line + step + k * step) by lia.
        repeat split; try lia. exact E.
    + intros (k & o & Hk & Hl & Ho & E).
      destruct (Z.eq_dec k 0) as [->|Hk0].
      * left. exists o. rewrite Z.mul_0_l, Z.add_0_r in E.
        split; [lia | exact E].
      * right. exists (k - 1), o.
        replace (line + step + (k - 1) * step) with (line + k * step) by lia.
        repeat split; try lia. exact E.
  - intros E. inversion E; subst xs; clear E. split; [intros []|].
    intros (k & o & Hk & Hl & _). nia.
Qed.

Lemma for_repeat_total {A} (body : Z -> option (list A)) (k : nat) :
  (forall n, exists xs, body n = Some xs) ->
  forall n, exists xs, for_repeat body k n = Some xs.
Proof.
  intros H. induction k as [|k IH]; intros n; cbn [for_repeat].
  - now eexists.
  - destruct (H n) as [pass ->]. destruct (IH (n + 1)) as [rest ->].
    now eexists.
Qed.

Lemma for_repeat_In {A} (body : Z -> option (list A)) (x : A) (k : nat) :
  forall n xs,
    for_repeat body k n = Some xs ->
    (In x xs <->
     exists i pass, n <= i < n + Z.of_nat k /\ body i = Some pass /\
                    In x pass).
Proof.
  induction k as [|k IH]; intros n xs; cbn [for_repeat].
  - intros E. inversion E. split; [intros [] | intros (i & _ & H & _); lia].
  - destruct (body n) as [pass|] eqn:Hpass; [|discriminate].
    destruct (for_repeat body k (n + 1)) as [rest|] eqn:Hrest;
      [|discriminate].
    intros E. inversion E; subst xs; clear E.
    rewrite in_app_iff, (IH _ _ Hrest). split.
    + intros [H | (i & q & Hi & Hq & H)].
      * exists n, pass. repeat split; try lia; assumption.
      * exists i, q. repeat split; try lia; assumption.
    + intros (i & q & Hi & Hq & H).
      destruct (Z.eq_dec i n) as [->|].
      * left. rewrite Hpass in Hq. now inversion Hq.
      * right. exists i, q. repeat split; try lia; assumption.
Qed.

Lemma sweep_visits_total (repeat step block total_lines : Z) :
  0 < step ->
  exists visits, sweep_visits repeat step block total_lines = Some visits.
Proof.
  intros Hs. unfold sweep_visits, sweep_13.
  apply for_repeat_total. intros n.
  apply for_lines_total; [exact Hs|]. unfold sweep_fuel. lia.
Qed.

Lemma sweep_visits_In (repeat step block total_lines : Z)
  (visits : list visit) (v : visit) :
  0 < step ->
  sweep_visits repeat step block total_lines = Some visits ->
  (In v visits <-> visited repeat step block total_lines v).
Proof.
  intros Hs Hv. unfold sweep_visits, sweep_13 in Hv.
  rewrite (for_repeat_In _ v _ _ _ Hv). unfold visited. split.
  - intros (i & pass & Hi & Hpass & Hin).
    apply (for_lines_In _ _ _ _ v _ Hs _ _ Hpass) in Hin.
    destruct Hin as (k & o & Hk & Hl & Ho & ->). cbn.
    split; [lia|]. split; [lia|]. exists k. repeat split; lia.
  - intros (Hn & Ho & k & Hk & Hl & Hp).
    destruct (for_lines_total
                (fun line offset => mk_visit (v_pass v) offset (line + offset))
                step block total_lines (sweep_fuel block total_lines) Hs
                (step - block)) as [pass Hpass]; [unfold sweep_fuel; lia|].
    exists (v_pass v), pass. split; [lia|]. split; [exact Hpass|].
    apply (for_lines_In _ _ _ _ v _ Hs _ _ Hpass).
    exists k, (v_offset v). repeat split; try lia.
    destruct v as [n o pos]; cbn in *. now subst pos.
Qed.

Lemma sweep_covers (repeat step block total_lines l : Z) :
  1 <= repeat -> 1 <= step <= block -> 0 <= l < total_lines ->
  exists v, visited repeat step block total_lines v /\ v_pos v = l.
Proof.
  intros Hr Hs Hl.
  pose proof (Z.div_mod (l + block - step) step ltac:(lia)) as Hdm.
  pose proof (Z.mod_pos_bound (l + block - step) step ltac:(lia)) as Hm.
  assert (Hk : 0 <= (l + block - step) / step)
    by (apply Z.div_pos; lia).
  exists (mk_visit 0 ((l + block - step) mod step) l).
  split; [|reflexivity]. unfold visited; cbn.
  split; [lia|]. split; [lia|].
  exists ((l + block - step) / step). repeat split; nia.
Qed.

Lemma Forall2_map_policy {A B} (R : A -> B -> Prop) (f : A -> B)
  (xs : list A) :
  (forall x, R x (f x)) -> Forall2 R xs (map f xs).
Proof.
  intros H. induction xs; cbn; constructor; auto.
Qed.

Lemma Forall2_In_l_policy {A B} (R : A -> B -> Prop) (xs : list A)
  (ys : list B) (x : A) :
  Forall2 R xs ys -> In x xs -> exists y, In y ys /\ R x y.
Proof.
  induction 1 as [|a b xs ys Hab _ IH]; intros Hin; [destruct Hin|].
  destruct Hin as [->|Hin].
  - exists b. split; [now left | exact Hab].
  - destruct (IH Hin) as (y & Hy & Hr). exists y. split; [now right|exact Hr].
Qed.

(** The call made at a visit follows the policy. *)
Lemma policy_of_body (total_lines repeat border : Z) (real : Z -> line_call)
  (v : visit) :
  sweep_policy total_lines repeat border real v
    (call_of_visit total_lines repeat border real v).
Proof.
  unfold sweep_policy, call_of_visit.
  destruct (Z.ltb_spec (v_pos v) 0); cbn [orb].
  - repeat split; intros; try lia; reflexivity.
  - destruct (Z.gtb_spec (v_pos v) total_lines).
    + repeat split; intros; try lia; reflexivity.
    + destruct (Z.eqb_spec 0 (v_offset v)); cbn [andb].
      * destruct (Z.eqb_spec (v_pass v) (repeat - 1)).
        -- repeat split; intros; try lia; try reflexivity; tauto.
        -- repeat split; intros; try lia; reflexivity.
      * repeat split; intros; try lia; reflexivity.
Qed.

Lemma active_band (s0 : EPD_error) (sz : EPD_size) (p : pin_assignment)
  (temperature : Z) (stage : EPD_stage) :
  let e := setFactor temperature (EPD_new s0 sz p) in
  1 <= stage_repeat e stage /\
  1 <= stage_step e stage <= stage_block e stage /\
  0 < lines_per_display e.
Proof.
  unfold setFactor.
  destruct sz, (temperature <? 10), (temperature >? 40), stage;
    vm_compute; repeat split; congruence.
Qed.

(** Both frame functions make, at each visit of the sweep, the call of
    their loop body. *)
Lemma frame_13_calls_of_visits (t : Target) (e : EPD_Class) (value : Z)
  (stage : EPD_stage) (visits : list visit) :
  sweep_visits (stage_repeat e stage) (stage_step e stage)
               (stage_block e stage) (lines_per_display e) = Some visits ->
  frame_fixed_13_calls t e value stage =
    Some (map (call_of_visit
                 (lines_per_display e) (stage_repeat e stage)
                 (default_border_byte t)
                 (fun pos => mk_line pos None value false stage
                                     (default_border_byte t)))
              visits) /\
  frame_data_13_calls t e stage =
    Some (map (call_of_visit
                 (lines_per_display e) (stage_repeat e stage)
                 (default_border_byte t)
                 (fun pos => mk_line pos (Some (pos * bytes_per_line e)) 0
                                     true stage (default_border_byte t)))
              visits).
Proof.
  intros Hv. unfold sweep_visits in Hv.
  unfold frame_fixed_13_calls, frame_data_13_calls. split.
  - rewrite (sweep_13_map
               (call_of_visit
                  (lines_per_display e) (stage_repeat e stage)
                  (default_border_byte t)
                  (fun pos => mk_line pos None value false stage
                                      (default_border_byte t)))
               (fun n line offset => mk_visit n offset (line + offset)))
      by reflexivity.
    now rewrite Hv.
  - rewrite (sweep_13_map
               (call_of_visit
                  (lines_per_display e) (stage_repeat e stage)
                  (default_border_byte t)
                  (fun pos => mk_line pos (Some (pos * bytes_per_line e)) 0
                                      true stage (default_border_byte t)))
               (fun n line offset => mk_visit n offset (line + offset)))
      by reflexivity.
    now rewrite Hv.
Qed.

Lemma call_of_visit_in_range (total_lines repeat border : Z)
  (real : Z -> line_call) (v : visit) :
  0 <= v_pos v < total_lines ->
  (forall pos, lc_line (real pos) = pos) ->
  lc_line (call_of_visit total_lines repeat border real v) = v_pos v.
Proof.
  intros H Hreal. unfold call_of_visit.
  destruct (Z.ltb_spec (v_pos v) 0); [lia|].
  destruct (Z.gtb_spec (v_pos v) total_lines); [lia|]. cbn [orb].
  destruct ((0 =? v_offset v) && (v_pass v =? repeat - 1));
    [reflexivity | apply Hreal].
Qed.

(** The calls of [frame_data_13] for the active band, visit by visit. *)
Lemma frame_data_13_calls_policy (t : Target) (s0 : EPD_error) (sz : EPD_size)
  (p : pin_assignment) (temperature : Z) (stage : EPD_stage) :
  let e := setFactor temperature (EPD_new s0 sz p) in
  exists visits calls,
    frame_data_13_calls t e stage = Some calls /\
    (forall v, In v visits <->
               visited (stage_repeat e stage) (stage_step e stage)
                       (stage_block e stage) (lines_per_display e) v) /\
    Forall2 (sweep_policy (lines_per_display e) (stage_repeat e stage)
               (default_border_byte t)
               (fun pos => mk_line pos (Some (pos * bytes_per_line e)) 0
                                   true stage (default_border_byte t)))
            visits calls.
Proof.
  intros e.
  destruct (active_band s0 sz p temperature stage) as (_ & Hs & _).
  fold e in Hs.
  destruct (sweep_visits_total (stage_repeat e stage) (stage_step e stage)
              (stage_block e stage) (lines_per_display e) ltac:(lia))
    as [visits Hv].
  destruct (frame_13_calls_of_visits t e 0 stage visits Hv) as [_ Hd].
  eexists visits, _. split; [exact Hd|]. split.
  - intros v. apply sweep_visits_In; [lia | exact Hv].
  - apply Forall2_map_policy. intros v. apply policy_of_body.
Qed.

(** C1: for the parameters of the active compensation band, the sweep of
    [frame_fixed_13] and [frame_data_13] ends, its visits are those of the
    nested loops (block starts from [step - block] by [step] while below
    [total_lines + step], [block] offsets each, [repeat] passes), every
    line of [0, total_lines) is visited and written at least once, and
    each visit produces the call the policy gives: a flush line outside
    [0, total_lines], a zero-value line at offset 0 of the last pass, the
    real value or image scanline under the requested stage otherwise. *)
Theorem sweep_13_covers_and_follows_policy (t : Target) (s0 : EPD_error)
  (sz : EPD_size) (p : pin_assignment) (temperature value : Z)
  (stage : EPD_stage) :
  let e := setFactor temperature (EPD_new s0 sz p) in
  let repeat := stage_repeat e stage in
  let step := stage_step e stage in
  let block := stage_block e stage in
  let total_lines := lines_per_display e in
  let border := default_border_byte t in
  exists visits fixed_calls data_calls,
    sweep_visits repeat step block total_lines = Some visits /\
    frame_fixed_13_calls t e value stage = Some fixed_calls /\
    frame_data_13_calls t e stage = Some data_calls /\
    (forall v, In v visits <-> visited repeat step block total_lines v) /\
    (forall l, 0 <= l < total_lines ->
               (exists v, In v visits /\ v_pos v = l) /\
               (exists c, In c fixed_calls /\ lc_line c = l) /\
               (exists c, In c data_calls /\ lc_line c = l)) /\
    Forall2 (sweep_policy total_lines repeat border
               (fun pos => mk_line pos None value false stage border))
            visits fixed_calls /\
    Forall2 (sweep_policy total_lines repeat border
               (fun pos => mk_line pos (Some (pos * bytes_per_line e)) 0
                                   true stage border))
            visits data_calls.
Proof.
  intros e repeat step block total_lines border.
  destruct (active_band s0 sz p temperature stage) as (Hr & Hs & Ht).
  fold e in Hr, Hs, Ht. fold repeat in Hr. fold step block in Hs.
  fold total_lines in Ht.
  destruct (sweep_visits_total repeat step block total_lines ltac:(lia))
    as [visits Hv].
  destruct (frame_13_calls_of_visits t e value stage visits Hv)
    as [Hf Hd].
  fold repeat total_lines border in Hf, Hd.
  assert (Hin : forall v,
             In v visits <-> visited repeat step block total_lines v)
    by (intros v; apply sweep_visits_In; [lia | exact Hv]).
  eexists visits, _, _.
  split; [exact Hv|]. split; [exact Hf|]. split; [exact Hd|].
  split; [exact Hin|]. split.
  - intros l Hl.
    destruct (sweep_covers repeat step block total_lines l Hr Hs Hl)
      as (v & Hvis & Hpos).
    apply Hin in Hvis.
    split; [exists v; now split|]. split.
    + eexists. split; [apply in_map; exact Hvis|].
      rewrite call_of_visit_in_range; [exact Hpos | lia | reflexivity].
    + eexists. split; [apply in_map; exact Hvis|].
      rewrite call_of_visit_in_range; [exact Hpos | lia | reflexivity].
  - split; apply Forall2_map_policy; intros v; apply policy_of_body.
Qed.

(** ** Image reads of [frame_data_13] *)

Lemma read_byte_past_end (image : list Z) (index : Z) :
  Z.of_nat (length image) <= index ->
  read_byte image index = OutOfBounds index.
Proof.
  intros H. unfold read_byte.
  destruct (Z.ltb_spec index 0); [reflexivity|].
  assert (E : nth_error image (Z.to_nat index) = None)
    by (apply nth_error_None; lia).
  now rewrite E.
Qed.

Lemma line_bytes_past_end (t : Target) (e : EPD_Class) (image : list Z)
  (c : line_call) (off : Z) :
  lc_data c = Some off ->
  0 < bytes_per_line e ->
  Z.of_nat (length image) <= off + bytes_per_line e - 1 ->
  line_bytes t e image c = OutOfBounds (off + bytes_per_line e - 1).
Proof.
  intros Hd Hb Hlen. unfold line_bytes.
  destruct (Z.to_nat (bytes_per_line e)) as [|b'] eqn:Eb; [lia|].
  cbn [odd_loop]. rewrite Hd.
  replace (off + Z.of_nat b') with (off + bytes_per_line e - 1) by lia.
  now rewrite read_byte_past_end.
Qed.

(** On every panel, at every temperature and for either stage,
    [frame_data_13] calls [line] with the scanline index
    [lines_per_display], whose data lies past an image of
    [lines_per_display * bytes_per_line] bytes. *)
Lemma frame_data_13_line_past_image (t : Target) (s0 : EPD_error)
  (sz : EPD_size) (p : pin_assignment) (temperature : Z) (stage : EPD_stage)
  (image : list Z) :
  let e := setFactor temperature (EPD_new s0 sz p) in
  Z.of_nat (length image) = lines_per_display e * bytes_per_line e ->
  exists calls c,
    frame_data_13_calls t e stage = Some calls /\
    In c calls /\
    lc_line c = lines_per_display e /\
    line_bytes t e image c =
      OutOfBounds (lines_per_display e * bytes_per_line e
                   + bytes_per_line e - 1).
Proof.
  intros e Hlen.
  destruct (frame_data_13_calls_policy t s0 sz p temperature stage)
    as (visits & calls & Hd & Hin & Hpol).
  fold e in Hd, Hin, Hpol.
  assert (Hband : 2 <= stage_repeat e stage /\
                  1 <= stage_step e stage <= stage_block e stage /\
                  0 < lines_per_display e /\ 0 < bytes_per_line e).
  { subst e. unfold setFactor.
    destruct sz, (temperature <? 10), (temperature >? 40), stage;
      vm_compute; repeat split; congruence. }
  destruct Hband as (Hr & Hs & Ht & Hb).
  set (total := lines_per_display e) in *.
  set (step := stage_step e stage) in *.
  set (block := stage_block e stage) in *.
  pose proof (Z.div_mod (total + block - step) step ltac:(lia)) as Hdm.
  pose proof (Z.mod_pos_bound (total + block - step) step ltac:(lia)) as Hm.
  assert (Hk : 0 <= (total + block - step) / step)
    by (apply Z.div_pos; lia).
  set (v := mk_visit 0 ((total + block - step) mod step) total).
  assert (Hvis : In v visits).
  { apply Hin. unfold visited, v; cbn [v_pass v_offset v_pos].
    split; [lia|]. split; [lia|].
    exists ((total + block - step) / step). repeat split; nia. }
  destruct (Forall2_In_l_policy _ _ _ _ Hpol Hvis) as (c & Hc & Hp).
  destruct Hp as (_ & _ & Hreal & _).
  assert (H1 : 0 <= v_pos v <= total) by (unfold v; cbn [v_pos]; lia).
  assert (H2 : ~ (v_offset v = 0 /\ v_pass v = stage_repeat e stage - 1))
    by (unfold v; cbn [v_pass]; lia).
  specialize (Hreal H1 H2). unfold v in Hreal. cbn [v_pos] in Hreal.
  exists calls, c. split; [exact Hd|]. split; [exact Hc|].
  subst c. split; [reflexivity|].
  rewrite (line_bytes_past_end t e image _ (total * bytes_per_line e));
    [reflexivity | reflexivity | exact Hb | lia].
Qed.

(** ** Running the transport operations *)

Lemma bind_Ok {A B} (m : M A) (k : A -> M B) (w w' : World) (a : A) :
  m w = Ok a w' -> bind m k w = k a w'.
Proof. intros H. unfold bind. now rewrite H. Qed.

Lemma output_nil (w : World) : output [] w = w.
Proof.
  destruct w. unfold output, transfers. cbn. now rewrite app_nil_r.
Qed.

Lemma transfers_app (a b : list event) :
  transfers (a ++ b) = (transfers a + transfers b)%nat.
Proof. unfold transfers. now rewrite filter_app, length_app. Qed.

Lemma output_output (a b : list event) (w : World) :
  output b (output a w) = output (a ++ b) w.
Proof.
  unfold output. cbn [pins trace busy_in spi_in spi_count clock_in].
  rewrite fold_left_app, app_assoc, transfers_app. f_equal. lia.
Qed.

Lemma output_set_busy (evs : list event) (samples : list level) (w : World) :
  output evs (set_busy samples w) = set_busy samples (output evs w).
Proof. reflexivity. Qed.

Lemma set_busy_set_busy (s1 s2 : list level) (w : World) :
  set_busy s2 (set_busy s1 w) = set_busy s2 w.
Proof. reflexivity. Qed.

Lemma reply_output (evs : list event) (w : World) (k : nat) :
  reply (output evs w) k = reply w (k + transfers evs).
Proof. unfold reply, output. cbn [spi_in spi_count]. f_equal. lia. Qed.

Lemma reply_set_busy (samples : list level) (w : World) (k : nat) :
  reply (set_busy samples w) k = reply w k.
Proof. reflexivity. Qed.

Lemma transfers_delays (n : nat) :
  transfers (concat (repeat [DelayUs 10] n)) = O.
Proof. induction n; [reflexivity | exact IHn]. Qed.

Lemma run_digitalWrite {B} (pin : Z) (v : level) (k : unit -> M B)
  (w : World) :
  bind (digitalWrite pin v) k w = k tt (output [DigitalWrite pin v] w).
Proof. reflexivity. Qed.

Lemma run_Delay_ms {B} (ms : Z) (k : unit -> M B) (w : World) :
  bind (Delay_ms ms) k w = k tt (output [DelayMs ms] w).
Proof. reflexivity. Qed.

Lemma run_Delay_us {B} (us : Z) (k : unit -> M B) (w : World) :
  bind (Delay_us us) k w = k tt (output [DelayUs us] w).
Proof. reflexivity. Qed.

Lemma run_emit {B} (ev : event) (k : unit -> M B) (w : World) :
  bind (emit ev) k w = k tt (output [ev] w).
Proof. reflexivity. Qed.

Lemma run_SPI_put {B} (c : Z) (k : unit -> M B) (w : World) :
  bind (SPI_put c) k w = k tt (output [SpiTransfer c] w).
Proof. reflexivity. Qed.

Lemma SPI_on_output (w : World) : SPI_on w = Ok tt (output spi_on_events w).
Proof.
  unfold SPI_on. rewrite !run_emit, !run_SPI_put.
  unfold Delay_us, emit. now rewrite !output_output.
Qed.

Lemma SPI_off_output (w : World) :
  SPI_off w = Ok tt (output spi_off_events w).
Proof.
  unfold SPI_off. rewrite !run_emit, !run_SPI_put, run_Delay_us.
  unfold emit. now rewrite !output_output.
Qed.

Lemma put_all_output (buffer : list Z) (w : World) :
  put_all buffer w = Ok tt (output (map SpiTransfer buffer) w).
Proof.
  revert w. induction buffer as [|c rest IH]; intros w; cbn [put_all map].
  - unfold ret. now rewrite output_nil.
  - rewrite run_SPI_put, IH, output_output. reflexivity.
Qed.

Lemma SPI_send_output (cs_pin : Z) (buffer : list Z) (w : World) :
  SPI_send cs_pin buffer w = Ok tt (output (spi_frame cs_pin buffer) w).
Proof.
  unfold SPI_send. rewrite run_Delay_us, run_digitalWrite.
  rewrite (bind_Ok _ _ _ _ _ (put_all_output _ _)).
  unfold digitalWrite, emit, spi_frame.
  rewrite !output_output, <- ?app_assoc. reflexivity.
Qed.

Lemma SPI_read_output (cs_pin a b : Z) (w : World) :
  SPI_read cs_pin [a; b] w =
  Ok (reply w 1) (output (spi_frame cs_pin [a; b]) w).
Proof.
  unfold SPI_read. rewrite run_Delay_us, run_digitalWrite.
  cbn [read_all]. unfold bind, SPI_transfer, ret, digitalWrite, emit.
  rewrite !output_output. reflexivity.
Qed.

Lemma discharge_pulses_output (e : EPD_Class) (n : nat) (w : World) :
  discharge_pulses e n w =
  Ok tt (output (concat (repeat [DelayMs 10;
                                 DigitalWrite (EPD_Pin_DISCHARGE e) HIGH;
                                 DelayMs 10;
                                 DigitalWrite (EPD_Pin_DISCHARGE e) LOW] n))
                w).
Proof.
  revert w. induction n as [|n IH]; intros w.
  - cbn [discharge_pulses repeat concat]. unfold ret. now rewrite output_nil.
  - cbn [discharge_pulses repeat concat].
    rewrite run_Delay_ms, run_digitalWrite, run_Delay_ms, run_digitalWrite.
    rewrite IH, !output_output. reflexivity.
Qed.

Lemma power_off_output (e : EPD_Class) (w : World) :
  power_off e w = Ok tt (output (power_off_events e) w).
Proof.
  unfold power_off. rewrite !run_digitalWrite.
  rewrite (bind_Ok _ _ _ _ _ (SPI_off_output _)), run_digitalWrite.
  rewrite discharge_pulses_output, !output_output. reflexivity.
Qed.

Lemma busy_wait_In (samples : list level) :
  In LOW samples -> exists n rest, busy_wait samples = Some (n, rest).
Proof.
  induction samples as [|[|] s IH]; cbn [busy_wait In]; intros H.
  - destruct H.
  - eauto.
  - destruct H as [H|H]; [discriminate|].
    destruct (IH H) as (n & r & ->). eauto.
Qed.

Lemma while_busy_output {B} (per : list event) (k : unit -> M B)
  (w : World) (n : nat) (rest : list level) :
  busy_wait (busy_in w) = Some (n, rest) ->
  bind (while_busy per) k w =
  k tt (set_busy rest (output (concat (repeat per n)) w)).
Proof. intros H. unfold bind, while_busy. now rewrite H. Qed.

Lemma run_SPI_on {B} (k : unit -> M B) (w : World) :
  bind SPI_on k w = k tt (output spi_on_events w).
Proof. apply bind_Ok, SPI_on_output. Qed.

Lemma run_SPI_off {B} (k : unit -> M B) (w : World) :
  bind SPI_off k w = k tt (output spi_off_events w).
Proof. apply bind_Ok, SPI_off_output. Qed.

Lemma run_SPI_send {B} (cs_pin : Z) (buffer : list Z) (k : unit -> M B)
  (w : World) :
  bind (SPI_send cs_pin buffer) k w =
  k tt (output (spi_frame cs_pin buffer) w).
Proof. apply bind_Ok, SPI_send_output. Qed.

Lemma run_SPI_read {B} (cs_pin a b : Z) (k : Z -> M B) (w : World) :
  bind (SPI_read cs_pin [a; b]) k w =
  k (reply w 1) (output (spi_frame cs_pin [a; b]) w).
Proof. apply bind_Ok, SPI_read_output. Qed.

Lemma run_power_off {B} (e : EPD_Class) (k : unit -> M B) (w : World) :
  bind (power_off e) k w = k tt (output (power_off_events e) w).
Proof. apply bind_Ok, power_off_output. Qed.

Lemma run_ret {A B} (a : A) (k : A -> M B) (w : World) :
  bind (ret a) k w = k a w.
Proof. reflexivity. Qed.

Ltac run :=
  repeat first
    [ rewrite run_digitalWrite | rewrite run_Delay_ms | rewrite run_Delay_us
    | rewrite run_SPI_on | rewrite run_SPI_off | rewrite run_SPI_send
    | rewrite run_SPI_read | rewrite run_power_off | rewrite run_ret ].

Ltac resolve_reply :=
  repeat first [rewrite reply_output | rewrite reply_set_busy];
  rewrite ?transfers_app, ?transfers_delays;
  match goal with
  | |- context [reply ?w ?k] =>
      let k' := eval vm_compute in k in change (reply w k) with (reply w k')
  end.

Lemma power_off_pins_low (e : EPD_Class) (ps : Z -> level) (q : Z) :
  q = EPD_Pin_RESET e \/ q = EPD_Pin_PANEL_ON e \/ q = EPD_Pin_BORDER e \/
  q = EPD_Pin_EPD_CS e \/ q = EPD_Pin_DISCHARGE e ->
  fold_left apply_event (power_off_events e) ps q = LOW.
Proof.
  intros H. cbn [power_off_events spi_off_events app concat repeat fold_left
                 apply_event].
  repeat match goal with
         | |- context [?a =? ?b] => destruct (Z.eqb_spec a b)
         end; try reflexivity; lia.
Qed.

Lemma begin_panel_broken_run (e : EPD_Class) (w : World) :
  In LOW (busy_in w) ->
  Z.land 0x0f (reply w cog_id_reply) = 0x02 ->
  Z.land 0x80 (reply w panel_status_reply) = 0 ->
  exists n rest,
    busy_wait (busy_in w) = Some (n, rest) /\
    begin e w =
    Ok (set_status e EPD_PANEL_BROKEN)
       (set_busy rest
          (output (power_up_events e n
                   ++ cog_id_events (EPD_Pin_EPD_CS e)
                   ++ panel_check_events (EPD_Pin_EPD_CS e)
                   ++ power_off_events e) w)).
Proof.
  intros Hb Hid Hp.
  destruct (busy_wait_In (busy_in w) Hb) as (n & rest & Hw).
  exists n, rest. split; [exact Hw|].
  unfold begin.
  cbn [EPD_Pin_RESET EPD_Pin_PANEL_ON EPD_Pin_DISCHARGE EPD_Pin_BORDER
       EPD_Pin_EPD_CS set_status].
  run. rewrite (while_busy_output _ _ _ n rest) by exact Hw.
  run. resolve_reply. unfold cog_id_reply in Hid. rewrite Hid.
  cbn [Z.eqb Pos.eqb negb].
  run. resolve_reply. unfold panel_status_reply in Hp. rewrite Hp.
  cbn [Z.eqb].
  run. unfold ret.
  rewrite ?output_set_busy, ?output_output.
  unfold power_up_events, cog_id_events, panel_check_events.
  rewrite <- ?app_assoc. reflexivity.
Qed.

Lemma trace_output (evs : list event) (samples : list level) (w : World) :
  trace (set_busy samples (output evs w)) = trace w ++ evs.
Proof. reflexivity. Qed.

Lemma pins_output (evs : list event) (samples : list level) (w : World) :
  pins (set_busy samples (output evs w)) = fold_left apply_event evs (pins w).
Proof. reflexivity. Qed.

(** C8: when the COG identifier read by the second read is 2 but the
    panel status has bit 0x80 clear, [begin] returns with status
    [EPD_PANEL_BROKEN] after running [power_off], and the reset, panel-on,
    border, chip-select and discharge pins are low. *)
Theorem begin_panel_broken (e : EPD_Class) (w : World) :
  In LOW (busy_in w) ->
  Z.land 0x0f (reply w cog_id_reply) = 0x02 ->
  Z.land 0x80 (reply w panel_status_reply) = 0 ->
  exists n e' w',
    begin e w = Ok e' w' /\
    status e' = EPD_PANEL_BROKEN /\
    trace w' = trace w ++ power_up_events e n
               ++ cog_id_events (EPD_Pin_EPD_CS e)
               ++ panel_check_events (EPD_Pin_EPD_CS e)
               ++ power_off_events e /\
    pins w' (EPD_Pin_RESET e) = LOW /\
    pins w' (EPD_Pin_PANEL_ON e) = LOW /\
    pins w' (EPD_Pin_BORDER e) = LOW /\
    pins w' (EPD_Pin_EPD_CS e) = LOW /\
    pins w' (EPD_Pin_DISCHARGE e) = LOW.
Proof.
  intros Hb Hid Hp.
  destruct (begin_panel_broken_run e w Hb Hid Hp) as (n & rest & _ & Hrun).
  exists n. eexists. eexists. split; [exact Hrun|].
  split; [reflexivity|]. split; [apply trace_output|].
  rewrite pins_output, !fold_left_app.
  repeat split; apply power_off_pins_low; tauto.
Qed.

Lemma begin_panel_broken_witness :
  exists e' w',
    begin (EPD_new example_status EPD_2_0 (mk_pins 2 3 4 5 6 7))
          (mk_world (fun _ => HIGH) [] [HIGH; HIGH; LOW] (fun _ => 0x02)
                    O []) = Ok e' w' /\
    status e' = EPD_PANEL_BROKEN /\
    pins w' 5 = LOW.
Proof.
  destruct (begin_panel_broken
              (EPD_new example_status EPD_2_0 (mk_pins 2 3 4 5 6 7))
              (mk_world (fun _ => HIGH) [] [HIGH; HIGH; LOW] (fun _ => 0x02)
                        O [])
              ltac:(simpl; tauto) eq_refl eq_refl)
    as (n & e' & w' & Hrun & Hst & Htr & Hreset & _).
  exists e', w'. split; [exact Hrun|]. split; [exact Hst|].
  exact Hreset.
Defined.

Lemma begin_reaches_pumps (s0 : EPD_error) (sz : EPD_size)
  (p : pin_assignment) (w : World) :
  let e := EPD_new s0 sz p in
  let e1 := set_status e EPD_OK in
  In LOW (busy_in w) ->
  Z.land 0x0f (reply w cog_id_reply) = 0x02 ->
  Z.land 0x80 (reply w panel_status_reply) = 0x80 ->
  exists n rest,
    begin e w =
    bind (charge_pump_loop e1 4)
      (fun dc_ok =>
         if negb dc_ok then
           power_off (set_status e1 EPD_DC_FAILED) ;;
           ret (set_status e1 EPD_DC_FAILED)
         else
           SPI_send (EPD_Pin_EPD_CS e) [0x70; 0x02] ;;
           SPI_send (EPD_Pin_EPD_CS e) [0x72; 0x40] ;;
           SPI_off ;;
           ret e1)
      (set_busy rest (output (begin_prelude_events e n) w)).
Proof.
  intros e e1 Hb Hid Hp.
  destruct (busy_wait_In (busy_in w) Hb) as (n & rest & Hw).
  exists n, rest.
  unfold begin.
  cbn [EPD_Pin_RESET EPD_Pin_PANEL_ON EPD_Pin_DISCHARGE EPD_Pin_BORDER
       EPD_Pin_EPD_CS set_status].
  run. rewrite (while_busy_output _ _ _ n rest) by exact Hw.
  run. resolve_reply. unfold cog_id_reply in Hid. rewrite Hid.
  cbn [Z.eqb Pos.eqb negb].
  run. resolve_reply. unfold panel_status_reply in Hp. rewrite Hp.
  cbn [Z.eqb].
  run.
  rewrite ?output_set_busy, ?output_output.
  unfold begin_prelude_events, power_up_events, cog_id_events,
    panel_check_events, configure_events.
  rewrite <- ?app_assoc.
  subst e1 e. destruct sz; reflexivity.
Qed.

Lemma pump_cycle_run (e : EPD_Class) (attempts : nat) (w : World) :
  charge_pump_loop e (S attempts) w =
  if 0x40 =? Z.land 0x40 (reply w 15) then
    Ok true (output (pump_cycle_events (EPD_Pin_EPD_CS e)) w)
  else
    charge_pump_loop e attempts
      (output (pump_cycle_events (EPD_Pin_EPD_CS e)) w).
Proof.
  cbn [charge_pump_loop]. run. resolve_reply.
  rewrite ?output_output. unfold pump_cycle_events.
  rewrite <- ?app_assoc.
  destruct (0x40 =? Z.land 0x40 (reply w 15)); reflexivity.
Qed.

Lemma charge_pump_loop_fails (e : EPD_Class) (attempts : nat) :
  forall w,
    (forall j, (j < attempts)%nat ->
               Z.land 0x40 (reply w (15 + 16 * j)) = 0) ->
    charge_pump_loop e attempts w =
    Ok false
       (output (concat (repeat (pump_cycle_events (EPD_Pin_EPD_CS e))
                               attempts)) w).
Proof.
  induction attempts as [|a IH]; intros w H.
  - cbn [charge_pump_loop repeat concat]. unfold ret.
    now rewrite output_nil.
  - rewrite pump_cycle_run.
    pose proof (H O ltac:(lia)) as H0. cbn [Nat.mul Nat.add] in H0.
    rewrite H0. cbn [Z.eqb].
    rewrite IH.
    + rewrite output_output. reflexivity.
    + intros j Hj. rewrite reply_output.
      replace (transfers (pump_cycle_events (EPD_Pin_EPD_CS e))) with 16%nat
        by reflexivity.
      replace (15 + 16 * j + 16)%nat with (15 + 16 * S j)%nat by lia.
      apply H. lia.
Qed.

Lemma charge_pump_loop_ready (e : EPD_Class) (k : nat) :
  forall attempts w,
    (k < attempts)%nat ->
    (forall j, (j < k)%nat -> Z.land 0x40 (reply w (15 + 16 * j)) = 0) ->
    Z.land 0x40 (reply w (15 + 16 * k)) = 0x40 ->
    charge_pump_loop e attempts w =
    Ok true
       (output (concat (repeat (pump_cycle_events (EPD_Pin_EPD_CS e))
                               (S k))) w).
Proof.
  induction k as [|k IH]; intros [|a] w Hk H Hr; try lia.
  - rewrite pump_cycle_run. cbn [Nat.mul Nat.add] in Hr. rewrite Hr.
    cbn [Z.eqb Pos.eqb repeat concat]. now rewrite app_nil_r.
  - rewrite pump_cycle_run.
    pose proof (H O ltac:(lia)) as H0. cbn [Nat.mul Nat.add] in H0.
    rewrite H0. cbn [Z.eqb].
    assert (Hshift : forall j,
      reply (output (pump_cycle_events (EPD_Pin_EPD_CS e)) w) (15 + 16 * j)
      = reply w (15 + 16 * S j)).
    { intros j. rewrite reply_output. f_equal.
      replace (transfers (pump_cycle_events (EPD_Pin_EPD_CS e))) with 16%nat
        by reflexivity. lia. }
    rewrite (IH a).
    + rewrite output_output. reflexivity.
    + lia.
    + intros j Hj. rewrite Hshift. apply H. lia.
    + rewrite Hshift. exact Hr.
Qed.

Lemma transfers_prelude (s0 : EPD_error) (sz : EPD_size) (p : pin_assignment)
  (n : nat) :
  transfers (begin_prelude_events (EPD_new s0 sz p) n) = 53%nat.
Proof.
  unfold begin_prelude_events, power_up_events.
  rewrite !transfers_app, transfers_delays.
  destruct sz; reflexivity.
Qed.

(** C7: the charge-pump bring-up of [begin] makes at most 4 attempts, each
    enabling the positive, negative and Vcom pumps with delays of 240, 40
    and 40 ms before polling the DC/DC status (mask 0x40); the first
    attempt that reads the bit set ends the loop and [begin] finishes with
    status [EPD_OK]; when the bit is clear at all 4 polls, [begin] returns
    with status [EPD_DC_FAILED] after exactly 4 attempts followed by
    [power_off]. *)
Theorem begin_charge_pump_attempts (s0 : EPD_error) (sz : EPD_size)
  (p : pin_assignment) (w : World) :
  let e := EPD_new s0 sz p in
  let cs := EPD_Pin_EPD_CS e in
  In LOW (busy_in w) ->
  Z.land 0x0f (reply w cog_id_reply) = 0x02 ->
  Z.land 0x80 (reply w panel_status_reply) = 0x80 ->
  exists n,
    (forall k,
        (k < 4)%nat ->
        (forall j, (j < k)%nat -> Z.land 0x40 (reply w (dc_poll j)) = 0) ->
        Z.land 0x40 (reply w (dc_poll k)) = 0x40 ->
        exists e' w',
          begin e w = Ok e' w' /\
          status e' = EPD_OK /\
          trace w' = trace w ++ begin_prelude_events e n
                     ++ concat (repeat (pump_cycle_events cs) (S k))
                     ++ begin_finish_events cs) /\
    ((forall j, (j < 4)%nat -> Z.land 0x40 (reply w (dc_poll j)) = 0) ->
     exists e' w',
       begin e w = Ok e' w' /\
       status e' = EPD_DC_FAILED /\
       trace w' = trace w ++ begin_prelude_events e n
                  ++ concat (repeat (pump_cycle_events cs) 4)
                  ++ power_off_events e).
Proof.
  intros e cs Hb Hid Hp.
  destruct (begin_reaches_pumps s0 sz p w Hb Hid Hp) as (n & rest & Hbegin).
  fold e in Hbegin. set (e1 := set_status e EPD_OK) in Hbegin.
  assert (Hpoll : forall j,
    reply (set_busy rest (output (begin_prelude_events e n) w)) (15 + 16 * j)
    = reply w (dc_poll j)).
  { intros j. rewrite reply_set_busy, reply_output.
    unfold e. rewrite transfers_prelude. unfold dc_poll. f_equal. lia. }
  exists n. split.
  - intros k Hk Hnot Hready.
    rewrite Hbegin.
    rewrite (bind_Ok _ _ _ _ _
               (charge_pump_loop_ready e1 k 4 _ Hk
                  ltac:(intros j Hj; rewrite Hpoll; now apply Hnot)
                  ltac:(rewrite Hpoll; exact Hready))).
    cbn [negb]. run. unfold ret.
    rewrite ?output_set_busy, ?output_output.
    eexists. eexists. split; [reflexivity|].
    split; [reflexivity|].
    rewrite trace_output. unfold begin_finish_events. fold cs.
    rewrite <- ?app_assoc. reflexivity.
  - intros Hnot.
    rewrite Hbegin.
    rewrite (bind_Ok _ _ _ _ _
               (charge_pump_loop_fails e1 4 _
                  ltac:(intros j Hj; rewrite Hpoll; now apply Hnot))).
    cbn [negb]. run. unfold ret.
    rewrite ?output_set_busy, ?output_output.
    eexists. eexists. split; [reflexivity|]. split; [reflexivity|].
    rewrite trace_output. fold cs.
    rewrite <- ?app_assoc. reflexivity.
Qed.

Lemma begin_charge_pump_attempts_witness :
  exists e' w',
    begin (EPD_new example_status EPD_2_7 (mk_pins 2 3 4 5 6 7))
          (mk_world (fun _ => LOW) [] [HIGH; LOW] (fun _ => 0x82) O [])
    = Ok e' w' /\
    status e' = EPD_DC_FAILED.
Proof.
  destruct (begin_charge_pump_attempts
              example_status EPD_2_7 (mk_pins 2 3 4 5 6 7)
              (mk_world (fun _ => LOW) [] [HIGH; LOW] (fun _ => 0x82) O [])
              ltac:(simpl; tauto) eq_refl eq_refl)
    as (n & _ & Hfail).
  destruct (Hfail ltac:(intros j _; reflexivity))
    as (e' & w' & Hrun & Hst & _).
  exists e', w'. split; [exact Hrun | exact Hst].
Defined.

(** ** Running [line] and [end] *)

Lemma concat_repeat_nil {A} (n : nat) : concat (repeat (@nil A) n) = [].
Proof. induction n; [reflexivity | exact IHn]. Qed.

Lemma run_SPI_put_wait {B} (c busy_pin : Z) (k : unit -> M B) (w : World)
  (n : nat) (rest : list level) :
  busy_wait (busy_in w) = Some (n, rest) ->
  bind (SPI_put_wait c busy_pin) k w =
  k tt (set_busy rest (output [SpiTransfer c] w)).
Proof.
  intros H. unfold SPI_put_wait.
  apply bind_Ok. rewrite run_SPI_put.
  unfold while_busy. cbn [busy_in output]. rewrite H.
  now rewrite concat_repeat_nil, output_nil.
Qed.

Lemma put_wait_all_output (bytes : list Z) (busy_pin : Z) :
  forall w rest,
    skip_waits (length bytes) (busy_in w) = Some rest ->
    put_wait_all bytes busy_pin w =
    Ok tt (set_busy rest (output (map SpiTransfer bytes) w)).
Proof.
  induction bytes as [|c bytes IH]; intros w rest H.
  - cbn [length skip_waits] in H. inversion H. subst rest.
    cbn [put_wait_all map]. unfold ret. rewrite output_nil.
    now destruct w.
  - cbn [length skip_waits] in H.
    destruct (busy_wait (busy_in w)) as [[n r]|] eqn:Hw; [|discriminate].
    cbn [put_wait_all].
    rewrite (run_SPI_put_wait _ _ _ _ n r Hw).
    rewrite (IH _ rest) by exact H.
    rewrite output_set_busy, set_busy_set_busy, output_output.
    reflexivity.
Qed.

Lemma low_samples_busy_wait (samples : list level) :
  (0 < low_samples samples)%nat ->
  exists n rest,
    busy_wait samples = Some (n, rest) /\
    low_samples samples = S (low_samples rest).
Proof.
  unfold low_samples.
  induction samples as [|[|] s IH]; cbn [filter length busy_wait]; intros H.
  - lia.
  - eauto.
  - destruct (IH H) as (n & r & -> & E). eauto.
Qed.

Lemma low_samples_skip_waits (n : nat) :
  forall samples,
    (n <= low_samples samples)%nat ->
    exists rest,
      skip_waits n samples = Some rest /\
      low_samples samples = (n + low_samples rest)%nat.
Proof.
  induction n as [|n IH]; intros samples H; cbn [skip_waits].
  - eauto.
  - destruct (low_samples_busy_wait samples ltac:(lia))
      as (k & r & -> & E).
    destruct (IH r ltac:(lia)) as (rest & -> & E').
    exists rest. split; [reflexivity | lia].
Qed.

Lemma odd_loop_fixed (image : list Z) (c : line_call) (n : nat) :
  lc_data c = None ->
  odd_loop image c n = Fetched (repeat (lc_fixed_value c) n).
Proof.
  intros H. induction n as [|n IH]; cbn [odd_loop repeat].
  - reflexivity.
  - now rewrite H, IH.
Qed.

Lemma even_loop_fixed (image : list Z) (c : line_call) (n : nat) :
  lc_data c = None ->
  forall b, even_loop image c n b = Fetched (repeat (lc_fixed_value c) n).
Proof.
  intros H. induction n as [|n IH]; intros b; cbn [even_loop repeat].
  - reflexivity.
  - now rewrite H, IH.
Qed.

Lemma line_bytes_dummy (t : Target) (s0 : EPD_error) (sz : EPD_size)
  (p : pin_assignment) (image : list Z) (stage : EPD_stage) (border : Z) :
  line_bytes t (EPD_new s0 sz p) image
             (mk_line 0x7fff None 0x00 false stage border) =
  Fetched (dummy_line_bytes (EPD_new s0 sz p) border).
Proof.
  unfold line_bytes, dummy_line_bytes.
  rewrite odd_loop_fixed, even_loop_fixed by reflexivity.
  cbn [fetch_bind lc_line lc_border_byte lc_fixed_value].
  rewrite scan_loop_zero; [reflexivity|].
  change (u16 0x7fff) with 0x7fff.
  assert (Hgeo : 0 <= lines_per_display (EPD_new s0 sz p) <= 32764 /\
                 0 <= bytes_per_scan (EPD_new s0 sz p) <= 8192)
    by (destruct sz; vm_compute; repeat split; congruence).
  destruct (scan_pos_sentinel t (EPD_new s0 sz p) (proj1 Hgeo) (proj2 Hgeo));
    lia.
Qed.

Lemma dummy_line_length (e : EPD_Class) (border : Z) :
  length (dummy_line_bytes e border) = line_length e.
Proof.
  unfold dummy_line_bytes, line_length.
  cbn [app length]. rewrite !length_app, !repeat_length. lia.
Qed.

Lemma run_lift_fetch {A B} (a : A) (k : A -> M B) (w : World) :
  bind (lift_fetch (Fetched a)) k w = k a w.
Proof. reflexivity. Qed.

Lemma run_line {B} (t : Target) (e : EPD_Class) (image : list Z)
  (c : line_call) (bytes : list Z) (k : unit -> M B) (w : World)
  (rest : list level) :
  line_bytes t e image c = Fetched bytes ->
  skip_waits (length bytes) (busy_in w) = Some rest ->
  bind (line t e image c) k w =
  k tt (set_busy rest (output (line_events e bytes) w)).
Proof.
  intros Hbytes Hwaits. apply bind_Ok.
  unfold line. run. rewrite Hbytes, run_lift_fetch.
  match goal with
  | |- context [bind (put_wait_all bytes ?pin) _ ?w1] =>
      rewrite (bind_Ok _ _ _ _ _
                 (put_wait_all_output bytes pin w1 rest Hwaits))
  end.
  run. rewrite (SPI_off_output _).
  rewrite ?output_set_busy, ?output_output.
  unfold line_events. rewrite <- ?app_assoc. reflexivity.
Qed.

Lemma bind_assoc {A B C} (m : M A) (f : A -> M B) (g : B -> M C)
  (w : World) :
  bind (bind m f) g w = bind m (fun x => bind (f x) g) w.
Proof. unfold bind. destruct (m w); reflexivity. Qed.

Lemma end_teardown_runs (e : EPD_Class) (w : World) :
  exists e' later, end_teardown e w = Ok e' (output later w).
Proof.
  unfold end_teardown. run.
  match goal with |- context [negb ?b] => destruct (negb b) end;
    run; unfold ret; rewrite ?output_output; eauto.
Qed.

(** C9, as amended: on the 2.7 inch panel [end] starts with the border
    pulse (25 ms, border low, 250 ms, border high); on the other panels it
    starts with three dummy lines (sentinel line 0x7FFF, every pixel and
    scan byte 0x00) whose border bytes are 0xff, 0xaa and the default,
    followed by delays of 40, 200 and 25 ms. *)
Theorem end_starts_by_panel (t : Target) (s0 : EPD_error) (sz : EPD_size)
  (p : pin_assignment) (w : World) :
  let e := EPD_new s0 sz p in
  (sz = EPD_2_7 -> end_starts_with t e w (end_border_pulse_events e)) /\
  (sz <> EPD_2_7 ->
   (3 * line_length e <= low_samples (busy_in w))%nat ->
   end_starts_with t e w (end_dummy_lines_events t e)).
Proof.
  intros e.
  assert (Hsize : size e = sz) by (unfold e; destruct sz; reflexivity).
  unfold end_starts_with, end_. rewrite Hsize. split.
  - intros ->.
    destruct (end_teardown_runs e (output (end_border_pulse_events e) w))
      as (e' & later & Ht).
    exists e', (output later (output (end_border_pulse_events e) w)), later.
    split.
    + repeat (rewrite bind_assoc; run). rewrite ?output_output.
      rewrite output_output in Ht. exact Ht.
    + cbn [trace output]. now rewrite <- app_assoc.
  - intros Hsz Hlow.
    destruct (low_samples_skip_waits (line_length e) (busy_in w)
                ltac:(lia)) as (r1 & H1 & E1).
    destruct (low_samples_skip_waits (line_length e) r1 ltac:(lia))
      as (r2 & H2 & E2).
    destruct (low_samples_skip_waits (line_length e) r2 ltac:(lia))
      as (r3 & H3 & E3).
    assert (Hrun :
      forall B (k : unit -> M B),
        bind (line t e [] (mk_line 0x7fff None 0x00 false EPD_normal 0xff) ;;
              Delay_ms 40 ;;
              line t e [] (mk_line 0x7fff None 0x00 false EPD_normal 0xaa) ;;
              Delay_ms 200 ;;
              line t e [] (mk_line 0x7fff None 0x00 false EPD_normal
                                   (default_border_byte t)) ;;
              Delay_ms 25) k w =
        k tt (set_busy r3 (output (end_dummy_lines_events t e) w))).
    { intros B k. apply bind_Ok.
      rewrite (run_line t e [] _ (dummy_line_bytes e 0xff) _ w r1);
        [| apply line_bytes_dummy | now rewrite dummy_line_length].
      run.
      rewrite (run_line t e [] _ (dummy_line_bytes e 0xaa) _ _ r2);
        [| apply line_bytes_dummy | now rewrite dummy_line_length].
      run.
      rewrite (run_line t e [] _
                 (dummy_line_bytes e (default_border_byte t)) _ _ r3);
        [| apply line_bytes_dummy | now rewrite dummy_line_length].
      unfold Delay_ms, emit.
      rewrite ?output_set_busy, ?set_busy_set_busy, ?output_output.
      unfold end_dummy_lines_events. rewrite <- ?app_assoc. reflexivity. }
    destruct (end_teardown_runs
                e (set_busy r3 (output (end_dummy_lines_events t e) w)))
      as (e' & later & Ht).
    exists e',
      (output later (set_busy r3 (output (end_dummy_lines_events t e) w))),
      later.
    split.
    + destruct sz; try congruence; rewrite Hrun; exact Ht.
    + cbn [trace output set_busy]. now rewrite <- app_assoc.
Qed.

Lemma end_starts_by_panel_witness :
  end_starts_with
    example_target (EPD_new example_status EPD_1_44 example_pins)
    example_world
    (end_dummy_lines_events
       example_target (EPD_new example_status EPD_1_44 example_pins)).
Proof.
  apply (proj2 (end_starts_by_panel
                  example_target example_status EPD_1_44 example_pins
                  example_world)).
  - discriminate.
  - apply Nat.leb_le. vm_compute. reflexivity.
Defined.

(** C9, as stated, fails on the 1.44 inch panel: [end] does not start
    with three full-frame writes of 0xff, 0xaa and 0x00. *)
Lemma end_full_frames_counterexample :
  ~ end_starts_with example_target (EPD_new example_status EPD_1_44
    example_pins)
                    example_world
                    (end_full_frames_events example_target
                                            (EPD_new example_status EPD_1_44
                                              example_pins)).
Proof.
  intros (e' & w' & later & Hrun & Htr).
  assert (H17 : match end_ example_target (EPD_new example_status EPD_1_44
    example_pins)
                           example_world with
                | Ok _ w1 => nth_error (trace w1) 17
                | _ => None
                end = Some (SpiTransfer 0x00))
    by (vm_compute; reflexivity).
  rewrite Hrun, Htr in H17.
  lazy in H17. discriminate H17.
Qed.

(** ** [frame_data_13] run on an image of the exact size *)

Lemma scan_loop_length (t : Target) (e : EPD_Class) (line : Z) (n : nat) :
  forall b, length (scan_loop t e line n b) = n.
Proof.
  induction n as [|n IH]; intros b; cbn [scan_loop length];
    [reflexivity | now rewrite IH].
Qed.

Lemma scanline_length (image : list Z) (off : Z) (n : nat) :
  (Z.to_nat off + n <= length image)%nat ->
  length (scanline image off n) = n.
Proof.
  intros H. unfold scanline. rewrite length_firstn, length_skipn. lia.
Qed.

Lemma line_bytes_fixed_length (t : Target) (e : EPD_Class) (image : list Z)
  (c : line_call) :
  lc_data c = None ->
  exists bytes,
    line_bytes t e image c = Fetched bytes /\ length bytes = line_length e.
Proof.
  intros H. unfold line_bytes.
  rewrite odd_loop_fixed, even_loop_fixed by exact H.
  cbn [fetch_bind]. eexists. split; [reflexivity|].
  unfold line_length. cbn [app length].
  rewrite !length_app, !repeat_length, scan_loop_length. lia.
Qed.

Lemma line_bytes_data_length (t : Target) (e : EPD_Class) (image : list Z)
  (c : line_call) (off : Z) :
  lc_data c = Some off ->
  0 <= off ->
  (Z.to_nat off + Z.to_nat (bytes_per_line e) <= length image)%nat ->
  exists bytes,
    line_bytes t e image c = Fetched bytes /\ length bytes = line_length e.
Proof.
  intros Hd Hoff Hlen. unfold line_bytes.
  rewrite (odd_loop_backward image c off _ Hd Hoff Hlen).
  rewrite (even_loop_forward image c off _ Hd Hoff 0)
    by (try lia; rewrite Z.add_0_r; exact Hlen).
  cbn [fetch_bind]. eexists. split; [reflexivity|].
  unfold line_length. cbn [app length].
  rewrite !length_app, !length_map, length_rev, scan_loop_length.
  rewrite Z.add_0_r, !scanline_length by exact Hlen. lia.
Qed.

(** ** What [line] sends *)

Lemma line_bytes_data (t : Target) (e : EPD_Class) (image : list Z)
  (c : line_call) (off : Z) :
  lc_data c = Some off ->
  0 <= off ->
  (Z.to_nat off + Z.to_nat (bytes_per_line e) <= length image)%nat ->
  line_bytes t e image c =
  Fetched ([0x72; lc_border_byte c]
           ++ map (odd_pixels (lc_stage c))
                  (rev (scanline image off (Z.to_nat (bytes_per_line e))))
           ++ scan_loop t e (u16 (lc_line c)) (Z.to_nat (bytes_per_scan e)) 0
           ++ map (even_pixels (lc_stage c))
                  (scanline image off (Z.to_nat (bytes_per_line e)))).
Proof.
  intros Hd Hoff Hlen. unfold line_bytes.
  rewrite (odd_loop_backward image c off _ Hd Hoff Hlen).
  rewrite (even_loop_forward image c off _ Hd Hoff 0)
    by (try lia; rewrite Z.add_0_r; exact Hlen).
  cbn [fetch_bind]. now rewrite Z.add_0_r.
Qed.

Lemma line_bytes_shape (t : Target) (e : EPD_Class) (image : list Z)
  (c : line_call) :
  in_image e image c ->
  exists odd even,
    length odd = Z.to_nat (bytes_per_line e) /\
    length even = Z.to_nat (bytes_per_line e) /\
    line_bytes t e image c =
    Fetched ([0x72; lc_border_byte c] ++ odd
             ++ scan_loop t e (u16 (lc_line c))
                          (Z.to_nat (bytes_per_scan e)) 0
             ++ even).
Proof.
  unfold in_image. destruct (lc_data c) as [off|] eqn:Hd.
  - intros (Hoff & Hlen).
    rewrite (line_bytes_data t e image c off Hd Hoff Hlen).
    eexists. eexists. split; [|split; [|reflexivity]].
    + now rewrite length_map, length_rev, scanline_length.
    + now rewrite length_map, scanline_length.
  - intros _. unfold line_bytes.
    rewrite odd_loop_fixed, even_loop_fixed by exact Hd.
    cbn [fetch_bind]. eexists. eexists.
    split; [|split; [|reflexivity]]; apply repeat_length.
Qed.

Lemma line_sends_bytes (t : Target) (e : EPD_Class) (image : list Z)
  (c : line_call) (w : World) (bytes : list Z) :
  line_bytes t e image c = Fetched bytes ->
  (length bytes <= low_samples (busy_in w))%nat ->
  line_sends t e image c w bytes.
Proof.
  intros Hb Hlow. split; [exact Hb|].
  destruct (low_samples_skip_waits (length bytes) (busy_in w) Hlow)
    as (rest & Hr & _).
  exists (set_busy rest (output (line_events e bytes) w)).
  split; [|reflexivity].
  pose proof (run_line t e image c bytes (@ret unit) w rest Hb Hr) as H.
  unfold bind in H.
  destruct (line t e image c w) as [[] w1| |]; try discriminate H.
  unfold ret in H. exact H.
Qed.

Lemma line_sends_scan_loop (t : Target) (e : EPD_Class) (image : list Z)
  (c : line_call) (w : World) :
  in_image e image c ->
  (line_length e <= low_samples (busy_in w))%nat ->
  line_sends_scan t e image c w
    (scan_loop t e (u16 (lc_line c)) (Z.to_nat (bytes_per_scan e)) 0).
Proof.
  intros Him Hlow.
  destruct (line_bytes_shape t e image c Him) as (odd & even & Ho & He & Hb).
  exists odd, even. split; [exact Ho|]. split; [exact He|].
  apply line_sends_bytes; [exact Hb|].
  cbn [app length]. rewrite !length_app, scan_loop_length, Ho, He.
  unfold line_length in Hlow. lia.
Qed.

(** C2: for a line of the panel, [line] sends after the sub-command, the
    border byte and the odd-pixel bytes [bytes_per_scan] scan bytes with
    one non-zero byte, [0x03 << (2 * (line mod 4))], at index
    [(lines_per_display - line - 1) / 4], and zero elsewhere; for the
    sentinel line 0x7FFF the scan bytes it sends are all zero. *)
Theorem scan_bytes_select_one_row (t : Target) (s0 : EPD_error)
  (sz : EPD_size) (p : pin_assignment) (image : list Z) (c : line_call)
  (w : World) :
  let e := EPD_new s0 sz p in
  let line := lc_line c in
  let k := (lines_per_display e - line - 1) / 4 in
  let marker := Z.shiftl 0x03 (2 * (line mod 4)) in
  0 <= line < lines_per_display e ->
  in_image e image c ->
  (line_length e <= low_samples (busy_in w))%nat ->
  0 <= k < bytes_per_scan e /\
  marker <> 0 /\
  line_sends_scan t e image c w
    (repeat 0 (Z.to_nat k) ++ marker
     :: repeat 0 (Z.to_nat (bytes_per_scan e - k - 1))) /\
  (forall c0,
      lc_line c0 = 0x7fff -> in_image e image c0 ->
      line_sends_scan t e image c0 w
        (repeat 0 (Z.to_nat (bytes_per_scan e)))).
Proof.
  intros e line k marker Hline Him Hlow.
  assert (Hgeo : lines_per_display e = 4 * bytes_per_scan e /\
                 0 < bytes_per_scan e <= 44).
  { subst e. destruct sz; vm_compute; repeat split; congruence. }
  destruct Hgeo as [Hlines Hbps].
  assert (Hk : 0 <= k < bytes_per_scan e).
  { subst k. split.
    - apply Z.div_pos; lia.
    - apply Z.div_lt_upper_bound; lia. }
  destruct (scan_marker_value line (proj1 Hline)) as [Hv Hnz].
  split; [exact Hk|]. split; [exact Hnz|]. split.
  - pose proof (line_sends_scan_loop t e image c w Him Hlow) as H.
    fold line in H. unfold u16 in H. rewrite Z.mod_small in H by lia.
    assert (Hsp : scan_pos t e line = k)
      by (apply scan_pos_in_range; lia).
    rewrite scan_loop_marker in H by (rewrite Hsp; lia).
    rewrite Hsp, Hv, Z.sub_0_r in H. fold marker in H.
    replace (Z.to_nat (bytes_per_scan e) - 1 - Z.to_nat k)%nat
      with (Z.to_nat (bytes_per_scan e - k - 1)) in H by lia.
    exact H.
  - intros c0 H0 Him0.
    pose proof (line_sends_scan_loop t e image c0 w Him0 Hlow) as H.
    rewrite H0 in H. unfold u16 in H. rewrite Z.mod_small in H by lia.
    rewrite scan_loop_zero in H; [exact H|].
    destruct (scan_pos_sentinel t e); lia.
Qed.

Lemma scan_bytes_select_one_row_witness :
  line_sends_scan
    example_target (EPD_new example_status EPD_1_44 example_pins) []
    (mk_line 94 None 0xff false EPD_normal 0) example_world
    [0x30; 0; 0; 0; 0; 0; 0; 0; 0; 0; 0; 0;
     0; 0; 0; 0; 0; 0; 0; 0; 0; 0; 0; 0].
Proof.
  exact (proj1 (proj2 (proj2
    (scan_bytes_select_one_row
       example_target example_status EPD_1_44 example_pins []
       (mk_line 94 None 0xff false EPD_normal 0) example_world
       ltac:(vm_compute; split; congruence)
       I
       ltac:(apply Nat.leb_le; vm_compute; reflexivity))))).
Defined.

(** C3: the odd-pixel byte of [line] is [0xAA | (x & 0x55)] for the normal
    stage and [0xAA | ((x & 0x55) ^ 0x55)] for the inverse stage, and
    [line] sends, after the sub-command and the border byte, the
    [bytes_per_line] odd-pixel bytes of its scanline from the last byte
    of the scanline backward to the first. *)
Theorem odd_pixels_encoding (t : Target) (e : EPD_Class) (image : list Z)
  (c : line_call) (off : Z) (w : World) :
  let n := Z.to_nat (bytes_per_line e) in
  let odd := map (odd_pixels (lc_stage c)) (rev (scanline image off n)) in
  lc_data c = Some off ->
  0 <= off ->
  (Z.to_nat off + n <= length image)%nat ->
  (line_length e <= low_samples (busy_in w))%nat ->
  (forall x,
      odd_pixels EPD_normal x = Z.lor 0xaa (Z.land x 0x55) /\
      odd_pixels EPD_inverse x = Z.lor 0xaa (Z.lxor (Z.land x 0x55) 0x55)) /\
  length odd = n /\
  exists rest,
    length rest = (Z.to_nat (bytes_per_scan e) + n)%nat /\
    line_sends t e image c w ([0x72; lc_border_byte c] ++ odd ++ rest).
Proof.
  intros n odd Hd Hoff Hlen Hlow. split; [apply odd_pixels_formula|].
  assert (Ho : length odd = n)
    by (unfold odd; now rewrite length_map, length_rev, scanline_length).
  split; [exact Ho|].
  exists (scan_loop t e (u16 (lc_line c)) (Z.to_nat (bytes_per_scan e)) 0
          ++ map (even_pixels (lc_stage c)) (scanline image off n)).
  split.
  - now rewrite length_app, scan_loop_length, length_map, scanline_length.
  - apply line_sends_bytes.
    + exact (line_bytes_data t e image c off Hd Hoff Hlen).
    + cbn [app length].
      rewrite !length_app, Ho, scan_loop_length, length_map,
        scanline_length by exact Hlen.
      unfold line_length in Hlow. fold n in Hlow. lia.
Qed.

Lemma odd_pixels_encoding_witness :
  exists rest,
    length rest = 40%nat /\
    line_sends
      example_target (EPD_new example_status EPD_1_44 example_pins)
      [0x00; 0xff; 0x0f; 0x12; 0; 0; 0; 0; 0; 0; 0; 0; 0; 0; 0; 0; 0x01]
      (mk_line 1 (Some 1) 0 true EPD_inverse 0) example_world
      ([0x72; 0]
       ++ [0xfe; 0xff; 0xff; 0xff; 0xff; 0xff; 0xff; 0xff;
           0xff; 0xff; 0xff; 0xff; 0xff; 0xef; 0xfa; 0xaa]
       ++ rest).
Proof.
  exact (proj2 (proj2
    (odd_pixels_encoding
       example_target (EPD_new example_status EPD_1_44 example_pins)
       [0x00; 0xff; 0x0f; 0x12; 0; 0; 0; 0; 0; 0; 0; 0; 0; 0; 0; 0; 0x01]
       (mk_line 1 (Some 1) 0 true EPD_inverse 0) 1 example_world
       eq_refl ltac:(lia)
       ltac:(apply Nat.leb_le; vm_compute; reflexivity)
       ltac:(apply Nat.leb_le; vm_compute; reflexivity)))).
Defined.

(** C4: the even-pixel byte of [line] is the byte masked with [0xAA],
    inverted or not and moved down one bit under [0xAA], with its four
    bit pairs in the opposite order (the pair at 6 goes to 0, 4 to 2, 2 to
    4 and 0 to 6); [line] sends the [bytes_per_line] even-pixel bytes of
    its scanline last, after the scan bytes, from the first byte of the
    scanline forward. *)
Theorem even_pixels_encoding (t : Target) (e : EPD_Class) (image : list Z)
  (c : line_call) (off : Z) (w : World) :
  let n := Z.to_nat (bytes_per_line e) in
  let even := map (even_pixels (lc_stage c)) (scanline image off n) in
  lc_data c = Some off ->
  0 <= off ->
  (Z.to_nat off + n <= length image)%nat ->
  (line_length e <= low_samples (busy_in w))%nat ->
  (forall stage x,
      even_extract EPD_inverse x =
        Z.lor 0xaa (Z.shiftr (Z.lxor (Z.land x 0xaa) 0xaa) 1) /\
      even_extract EPD_normal x = Z.lor 0xaa (Z.shiftr (Z.land x 0xaa) 1) /\
      0 <= even_pixels stage x < 256 /\
      bit_pair (even_pixels stage x) 0 = bit_pair (even_extract stage x) 6 /\
      bit_pair (even_pixels stage x) 2 = bit_pair (even_extract stage x) 4 /\
      bit_pair (even_pixels stage x) 4 = bit_pair (even_extract stage x) 2 /\
      bit_pair (even_pixels stage x) 6 = bit_pair (even_extract stage x) 0) /\
  length even = n /\
  exists front,
    length front = (2 + n + Z.to_nat (bytes_per_scan e))%nat /\
    line_sends t e image c w (front ++ even).
Proof.
  intros n even Hd Hoff Hlen Hlow. split.
  { intros stage x. split; [reflexivity|]. split; [reflexivity|].
    apply even_pixels_pairs. }
  assert (He : length even = n)
    by (unfold even; now rewrite length_map, scanline_length).
  split; [exact He|].
  exists ([0x72; lc_border_byte c]
          ++ map (odd_pixels (lc_stage c)) (rev (scanline image off n))
          ++ scan_loop t e (u16 (lc_line c))
                       (Z.to_nat (bytes_per_scan e)) 0).
  split.
  - cbn [app length].
    rewrite length_app, length_map, length_rev, scanline_length,
      scan_loop_length by exact Hlen.
    lia.
  - rewrite <- !app_assoc. apply line_sends_bytes.
    + exact (line_bytes_data t e image c off Hd Hoff Hlen).
    + cbn [app length].
      rewrite !length_app, He, scan_loop_length, length_map, length_rev,
        scanline_length by exact Hlen.
      unfold line_length in Hlow. fold n in Hlow. lia.
Qed.

Lemma even_pixels_encoding_witness :
  exists front,
    length front = 42%nat /\
    line_sends
      example_target (EPD_new example_status EPD_1_44 example_pins)
      [0x00; 0xff; 0x0f; 0x12; 0; 0; 0; 0; 0; 0; 0; 0; 0; 0; 0; 0; 0x01]
      (mk_line 1 (Some 1) 0 true EPD_normal 0) example_world
      (front
       ++ map (even_pixels EPD_normal)
              [0xff; 0x0f; 0x12; 0; 0; 0; 0; 0; 0; 0; 0; 0; 0; 0; 0; 0x01]).
Proof.
  exact (proj2 (proj2
    (even_pixels_encoding
       example_target (EPD_new example_status EPD_1_44 example_pins)
       [0x00; 0xff; 0x0f; 0x12; 0; 0; 0; 0; 0; 0; 0; 0; 0; 0; 0; 0; 0x01]
       (mk_line 1 (Some 1) 0 true EPD_normal 0) 1 example_world
       eq_refl ltac:(lia)
       ltac:(apply Nat.leb_le; vm_compute; reflexivity)
       ltac:(apply Nat.leb_le; vm_compute; reflexivity)))).
Defined.

(** ** Reads outside the image *)

Lemma line_bad_read (t : Target) (e : EPD_Class) (image : list Z)
  (c : line_call) (w : World) (i : Z) :
  line_bytes t e image c = OutOfBounds i ->
  line t e image c w = BadRead i.
Proof.
  intros H. unfold line. run. now rewrite H.
Qed.

Lemma line_all_bad_read (t : Target) (e : EPD_Class) (image : list Z)
  (i : Z) (calls : list line_call) :
  Forall (fun c =>
            (exists bytes, line_bytes t e image c = Fetched bytes /\
                           length bytes = line_length e) \/
            line_bytes t e image c = OutOfBounds i) calls ->
  Exists (fun c => line_bytes t e image c = OutOfBounds i) calls ->
  forall w,
    (length calls * line_length e <= low_samples (busy_in w))%nat ->
    line_all t e image calls w = BadRead i.
Proof.
  induction 1 as [|c calls Hc _ IH]; intros Hex w Hlow.
  - inversion Hex.
  - cbn [line_all].
    destruct Hc as [(bytes & Hb & Hl) | Hbad].
    + cbn [length] in Hlow.
      destruct (low_samples_skip_waits (line_length e) (busy_in w)
                  ltac:(lia)) as (r & Hr & E).
      rewrite (run_line t e image c bytes _ w r Hb)
        by (rewrite Hl; exact Hr).
      apply IH.
      * inversion Hex as [? ? Hhead | ? ? Htail]; subst; [|exact Htail].
        rewrite Hb in Hhead. discriminate.
      * cbn [busy_in set_busy]. lia.
    + unfold bind. now rewrite (line_bad_read t e image c w i Hbad).
Qed.

Lemma Forall2_Forall_r {A B} (R : A -> B -> Prop) (P : B -> Prop)
  (xs : list A) (ys : list B) :
  Forall2 R xs ys -> (forall x y, R x y -> P y) -> Forall P ys.
Proof.
  intros H HP. induction H; constructor; eauto.
Qed.

(** On every panel, at every temperature and for either stage,
    [frame_data_13] run on an image of exactly
    [lines_per_display * bytes_per_line] bytes stops at a read past the
    image, however long the COG is given to answer. *)
Lemma frame_data_13_bad_read (t : Target) (s0 : EPD_error) (sz : EPD_size)
  (p : pin_assignment) (temperature : Z) (stage : EPD_stage) (image : list Z)
  (w : World) :
  let e := setFactor temperature (EPD_new s0 sz p) in
  Z.of_nat (length image) = lines_per_display e * bytes_per_line e ->
  (forall calls,
      frame_data_13_calls t e stage = Some calls ->
      (length calls * line_length e <= low_samples (busy_in w))%nat) ->
  frame_data_13 t e image stage w =
    BadRead (lines_per_display e * bytes_per_line e + bytes_per_line e - 1).
Proof.
  intros e Hlen Hlow.
  destruct (frame_data_13_calls_policy t s0 sz p temperature stage)
    as (visits & calls & Hd & _ & Hpol).
  fold e in Hd, Hpol.
  destruct (frame_data_13_line_past_image t s0 sz p temperature stage image
    Hlen)
    as (calls' & c & Hd' & Hin & _ & Hbad).
  fold e in Hd', Hbad. rewrite Hd in Hd'. inversion Hd'; subst calls'.
  assert (Hgeo : 0 < lines_per_display e /\ 0 < bytes_per_line e).
  { subst e. unfold setFactor.
    destruct sz, (temperature <? 10), (temperature >? 40);
      vm_compute; repeat split; congruence. }
  destruct Hgeo as (Ht & Hb).
  unfold frame_data_13, run_calls. rewrite Hd.
  apply line_all_bad_read.
  - apply (Forall2_Forall_r _ _ _ _ Hpol).
    intros v c0 (Hflush & Hblank & Hreal & _).
    destruct (Z.ltb_spec (v_pos v) 0) as [Hneg|Hnn];
      [left; apply line_bytes_fixed_length; rewrite Hflush by lia;
       reflexivity|].
    destruct (Z.ltb_spec (lines_per_display e) (v_pos v)) as [Hbig|Hle];
      [left; apply line_bytes_fixed_length; rewrite Hflush by lia;
       reflexivity|].
    destruct (Z.eq_dec (v_offset v) 0) as [Ho|Ho];
      [destruct (Z.eq_dec (v_pass v) (stage_repeat e stage - 1)) as [Hl|Hl]|].
    + left. apply line_bytes_fixed_length.
      rewrite Hblank by (try lia; now split). reflexivity.
    + rewrite Hreal by (try lia; tauto).
      destruct (Z.eq_dec (v_pos v) (lines_per_display e)) as [Heq|Hne].
      * right. rewrite Heq. apply line_bytes_past_end; [reflexivity|lia|lia].
      * left. eapply line_bytes_data_length; [reflexivity|nia|nia].
    + rewrite Hreal by (try lia; tauto).
      destruct (Z.eq_dec (v_pos v) (lines_per_display e)) as [Heq|Hne].
      * right. rewrite Heq. apply line_bytes_past_end; [reflexivity|lia|lia].
      * left. eapply line_bytes_data_length; [reflexivity|nia|nia].
  - apply Exists_exists. exists c. split; [exact Hin | exact Hbad].
  - apply Hlow. exact Hd.
Qed.

Lemma low_samples_repeat (n : nat) : low_samples (repeat LOW n) = n.
Proof.
  unfold low_samples. induction n as [|n IH]; cbn [repeat filter length];
    [reflexivity | now rewrite IH].
Qed.

(** C10, at the failing input: on the 1.44 inch panel at the default
    temperature, with an image of exactly 96 * 16 = 1536 bytes,
    [frame_data_13] calls [line] for scanline 96, whose data starts at
    offset 1536; that call reads index 1551, past the end of the image, and
    the run of [frame_data_13] stops there. *)
Theorem frame_data_13_reads_past_image :
  let t := example_target in
  let e := EPD_new example_status EPD_1_44 example_pins in
  let image := repeat 0 1536 in
  Z.of_nat (length image) = lines_per_display e * bytes_per_line e /\
  (exists calls c,
      frame_data_13_calls t e EPD_normal = Some calls /\
      In c calls /\
      lc_line c = 96 /\
      line_bytes t e image c = OutOfBounds 1551) /\
  frame_data_13 t e image EPD_normal patient_world = BadRead 1551.
Proof.
  intros t e image.
  assert (Hlen : Z.of_nat (length image)
                 = lines_per_display e * bytes_per_line e)
    by (vm_compute; reflexivity).
  split; [exact Hlen|]. split.
  - exact (frame_data_13_line_past_image
             t example_status EPD_1_44 example_pins 25 EPD_normal image Hlen).
  - apply (frame_data_13_bad_read
             t example_status EPD_1_44 example_pins 25 EPD_normal image
               patient_world Hlen).
    intros calls Hc.
    assert (Hn : option_map (@length line_call)
                   (frame_data_13_calls
                      t (setFactor 25 (EPD_new example_status EPD_1_44
                        example_pins))
                      EPD_normal)
                 = Some 3584%nat) by (vm_compute; reflexivity).
    rewrite Hc in Hn. cbn [option_map] in Hn. inversion Hn as [Hn'].
    unfold patient_world. cbn [busy_in]. rewrite low_samples_repeat.
    replace (line_length (setFactor 25 (EPD_new example_status EPD_1_44
      example_pins)))
      with 58%nat by reflexivity.
    rewrite Hn'. apply Nat.le_refl.
Qed.

(** ** [frame_fixed_timed] run over a clock wrap *)

Lemma run_millis {B} (k : Z -> M B) (w : World) (now : Z) (later : list Z) :
  clock_in w = now :: later ->
  bind millis k w = k now (set_clock later w).
Proof. intros H. unfold bind, millis. now rewrite H. Qed.

Lemma line_all_output (t : Target) (e : EPD_Class) (calls : list line_call) :
  Forall (fun c => lc_data c = None) calls ->
  forall w,
    (length calls * line_length e <= low_samples (busy_in w))%nat ->
    exists rest,
      line_all t e [] calls w =
      Ok tt (set_busy rest
               (output (concat (map (call_events t e) calls)) w)) /\
      low_samples (busy_in w) =
      (length calls * line_length e + low_samples rest)%nat.
Proof.
  induction 1 as [|c calls Hc _ IH]; intros w Hlow.
  - exists (busy_in w). cbn [line_all map concat length]. unfold ret.
    rewrite output_nil. split; [now destruct w | reflexivity].
  - cbn [length] in Hlow.
    destruct (line_bytes_fixed_length t e [] c Hc) as (bytes & Hb & Hl).
    destruct (low_samples_skip_waits (line_length e) (busy_in w)
                ltac:(lia)) as (r & Hr & E).
    cbn [line_all].
    rewrite (run_line t e [] c bytes _ w r Hb) by (rewrite Hl; exact Hr).
    destruct (IH (set_busy r (output (line_events e bytes) w))
                ltac:(cbn [busy_in set_busy]; lia)) as (rest & -> & E').
    exists rest. split.
    + rewrite output_set_busy, set_busy_set_busy, output_output.
      cbn [map concat]. unfold call_events at 2. now rewrite Hb.
    + cbn [busy_in set_busy] in E'. cbn [length]. lia.
Qed.

Lemma for_up_Forall {A} (P : A -> Prop) (body : Z -> A) (n : nat) :
  (forall i, P (body i)) -> forall b, Forall P (for_up body n b).
Proof.
  intros H. induction n as [|n IH]; intros b; cbn [for_up]; constructor;
    auto.
Qed.

Lemma for_up_length {A} (body : Z -> A) (n : nat) :
  forall b, length (for_up body n b) = n.
Proof.
  induction n as [|n IH]; intros b; cbn [for_up length];
    [reflexivity | now rewrite IH].
Qed.

(** One pass of the timed loop: the two clock readings, a full frame in
    between, and the test of the updated [stage_time]. *)
Lemma timed_loop_pass (t : Target) (e : EPD_Class) (fixed_value st : Z)
  (fuel : nat) (w : World) (t_start t_end : Z) (later : list Z) :
  clock_in w = t_start :: t_end :: later ->
  (Z.to_nat (lines_per_display e) * line_length e
   <= low_samples (busy_in w))%nat ->
  exists rest,
    timed_loop (S fuel) t e fixed_value st w =
    (if stage_time_after_pass st t_start t_end >? 0 then
       timed_loop fuel t e fixed_value
                  (stage_time_after_pass st t_start t_end)
     else ret tt)
      (set_clock later
         (set_busy rest (output (full_frame_events t e fixed_value) w))) /\
    low_samples (busy_in w) =
    (Z.to_nat (lines_per_display e) * line_length e + low_samples rest)%nat.
Proof.
  intros Hclock Hlow. cbn [timed_loop].
  rewrite (run_millis _ w t_start (t_end :: later) Hclock).
  destruct (line_all_output t e (frame_fixed_pass t e fixed_value)
              ltac:(apply for_up_Forall; reflexivity)
              (set_clock (t_end :: later) w)
              ltac:(unfold frame_fixed_pass; rewrite for_up_length;
                    exact Hlow)) as (rest & Hrun & E).
  exists rest. split.
  - rewrite (bind_Ok _ _ _ _ _ Hrun).
    rewrite (run_millis _ _ t_end later) by reflexivity.
    reflexivity.
  - unfold frame_fixed_pass in E. rewrite for_up_length in E. exact E.
Qed.

(** C5, at the failing input: with 100 ms left, a start reading of
    [ULONG_MAX] and an end reading of 0 (the clock wrapped after 1 ms),
    the pass leaves 101 ms, where subtracting the time elapsed as if the
    counter had not wrapped leaves 99; and [frame_fixed_timed] asked for
    1 ms, whose first pass takes 1 ms across the wrap, writes the frame a
    second time. *)
Theorem stage_time_wrap_adds_time :
  stage_time_after_pass 100 ULONG_MAX 0 = 101 /\
  elapsed_unwrapped ULONG_MAX 0 = 1 /\
  to_long (100 - elapsed_unwrapped ULONG_MAX 0) = 99 /\
  to_long (1 - elapsed_unwrapped ULONG_MAX 0) = 0 /\
  exists w',
    frame_fixed_timed example_target (EPD_new example_status EPD_1_44
      example_pins)
                      0xff 1 wrapping_world = Ok tt w' /\
    trace w' =
      full_frame_events example_target (EPD_new example_status EPD_1_44
        example_pins) 0xff
      ++ full_frame_events example_target (EPD_new example_status EPD_1_44
        example_pins)
                           0xff.
Proof.
  split; [reflexivity|]. split; [reflexivity|]. split; [reflexivity|].
  split; [reflexivity|].
  set (t := example_target). set (e := EPD_new example_status EPD_1_44
    example_pins).
  assert (Hsize : (Z.to_nat (lines_per_display e) * line_length e
                   = 96 * 58)%nat) by reflexivity.
  unfold frame_fixed_timed.
  change (length (clock_in wrapping_world)) with 4%nat.
  destruct (timed_loop_pass t e 0xff 1 3 wrapping_world ULONG_MAX 0 [5; 7]
              eq_refl) as (r1 & -> & E1).
  { rewrite Hsize. unfold wrapping_world. cbn [busy_in].
    rewrite low_samples_repeat. apply Nat.le_add_r. }
  change (stage_time_after_pass 1 ULONG_MAX 0) with 2. cbn [Z.gtb Z.compare].
  unfold wrapping_world in E1. cbn [busy_in] in E1.
  rewrite low_samples_repeat, Hsize in E1.
  destruct (timed_loop_pass t e 0xff 2 2
              (set_clock [5; 7]
                 (set_busy r1
                    (output (full_frame_events t e 0xff) wrapping_world)))
              5 7 [] eq_refl) as (r2 & -> & _).
  { rewrite Hsize. cbn [busy_in set_busy set_clock]. lia. }
  change (stage_time_after_pass 2 5 7) with 0. cbn [Z.gtb Z.compare].
  eexists. split; [reflexivity|].
  cbn [trace set_clock set_busy output wrapping_world app].
  reflexivity.
Qed.

(** * Further properties *)

(** ** Pixel bytes *)

Lemma pixels_u8 (stage : EPD_stage) (x : Z) :
  odd_pixels stage x = odd_pixels stage (u8 x) /\
  even_pixels stage x = even_pixels stage (u8 x).
Proof.
  split; [apply odd_pixels_u8 | apply even_pixels_u8].
Qed.

Lemma pixel_pairs_checked : forallb pixel_pairs_ok all_bytes = true.
Proof. vm_compute. reflexivity. Qed.

Lemma pixel_complement_checked :
  forallb pixel_complement_ok all_bytes = true.
Proof. vm_compute. reflexivity. Qed.

Lemma pixel_decode_checked : forallb pixel_decode_ok all_bytes = true.
Proof. vm_compute. reflexivity. Qed.

Ltac split_checks H :=
  repeat (apply andb_prop in H; let H' := fresh "Hc" in destruct H as [H H']);
  repeat match goal with
         | H0 : (_ =? _) = true |- _ => apply Z.eqb_eq in H0
         | H0 : (_ <? _) = true |- _ => apply Z.ltb_lt in H0
         end.

(** X1: every pixel byte [line] sends for image data is a byte whose four
    bit pairs are 10 or 11: the high bit of each pair is set, for either
    stage and whatever the image byte. *)
Theorem pixel_bytes_drive_every_pair (stage : EPD_stage) (x : Z) :
  Z.land (odd_pixels stage x) 0xaa = 0xaa /\
  Z.land (even_pixels stage x) 0xaa = 0xaa /\
  0 <= odd_pixels stage x < 256 /\
  0 <= even_pixels stage x < 256.
Proof.
  destruct (pixels_u8 stage x) as [-> ->].
  pose proof (forall_bytes _ pixel_pairs_checked (u8 x) (u8_range x)) as H.
  unfold pixel_pairs_ok in H. split_checks H.
  pose proof (even_pixels_pairs stage (u8 x)) as (He & _).
  assert (Ho : 0 <= odd_pixels stage (u8 x))
    by (unfold odd_pixels; destruct stage; apply u8_range).
  destruct stage; repeat split; try assumption; lia.
Qed.

(** X2: the inverse stage sends the complement of the normal stage: for
    every image byte the two odd-pixel bytes differ in exactly the low bit
    of each pair, and so do the two even-pixel bytes. *)
Theorem inverse_stage_complements_normal (x : Z) :
  Z.lxor (odd_pixels EPD_inverse x) (odd_pixels EPD_normal x) = 0x55 /\
  Z.lxor (even_pixels EPD_inverse x) (even_pixels EPD_normal x) = 0x55.
Proof.
  destruct (pixels_u8 EPD_inverse x) as [-> ->].
  destruct (pixels_u8 EPD_normal x) as [-> ->].
  pose proof (forall_bytes _ pixel_complement_checked (u8 x) (u8_range x))
    as H.
  unfold pixel_complement_ok in H. split_checks H. now split.
Qed.

(** X3: the odd-pixel and even-pixel bytes of the normal stage hold the
    whole image byte: decoding them gives the byte back, and decoding the
    bytes of the inverse stage gives its complement. *)
Theorem pixel_bytes_round_trip (x : Z) :
  decode_pixels (odd_pixels EPD_normal x) (even_pixels EPD_normal x) = u8 x /\
  decode_pixels (odd_pixels EPD_inverse x) (even_pixels EPD_inverse x)
  = Z.lxor (u8 x) 0xff.
Proof.
  destruct (pixels_u8 EPD_inverse x) as [-> ->].
  destruct (pixels_u8 EPD_normal x) as [-> ->].
  pose proof (forall_bytes _ pixel_decode_checked (u8 x) (u8_range x)) as H.
  unfold pixel_decode_ok in H. split_checks H. now split.
Qed.

(** ** Scan bytes *)

Lemma panel_geometry (s0 : EPD_error) (sz : EPD_size) (p : pin_assignment) :
  let e := EPD_new s0 sz p in
  lines_per_display e = 4 * bytes_per_scan e /\
  0 < bytes_per_scan e <= 44 /\
  dots_per_line e = 8 * bytes_per_line e /\
  0 < bytes_per_line e <= 33.
Proof.
  destruct sz; vm_compute; repeat split; congruence.
Qed.

(** The scan bytes of a line of the panel, in closed form. *)
Lemma scan_loop_in_range (t : Target) (s0 : EPD_error) (sz : EPD_size)
  (p : pin_assignment) (line : Z) :
  let e := EPD_new s0 sz p in
  0 <= line < lines_per_display e ->
  scan_loop t e (u16 line) (Z.to_nat (bytes_per_scan e)) 0 =
    repeat 0 (Z.to_nat ((lines_per_display e - line - 1) / 4))
    ++ Z.shiftl 0x03 (2 * (line mod 4))
    :: repeat 0 (Z.to_nat (bytes_per_scan e
                           - (lines_per_display e - line - 1) / 4 - 1)).
Proof.
  intros e Hline.
  destruct (panel_geometry s0 sz p) as (Hlines & Hbps & _). fold e in Hlines,
    Hbps.
  assert (Hk : 0 <= (lines_per_display e - line - 1) / 4 < bytes_per_scan e).
  { split; [apply Z.div_pos; lia | apply Z.div_lt_upper_bound; lia]. }
  destruct (scan_marker_value line (proj1 Hline)) as [Hv _].
  unfold u16. rewrite Z.mod_small by lia.
  assert (Hsp : scan_pos t e line = (lines_per_display e - line - 1) / 4)
    by (apply scan_pos_in_range; lia).
  rewrite scan_loop_marker by (rewrite Hsp; lia).
  rewrite Hsp, Hv, Z.sub_0_r. do 3 f_equal. lia.
Qed.

Lemma marker_position_inj (a b : nat) (m1 m2 : Z) (r1 r2 : list Z) :
  m1 <> 0 -> m2 <> 0 ->
  repeat 0 a ++ m1 :: r1 = repeat 0 b ++ m2 :: r2 ->
  a = b /\ m1 = m2.
Proof.
  intros H1 H2. revert b.
  induction a as [|a IH]; intros [|b] H; cbn [repeat app] in H;
    inversion H; subst; try congruence.
  - now split.
  - destruct (IH b H3) as [-> ->]. now split.
Qed.

Lemma marker_inj (a b : Z) :
  0 <= a < 4 -> 0 <= b < 4 ->
  Z.shiftl 0x03 (2 * a) = Z.shiftl 0x03 (2 * b) -> a = b.
Proof.
  intros Ha Hb.
  assert (Hca : a = 0 \/ a = 1 \/ a = 2 \/ a = 3) by lia.
  assert (Hcb : b = 0 \/ b = 1 \/ b = 2 \/ b = 3) by lia.
  destruct Hca as [-> | [-> | [-> | ->]]];
    destruct Hcb as [-> | [-> | [-> | ->]]];
    vm_compute; congruence.
Qed.

(** X4: two different lines of the panel never get the same scan bytes:
    the scan bytes [line] sends determine the line index. *)
Theorem scan_bytes_determine_line (t : Target) (s0 : EPD_error)
  (sz : EPD_size) (p : pin_assignment) (line1 line2 : Z) :
  let e := EPD_new s0 sz p in
  0 <= line1 < lines_per_display e ->
  0 <= line2 < lines_per_display e ->
  scan_loop t e (u16 line1) (Z.to_nat (bytes_per_scan e)) 0 =
  scan_loop t e (u16 line2) (Z.to_nat (bytes_per_scan e)) 0 ->
  line1 = line2.
Proof.
  intros e H1 H2 Heq.
  unfold e in Heq.
  rewrite (scan_loop_in_range t s0 sz p line1 H1),
          (scan_loop_in_range t s0 sz p line2 H2) in Heq.
  fold e in Heq.
  destruct (scan_marker_value line1 (proj1 H1)) as [_ Hn1].
  destruct (scan_marker_value line2 (proj1 H2)) as [_ Hn2].
  destruct (marker_position_inj _ _ _ _ _ _ Hn1 Hn2 Heq) as [Hk Hm].
  destruct (panel_geometry s0 sz p) as (Hlines & Hbps & _).
  fold e in Hlines, Hbps.
  apply marker_inj in Hm; try (apply Z.mod_pos_bound; lia).
  assert (Hk' : (lines_per_display e - line1 - 1) / 4
                = (lines_per_display e - line2 - 1) / 4).
  { apply Z2Nat.inj in Hk; [exact Hk | |]; apply Z.div_pos; lia. }
  rewrite Hlines in Hk'.
  Z.div_mod_to_equations. lia.
Qed.

Lemma scan_bytes_determine_line_witness :
  94 = 94.
Proof.
  apply (scan_bytes_determine_line example_target example_status EPD_1_44
    example_pins
                                   94 94);
    [vm_compute; split; congruence | vm_compute; split; congruence
     | reflexivity].
Defined.

(** X5: the line index [lines_per_display], one past the last line, is
    not told apart from a real line by [line]: with a 16-bit [int] its
    scan bytes are all zero, with a 32-bit [int] they are those of line
    [lines_per_display - 4]. *)
Theorem scan_bytes_one_past_last_line (t : Target) (s0 : EPD_error)
  (sz : EPD_size) (p : pin_assignment) :
  let e := EPD_new s0 sz p in
  let n := Z.to_nat (bytes_per_scan e) in
  (int16 t = true ->
   scan_loop t e (u16 (lines_per_display e)) n 0 = repeat 0 n) /\
  (int16 t = false ->
   scan_loop t e (u16 (lines_per_display e)) n 0 =
   scan_loop t e (u16 (lines_per_display e - 4)) n 0).
Proof.
  intros e n.
  destruct (panel_geometry s0 sz p) as (Hlines & Hbps & _).
  fold e in Hlines, Hbps.
  unfold u16. rewrite !Z.mod_small by lia. split; intros Ht.
  - apply scan_loop_zero. right. unfold scan_pos. rewrite Ht.
    replace (lines_per_display e - lines_per_display e - 1) with (-1) by lia.
    change (u16 (-1)) with 65535. change (65535 / 4) with 16383.
    unfold n. lia.
  - assert (H0 : scan_pos t e (lines_per_display e) = 0).
    { unfold scan_pos. rewrite Ht.
      replace (lines_per_display e - lines_per_display e - 1) with (-1)
        by lia. reflexivity. }
    assert (H4 : scan_pos t e (lines_per_display e - 4) = 0).
    { unfold scan_pos. rewrite Ht.
      replace (lines_per_display e - (lines_per_display e - 4) - 1) with 3
        by lia. reflexivity. }
    assert (Hs : scan_shift (lines_per_display e)
                 = scan_shift (lines_per_display e - 4)).
    { unfold scan_shift. f_equal.
      change 0x03 with (Z.ones 2). rewrite !Z.land_ones by lia.
      rewrite Hlines.
      replace (4 * bytes_per_scan e - 4) with (4 * (bytes_per_scan e - 1))
        by lia.
      change (2 ^ 2) with 4.
      now rewrite !(Z.mul_comm 4), !Z.mod_mul by lia. }
    rewrite !scan_loop_marker by (rewrite ?H0, ?H4; unfold n; lia).
    now rewrite H0, H4, Hs.
Qed.

Lemma scan_bytes_one_past_last_line_witness :
  scan_loop (mk_target false EPD_normal 0) (EPD_new example_status EPD_1_44
    example_pins)
            (u16 96) 24 0 =
  scan_loop (mk_target false EPD_normal 0) (EPD_new example_status EPD_1_44
    example_pins)
            (u16 92) 24 0.
Proof.
  apply (proj2 (scan_bytes_one_past_last_line
                  (mk_target false EPD_normal 0) example_status EPD_1_44
                    example_pins)).
  reflexivity.
Defined.

(** ** Panel geometry and compensation *)

(** X6: whatever the panel size and however often [setFactor] is called,
    the driver keeps its pins, size and geometry, the geometry satisfies
    [dots_per_line = 8 * bytes_per_line] and
    [lines_per_display = 4 * bytes_per_scan], the channel select has nine
    bytes starting with 0x72, and the active band is the one the last
    temperature selects. *)
Theorem setFactor_keeps_panel_profile (s0 : EPD_error) (sz : EPD_size)
  (p : pin_assignment) (temperatures : list Z) (last : Z) :
  let e0 := EPD_new s0 sz p in
  let e := setFactor last
             (fold_left (fun e t => setFactor t e) temperatures e0) in
  e = setFactor last e0 /\
  size e = sz /\
  (EPD_Pin_PANEL_ON e, EPD_Pin_BORDER e, EPD_Pin_DISCHARGE e,
   EPD_Pin_RESET e, EPD_Pin_BUSY e, EPD_Pin_EPD_CS e)
  = (panel_on_pin p, border_pin p, discharge_pin p,
     reset_pin p, busy_pin p, chip_select_pin p) /\
  dots_per_line e = 8 * bytes_per_line e /\
  lines_per_display e = 4 * bytes_per_scan e /\
  length (channel_select e) = 9%nat /\
  nth 0 (channel_select e) 0 = 0x72 /\
  In (compensation e) (compensation_table sz).
Proof.
  intros e0 e.
  assert (Hfold : forall ts e1,
             setFactor last (fold_left (fun e t => setFactor t e) ts e1)
             = setFactor last e1).
  { induction ts as [|t ts IH]; intros e1; cbn [fold_left];
      [reflexivity|].
    rewrite IH. destruct e1. reflexivity. }
  assert (He : e = setFactor last e0) by apply Hfold.
  split; [exact He|]. rewrite He. unfold e0, setFactor.
  destruct sz, (last <? 10), (last >? 40); vm_compute;
    repeat split; try reflexivity; tauto.
Qed.

(** ** Number of lines a sweep writes *)

Lemma for_lines_length {A} (body : Z -> Z -> A) (step block total_lines : Z)
  (fuel : nat) :
  0 < step ->
  forall line xs,
    for_lines body step block total_lines fuel line = Some xs ->
    Z.of_nat (length xs) =
    Z.max 0 block * Z.max 0 ((total_lines + 2 * step - 1 - line) / step).
Proof.
  intros Hs. induction fuel as [|fuel IH]; intros line xs; cbn [for_lines];
    [discriminate|].
  destruct (Z.ltb_spec line (total_lines + step)) as [Hlt|Hge].
  - destruct (for_lines body step block total_lines fuel (line + step))
      as [rest|] eqn:Hrest; [|discriminate].
    intros E. inversion E; subst xs; clear E.
    rewrite length_app, for_up_length, Nat2Z.inj_add, (IH _ _ Hrest).
    replace (total_lines + 2 * step - 1 - line)
      with (total_lines + 2 * step - 1 - (line + step) + 1 * step) by lia.
    rewrite Z.div_add by lia.
    assert (0 <= (total_lines + 2 * step - 1 - (line + step)) / step)
      by (apply Z.div_pos; lia).
    rewrite Z.max_r with (m := _ / step + 1 * 1) by lia.
    rewrite (Z.max_r 0 (_ / step)) by lia. lia.
  - intros E. inversion E; subst xs; clear E. cbn [length].
    assert ((total_lines + 2 * step - 1 - line) / step <= 0).
    { apply Z.lt_succ_r, Z.div_lt_upper_bound; lia. }
    lia.
Qed.

Lemma for_repeat_length {A} (body : Z -> option (list A)) (len : Z)
  (k : nat) :
  (forall n xs, body n = Some xs -> Z.of_nat (length xs) = len) ->
  forall n xs,
    for_repeat body k n = Some xs ->
    Z.of_nat (length xs) = Z.of_nat k * len.
Proof.
  intros H. induction k as [|k IH]; intros n xs; cbn [for_repeat].
  - intros E. inversion E. reflexivity.
  - destruct (body n) as [pass|] eqn:Hpass; [|discriminate].
    destruct (for_repeat body k (n + 1)) as [rest|] eqn:Hrest;
      [|discriminate].
    intros E. inversion E; subst xs; clear E.
    rewrite length_app, Nat2Z.inj_add, (H _ _ Hpass), (IH _ _ Hrest). lia.
Qed.

Lemma sweep_13_length {A} (body : Z -> Z -> Z -> A)
  (repeat step block total_lines : Z) (xs : list A) :
  0 < step ->
  sweep_13 body repeat step block total_lines = Some xs ->
  Z.of_nat (length xs) =
  Z.max 0 repeat
  * (Z.max 0 block * Z.max 0 ((total_lines + block + step - 1) / step)).
Proof.
  intros Hs H. unfold sweep_13 in H.
  rewrite (for_repeat_length _ _ _
             (fun n ys Hn => for_lines_length _ _ _ _ _ Hs _ ys Hn) _ _ H).
  replace (total_lines + 2 * step - 1 - (step - block))
    with (total_lines + block + step - 1) by lia.
  f_equal. lia.
Qed.

Lemma sweep_13_total {A} (body : Z -> Z -> Z -> A)
  (repeat step block total_lines : Z) :
  0 < step ->
  exists xs, sweep_13 body repeat step block total_lines = Some xs.
Proof.
  intros Hs. unfold sweep_13. apply for_repeat_total. intros n.
  apply for_lines_total; [exact Hs|]. unfold sweep_fuel. lia.
Qed.

(** X7: with a positive step the sweep ends, and [frame_fixed_13] and
    [frame_data_13] each call [line]
    [repeat * block * ((total_lines + block + step - 1) / step)] times. *)
Theorem sweep_13_number_of_lines (t : Target) (e : EPD_Class) (value : Z)
  (stage : EPD_stage) :
  0 < stage_step e stage ->
  exists fixed_calls data_calls,
    frame_fixed_13_calls t e value stage = Some fixed_calls /\
    frame_data_13_calls t e stage = Some data_calls /\
    length fixed_calls = length data_calls /\
    Z.of_nat (length fixed_calls) =
    Z.max 0 (stage_repeat e stage)
    * (Z.max 0 (stage_block e stage)
       * Z.max 0 ((lines_per_display e + stage_block e stage
                   + stage_step e stage - 1) / stage_step e stage)).
Proof.
  intros Hs. unfold frame_fixed_13_calls, frame_data_13_calls.
  match goal with
  | |- context [sweep_13 ?b _ _ _ _ = Some _ /\ sweep_13 ?b' _ _ _ _ = _ /\ _]
    =>
      destruct (sweep_13_total b (stage_repeat e stage) (stage_step e stage)
                  (stage_block e stage) (lines_per_display e) Hs)
        as [fc Hf];
      destruct (sweep_13_total b' (stage_repeat e stage) (stage_step e stage)
                  (stage_block e stage) (lines_per_display e) Hs)
        as [dc Hd]
  end.
  exists fc, dc. split; [exact Hf|]. split; [exact Hd|].
  pose proof (sweep_13_length _ _ _ _ _ _ Hs Hf) as Lf.
  pose proof (sweep_13_length _ _ _ _ _ _ Hs Hd) as Ld.
  split; [lia | exact Lf].
Qed.

Lemma sweep_13_number_of_lines_witness :
  exists fixed_calls data_calls,
    frame_fixed_13_calls example_target (EPD_new example_status EPD_1_44
      example_pins)
                         0xff EPD_inverse = Some fixed_calls /\
    frame_data_13_calls example_target (EPD_new example_status EPD_1_44
      example_pins)
                        EPD_inverse = Some data_calls /\
    length fixed_calls = length data_calls /\
    Z.of_nat (length fixed_calls) = 3584.
Proof.
  exact (sweep_13_number_of_lines
           example_target (EPD_new example_status EPD_1_44 example_pins) 0xff
             EPD_inverse
           eq_refl).
Defined.

(** ** [begin]: the other ways out *)

Lemma busy_wait_all_high (samples : list level) :
  Forall (fun v => v = HIGH) samples -> busy_wait samples = None.
Proof.
  induction 1 as [|v s Hv _ IH]; cbn [busy_wait]; [reflexivity|].
  subst v. now rewrite IH.
Qed.

(** X8: when the second identifier read does not return 2 in its low
    nibble, [begin] returns with status [EPD_UNSUPPORTED_COG]: it sends no
    register command after the two reads, runs [power_off], and leaves
    the reset, panel-on, border, chip-select and discharge pins low. *)
Theorem begin_unsupported_cog (e : EPD_Class) (w : World) :
  In LOW (busy_in w) ->
  Z.land 0x0f (reply w cog_id_reply) <> 0x02 ->
  exists n e' w',
    begin e w = Ok e' w' /\
    status e' = EPD_UNSUPPORTED_COG /\
    trace w' = trace w ++ power_up_events e n
               ++ cog_id_events (EPD_Pin_EPD_CS e)
               ++ power_off_events e /\
    pins w' (EPD_Pin_RESET e) = LOW /\
    pins w' (EPD_Pin_PANEL_ON e) = LOW /\
    pins w' (EPD_Pin_BORDER e) = LOW /\
    pins w' (EPD_Pin_EPD_CS e) = LOW /\
    pins w' (EPD_Pin_DISCHARGE e) = LOW.
Proof.
  intros Hb Hid.
  destruct (busy_wait_In (busy_in w) Hb) as (n & rest & Hw).
  assert (Hrun :
    begin e w =
    Ok (set_status e EPD_UNSUPPORTED_COG)
       (set_busy rest
          (output (power_up_events e n
                   ++ cog_id_events (EPD_Pin_EPD_CS e)
                   ++ power_off_events e) w))).
  { unfold begin.
    cbn [EPD_Pin_RESET EPD_Pin_PANEL_ON EPD_Pin_DISCHARGE EPD_Pin_BORDER
         EPD_Pin_EPD_CS set_status].
    run. rewrite (while_busy_output _ _ _ n rest) by exact Hw.
    run. resolve_reply. unfold cog_id_reply in Hid.
    apply Z.neq_sym, Z.eqb_neq in Hid. rewrite Hid. cbn [negb].
    run. unfold ret.
    rewrite ?output_set_busy, ?output_output.
    unfold power_up_events, cog_id_events.
    rewrite <- ?app_assoc. reflexivity. }
  exists n. eexists. eexists. split; [exact Hrun|].
  split; [reflexivity|]. split; [apply trace_output|].
  rewrite pins_output, !fold_left_app.
  repeat split; apply power_off_pins_low; tauto.
Qed.

Lemma begin_unsupported_cog_witness :
  exists e' w',
    begin (EPD_new example_status EPD_2_0 example_pins)
          (mk_world (fun _ => HIGH) [] [HIGH; LOW] (fun _ => 0x01) O [])
    = Ok e' w' /\
    status e' = EPD_UNSUPPORTED_COG /\
    pins w' 4 = LOW.
Proof.
  destruct (begin_unsupported_cog
              (EPD_new example_status EPD_2_0 example_pins)
              (mk_world (fun _ => HIGH) [] [HIGH; LOW] (fun _ => 0x01) O [])
              ltac:(simpl; tauto) ltac:(vm_compute; congruence))
    as (n & e' & w' & Hrun & Hst & _ & _ & _ & _ & _ & Hd).
  exists e', w'. split; [exact Hrun|]. split; [exact Hst | exact Hd].
Defined.

(** X9: [begin] has no way out of its wait for the COG: while every
    sample of the BUSY pin reads HIGH it does not return, whatever the
    driver and the replies on the bus. *)
Theorem begin_waits_for_the_cog (e : EPD_Class) (w : World) :
  Forall (fun v => v = HIGH) (busy_in w) ->
  begin e w = Starved.
Proof.
  intros H. unfold begin.
  cbn [EPD_Pin_RESET EPD_Pin_PANEL_ON EPD_Pin_DISCHARGE EPD_Pin_BORDER
       EPD_Pin_EPD_CS set_status].
  run. unfold bind, while_busy. cbn [busy_in output].
  now rewrite (busy_wait_all_high _ H).
Qed.

Lemma begin_waits_for_the_cog_witness :
  begin (EPD_new example_status EPD_2_7 example_pins)
        (mk_world (fun _ => LOW) [] [HIGH; HIGH; HIGH] (fun _ => 0x02) O [])
  = Starved.
Proof.
  apply begin_waits_for_the_cog. simpl. repeat constructor.
Defined.

(** ** [begin]: the pins after a successful power-up *)

Lemma fold_writes_only (pin q : Z) (evs : list event) :
  writes_only pin evs -> q <> pin ->
  forall ps, fold_left apply_event evs ps q = ps q.
Proof.
  intros H Hq. induction H as [|ev evs Hev _ IH]; intros ps;
    cbn [fold_left]; [reflexivity|].
  rewrite IH. destruct ev; cbn [apply_event]; try reflexivity.
  subst pin. destruct (Z.eqb_spec q pin0); [contradiction | reflexivity].
Qed.

Lemma writes_only_app (pin : Z) (a b : list event) :
  writes_only pin a -> writes_only pin b -> writes_only pin (a ++ b).
Proof. intros Ha Hb. apply Forall_app. now split. Qed.

Lemma writes_only_concat_repeat (pin : Z) (evs : list event) (n : nat) :
  writes_only pin evs -> writes_only pin (concat (repeat evs n)).
Proof.
  intros H. induction n as [|n IH]; cbn [repeat concat];
    [constructor | now apply writes_only_app].
Qed.

Lemma writes_only_spi_frame (cs : Z) (buffer : list Z) :
  writes_only (u8 cs) (spi_frame cs buffer).
Proof.
  unfold spi_frame. repeat apply writes_only_app.
  - repeat constructor.
  - unfold writes_only. apply Forall_map. apply Forall_forall. now intros.
  - repeat constructor.
Qed.

Lemma writes_only_plain (pin : Z) (evs : list event) :
  Forall (fun ev => match ev with DigitalWrite _ _ => False | _ => True end)
         evs ->
  writes_only pin evs.
Proof.
  unfold writes_only. apply Forall_impl. intros [] H; tauto.
Qed.

Ltac writes_only_tac :=
  repeat first
    [ apply writes_only_spi_frame
    | apply writes_only_concat_repeat
    | solve [apply writes_only_plain; repeat constructor]
    | apply writes_only_app ].

(** A successful [begin], as one run. *)
Lemma begin_ready_run (s0 : EPD_error) (sz : EPD_size) (p : pin_assignment)
  (w : World) (k : nat) :
  let e := EPD_new s0 sz p in
  let cs := EPD_Pin_EPD_CS e in
  In LOW (busy_in w) ->
  Z.land 0x0f (reply w cog_id_reply) = 0x02 ->
  Z.land 0x80 (reply w panel_status_reply) = 0x80 ->
  (k < 4)%nat ->
  (forall j, (j < k)%nat -> Z.land 0x40 (reply w (dc_poll j)) = 0) ->
  Z.land 0x40 (reply w (dc_poll k)) = 0x40 ->
  exists n rest,
    begin e w =
    Ok (set_status e EPD_OK)
       (set_busy rest
            (output (power_up_events e n
                     ++ (cog_id_events cs ++ panel_check_events cs
                         ++ configure_events e
                         ++ concat (repeat (pump_cycle_events cs) (S k))
                         ++ begin_finish_events cs)) w)).
Proof.
  intros e cs Hb Hid Hp Hk Hnot Hready.
  destruct (begin_reaches_pumps s0 sz p w Hb Hid Hp) as (n & rest & Hbegin).
  fold e in Hbegin. set (e1 := set_status e EPD_OK) in Hbegin.
  assert (Hpoll : forall j,
    reply (set_busy rest (output (begin_prelude_events e n) w)) (15 + 16 * j)
    = reply w (dc_poll j)).
  { intros j. rewrite reply_set_busy, reply_output.
    unfold e. rewrite transfers_prelude. unfold dc_poll. f_equal. lia. }
  exists n, rest.
  rewrite Hbegin.
  rewrite (bind_Ok _ _ _ _ _
             (charge_pump_loop_ready e1 k 4 _ Hk
                ltac:(intros j Hj; rewrite Hpoll; now apply Hnot)
                ltac:(rewrite Hpoll; exact Hready))).
  cbn [negb]. run. unfold ret.
  rewrite ?output_set_busy, ?output_output.
  unfold begin_prelude_events, begin_finish_events. fold cs.
  rewrite <- ?app_assoc. reflexivity.
Qed.

(** X10: a successful [begin] sets the status to [EPD_OK], whatever it
    was before, and on a driver whose five control pins are distinct and
    whose chip select fits the [uint8_t] parameter of [SPI_send] (0 to
    255) it leaves the panel powered and deselected: panel-on, reset,
    border and chip select are HIGH and discharge is LOW. *)
Theorem begin_success_pins (s0 : EPD_error) (sz : EPD_size)
  (p : pin_assignment) (w : World) (k : nat) :
  let e := EPD_new s0 sz p in
  NoDup [panel_on_pin p; border_pin p; discharge_pin p; reset_pin p;
         chip_select_pin p] ->
  0 <= chip_select_pin p < 256 ->
  In LOW (busy_in w) ->
  Z.land 0x0f (reply w cog_id_reply) = 0x02 ->
  Z.land 0x80 (reply w panel_status_reply) = 0x80 ->
  (k < 4)%nat ->
  (forall j, (j < k)%nat -> Z.land 0x40 (reply w (dc_poll j)) = 0) ->
  Z.land 0x40 (reply w (dc_poll k)) = 0x40 ->
  exists e' w',
    begin e w = Ok e' w' /\
    status e' = EPD_OK /\
    pins w' (panel_on_pin p) = HIGH /\
    pins w' (reset_pin p) = HIGH /\
    pins w' (border_pin p) = HIGH /\
    pins w' (chip_select_pin p) = HIGH /\
    pins w' (discharge_pin p) = LOW.
Proof.
  intros e Hnd Hcs Hb Hid Hp Hk Hnot Hready.
  destruct (begin_ready_run s0 sz p w k Hb Hid Hp Hk Hnot Hready)
    as (n & rest & Hrun).
  fold e in Hrun.
  assert (Hpo : EPD_Pin_PANEL_ON e = panel_on_pin p)
    by (unfold e; destruct sz; reflexivity).
  assert (Hbo : EPD_Pin_BORDER e = border_pin p)
    by (unfold e; destruct sz; reflexivity).
  assert (Hdi : EPD_Pin_DISCHARGE e = discharge_pin p)
    by (unfold e; destruct sz; reflexivity).
  assert (Hre : EPD_Pin_RESET e = reset_pin p)
    by (unfold e; destruct sz; reflexivity).
  assert (Hcsp : EPD_Pin_EPD_CS e = chip_select_pin p)
    by (unfold e; destruct sz; reflexivity).
  assert (Hu8 : u8 (chip_select_pin p) = chip_select_pin p)
    by (apply Z.mod_small; exact Hcs).
  rewrite Hcsp in Hrun.
  set (tail := cog_id_events (chip_select_pin p)
               ++ panel_check_events (chip_select_pin p)
               ++ configure_events e
               ++ concat (repeat (pump_cycle_events (chip_select_pin p))
                                 (S k))
               ++ begin_finish_events (chip_select_pin p)) in Hrun.
  assert (Htail : writes_only (chip_select_pin p) tail).
  { rewrite <- Hu8 at 1. unfold tail, cog_id_events, panel_check_events,
      configure_events, pump_cycle_events, begin_finish_events,
      spi_off_events.
    rewrite Hcsp. writes_only_tac. }
  assert (Hdistinct :
    panel_on_pin p <> chip_select_pin p /\
    border_pin p <> chip_select_pin p /\
    discharge_pin p <> chip_select_pin p /\
    reset_pin p <> chip_select_pin p /\
    panel_on_pin p <> border_pin p /\
    panel_on_pin p <> discharge_pin p /\
    panel_on_pin p <> reset_pin p /\
    border_pin p <> discharge_pin p /\
    border_pin p <> reset_pin p /\
    discharge_pin p <> reset_pin p).
  { repeat match goal with
           | H : NoDup (_ :: _) |- _ => inversion H; subst; clear H
           end.
    cbn [In] in *. repeat split; intros E; rewrite ?E in *; tauto. }
  destruct Hdistinct as (D1 & D2 & D3 & D4 & D5 & D6 & D7 & D8 & D9 & D10).
  assert (Hother : forall q,
    q <> chip_select_pin p ->
    pins (set_busy rest (output (power_up_events e n ++ tail) w)) q
    = fold_left apply_event
        [DigitalWrite (reset_pin p) LOW;
         DigitalWrite (panel_on_pin p) LOW;
         DigitalWrite (discharge_pin p) LOW;
         DigitalWrite (border_pin p) LOW;
         DigitalWrite (panel_on_pin p) HIGH;
         DigitalWrite (reset_pin p) HIGH;
         DigitalWrite (border_pin p) HIGH;
         DigitalWrite (reset_pin p) LOW;
         DigitalWrite (reset_pin p) HIGH] (pins w) q).
  { intros q Hq. rewrite pins_output, fold_left_app.
    rewrite (fold_writes_only _ q tail Htail Hq).
    unfold power_up_events. rewrite !fold_left_app.
    rewrite (fold_writes_only (chip_select_pin p) q
               (concat (repeat [DelayUs 10] n)))
      by (try exact Hq; writes_only_tac).
    rewrite Hpo, Hbo, Hdi, Hre, Hcsp.
    cbn [fold_left apply_event spi_on_events].
    destruct (Z.eqb_spec q (chip_select_pin p)); [contradiction|].
    reflexivity. }
  exists (set_status e EPD_OK),
         (set_busy rest (output (power_up_events e n ++ tail) w)).
  split; [exact Hrun|]. split; [reflexivity|].
  rewrite (Hother _ D1), (Hother _ D4), (Hother _ D2), (Hother _ D3).
  cbn [fold_left apply_event].
  repeat match goal with
         | |- context [?a =? ?b] => destruct (Z.eqb_spec a b)
         end; try congruence.
  repeat split; try reflexivity.
  (* chip select *)
  rewrite pins_output, fold_left_app.
  unfold tail, begin_finish_events, spi_frame, spi_off_events.
  rewrite !fold_left_app, Hu8.
  cbn [fold_left apply_event map app].
  now rewrite Z.eqb_refl.
Qed.

Lemma begin_success_pins_witness :
  exists e' w',
    begin (EPD_new example_status EPD_1_44 example_pins)
          (mk_world (fun _ => LOW) [] [HIGH; LOW] (fun _ => 0xc2) O [])
    = Ok e' w' /\
    status e' = EPD_OK /\
    pins w' 2 = HIGH /\ pins w' 5 = HIGH /\ pins w' 3 = HIGH /\
    pins w' 7 = HIGH /\ pins w' 4 = LOW.
Proof.
  apply (begin_success_pins
           example_status EPD_1_44 example_pins
           (mk_world (fun _ => LOW) [] [HIGH; LOW] (fun _ => 0xc2) O []) 0).
  - repeat (constructor; [simpl; intuition discriminate|]). constructor.
  - simpl. lia.
  - simpl. tauto.
  - reflexivity.
  - reflexivity.
  - lia.
  - intros j Hj. lia.
  - reflexivity.
Defined.

(** ** [power_off] and [end] *)

(** X11: [power_off] always returns: it waits for nothing, reads no
    clock, makes only the two transfers of [SPI_off], and leaves the
    reset, panel-on, border, chip-select and discharge pins low even when
    pin numbers coincide. *)
Theorem power_off_is_unconditional (e : EPD_Class) (w : World) :
  exists w',
    power_off e w = Ok tt w' /\
    trace w' = trace w ++ power_off_events e /\
    busy_in w' = busy_in w /\
    clock_in w' = clock_in w /\
    spi_count w' = (2 + spi_count w)%nat /\
    pins w' (EPD_Pin_RESET e) = LOW /\
    pins w' (EPD_Pin_PANEL_ON e) = LOW /\
    pins w' (EPD_Pin_BORDER e) = LOW /\
    pins w' (EPD_Pin_EPD_CS e) = LOW /\
    pins w' (EPD_Pin_DISCHARGE e) = LOW.
Proof.
  exists (output (power_off_events e) w).
  split; [apply power_off_output|].
  split; [reflexivity|]. split; [reflexivity|]. split; [reflexivity|].
  split; [reflexivity|].
  cbn [pins output].
  repeat split; apply power_off_pins_low; tauto.
Qed.

Lemma end_teardown_ok (e : EPD_Class) (w : World) :
  Z.land 0x40 (reply w 5) = 0x40 ->
  end_teardown e w =
  Ok e (output (end_check_events (EPD_Pin_EPD_CS e)
                ++ end_power_down_events (EPD_Pin_EPD_CS e)
                ++ power_off_events e) w).
Proof.
  intros H. unfold end_teardown. run. resolve_reply. rewrite H.
  cbn [Z.eqb Pos.eqb negb]. run. unfold ret.
  rewrite ?output_output.
  unfold end_check_events, end_power_down_events.
  rewrite <- ?app_assoc. reflexivity.
Qed.

Lemma end_teardown_failed (e : EPD_Class) (w : World) :
  Z.land 0x40 (reply w 5) <> 0x40 ->
  end_teardown e w =
  Ok (set_status e EPD_DC_FAILED)
     (output (end_check_events (EPD_Pin_EPD_CS e)
              ++ power_off_events e) w).
Proof.
  intros H. unfold end_teardown. run. resolve_reply.
  apply Z.neq_sym, Z.eqb_neq in H. rewrite H.
  cbn [negb]. run. unfold ret.
  rewrite ?output_output.
  unfold end_check_events.
  rewrite <- ?app_assoc. reflexivity.
Qed.

(** The start of [end], as one run. *)
Lemma end_start_run (t : Target) (s0 : EPD_error) (sz : EPD_size)
  (p : pin_assignment) (w : World) :
  let e := EPD_new s0 sz p in
  (sz <> EPD_2_7 ->
   (3 * line_length e <= low_samples (busy_in w))%nat) ->
  exists rest,
    end_ t e w =
    end_teardown e (set_busy rest (output (end_start_events t e) w)).
Proof.
  intros e Hlow.
  assert (Hsize : size e = sz) by (unfold e; destruct sz; reflexivity).
  unfold end_, end_start_events. rewrite Hsize.
  assert (Hdec : sz = EPD_2_7 \/ sz <> EPD_2_7)
    by (destruct sz; (now left) || (right; discriminate)).
  destruct Hdec as [->|Hsz].
  - exists (busy_in w). repeat (rewrite bind_assoc; run).
    rewrite ?output_output. now destruct w.
  - specialize (Hlow Hsz).
    destruct (low_samples_skip_waits (line_length e) (busy_in w)
                ltac:(lia)) as (r1 & H1 & E1).
    destruct (low_samples_skip_waits (line_length e) r1 ltac:(lia))
      as (r2 & H2 & E2).
    destruct (low_samples_skip_waits (line_length e) r2 ltac:(lia))
      as (r3 & H3 & E3).
    exists r3.
    assert (Hrun :
      forall B (k : unit -> M B),
        bind (line t e [] (mk_line 0x7fff None 0x00 false EPD_normal 0xff) ;;
              Delay_ms 40 ;;
              line t e [] (mk_line 0x7fff None 0x00 false EPD_normal 0xaa) ;;
              Delay_ms 200 ;;
              line t e [] (mk_line 0x7fff None 0x00 false EPD_normal
                                   (default_border_byte t)) ;;
              Delay_ms 25) k w =
        k tt (set_busy r3 (output (end_dummy_lines_events t e) w))).
    { intros B k. apply bind_Ok.
      rewrite (run_line t e [] _ (dummy_line_bytes e 0xff) _ w r1);
        [| apply line_bytes_dummy | now rewrite dummy_line_length].
      run.
      rewrite (run_line t e [] _ (dummy_line_bytes e 0xaa) _ _ r2);
        [| apply line_bytes_dummy | now rewrite dummy_line_length].
      run.
      rewrite (run_line t e [] _
                 (dummy_line_bytes e (default_border_byte t)) _ _ r3);
        [| apply line_bytes_dummy | now rewrite dummy_line_length].
      unfold Delay_ms, emit.
      rewrite ?output_set_busy, ?set_busy_set_busy, ?output_output.
      unfold end_dummy_lines_events. rewrite <- ?app_assoc. reflexivity. }
    destruct sz; try congruence; apply Hrun.
Qed.

(** X12: [end] always finishes with [power_off]: when the DC/DC status
    read has bit 0x40 set it sends the power-down commands and keeps the
    status; when the bit is clear it sends none of them and sets
    [EPD_DC_FAILED]; either way the five control pins end low. *)
Theorem end_always_powers_off (t : Target) (s0 : EPD_error) (sz : EPD_size)
  (p : pin_assignment) (w : World) :
  let e := EPD_new s0 sz p in
  let cs := EPD_Pin_EPD_CS e in
  (sz <> EPD_2_7 ->
   (3 * line_length e <= low_samples (busy_in w))%nat) ->
  exists e' w',
    end_ t e w = Ok e' w' /\
    (Z.land 0x40 (reply w (end_dc_reply t e)) = 0x40 ->
     status e' = status e /\
     trace w' = trace w ++ end_start_events t e ++ end_check_events cs
                ++ end_power_down_events cs ++ power_off_events e) /\
    (Z.land 0x40 (reply w (end_dc_reply t e)) = 0 ->
     status e' = EPD_DC_FAILED /\
     trace w' = trace w ++ end_start_events t e ++ end_check_events cs
                ++ power_off_events e) /\
    pins w' (EPD_Pin_RESET e) = LOW /\
    pins w' (EPD_Pin_PANEL_ON e) = LOW /\
    pins w' (EPD_Pin_BORDER e) = LOW /\
    pins w' (EPD_Pin_EPD_CS e) = LOW /\
    pins w' (EPD_Pin_DISCHARGE e) = LOW.
Proof.
  intros e cs Hlow.
  destruct (end_start_run t s0 sz p w Hlow) as (rest & Hrun). fold e in Hrun.
  set (w1 := set_busy rest (output (end_start_events t e) w)) in *.
  assert (Hreply : reply w1 5 = reply w (end_dc_reply t e)).
  { unfold w1, end_dc_reply. now rewrite reply_set_busy, reply_output. }
  destruct (Z.eq_dec (Z.land 0x40 (reply w1 5)) 0x40) as [Hset|Hclear].
  - rewrite (end_teardown_ok e w1 Hset) in Hrun.
    eexists. eexists. split; [exact Hrun|].
    rewrite <- Hreply. split; [|split].
    + intros _. split; [reflexivity|].
      unfold w1. cbn [trace output set_busy]. fold cs.
      now rewrite <- ?app_assoc.
    + intros H0. rewrite H0 in Hset. discriminate.
    + cbn [pins output]. rewrite !fold_left_app.
      repeat split; apply power_off_pins_low; tauto.
  - rewrite (end_teardown_failed e w1 Hclear) in Hrun.
    eexists. eexists. split; [exact Hrun|].
    rewrite <- Hreply. split; [|split].
    + intros H0. contradiction.
    + intros _. split; [reflexivity|].
      unfold w1. cbn [trace output set_busy]. fold cs.
      now rewrite <- ?app_assoc.
    + cbn [pins output]. rewrite !fold_left_app.
      repeat split; apply power_off_pins_low; tauto.
Qed.

Lemma end_always_powers_off_witness :
  exists e' w',
    end_ example_target (EPD_new example_status EPD_1_44 example_pins)
      example_world
    = Ok e' w' /\
    pins w' 4 = LOW.
Proof.
  destruct (end_always_powers_off
              example_target example_status EPD_1_44 example_pins example_world
              ltac:(intros _; apply Nat.leb_le; vm_compute; reflexivity))
    as (e' & w' & Hrun & _ & _ & _ & _ & _ & _ & Hd).
  exists e', w'. split; [exact Hrun | exact Hd].
Defined.

(** ** [SPI_read] and [line] *)

Lemma transfers_map (bytes : list Z) :
  transfers (map SpiTransfer bytes) = length bytes.
Proof.
  unfold transfers.
  induction bytes as [|c bs IH]; cbn [map filter is_transfer length];
    [reflexivity | now rewrite IH].
Qed.

Lemma read_all_output (buffer : list Z) :
  forall r0 w,
    read_all buffer r0 w =
    Ok (match buffer with
        | [] => r0
        | _ => reply w (length buffer - 1)
        end)
       (output (map SpiTransfer buffer) w).
Proof.
  induction buffer as [|c rest IH]; intros r0 w; cbn [read_all map].
  - unfold ret. now rewrite output_nil.
  - unfold bind, SPI_transfer. rewrite IH, output_output.
    f_equal. destruct rest as [|c' rest']; [reflexivity|].
    rewrite reply_output. cbn [length]. unfold reply. f_equal.
    change (transfers [SpiTransfer c]) with 1%nat. lia.
Qed.

(** X13: [SPI_read] frames its transfers with chip select low then high
    and returns the reply to the last byte it sends; with an empty buffer
    it makes no transfer and returns 0. *)
Theorem SPI_read_returns_last_reply (cs_pin : Z) (buffer : list Z)
  (w : World) :
  SPI_read cs_pin buffer w =
  Ok (match buffer with
      | [] => 0
      | _ => reply w (length buffer - 1)
      end)
     (output (spi_frame cs_pin buffer) w) /\
  spi_count (output (spi_frame cs_pin buffer) w)
  = (length buffer + spi_count w)%nat /\
  pins (output (spi_frame cs_pin buffer) w) (u8 cs_pin) = HIGH.
Proof.
  split; [|split].
  - unfold SPI_read. rewrite run_Delay_us, run_digitalWrite.
    rewrite (bind_Ok _ _ _ _ _ (read_all_output buffer 0 _)).
    rewrite run_digitalWrite. unfold ret.
    rewrite !output_output. unfold spi_frame.
    rewrite <- ?app_assoc. f_equal.
  - cbn [spi_count output]. unfold spi_frame.
    rewrite !transfers_app, transfers_map.
    unfold transfers. cbn [filter is_transfer length]. lia.
  - cbn [pins output]. unfold spi_frame. rewrite !fold_left_app.
    cbn [fold_left apply_event]. now rewrite Z.eqb_refl.
Qed.

(** X14: without data [line] sends the fixed value for every pixel byte:
    the stage plays no part and the image is not read. *)
Theorem line_bytes_of_fixed_value (t : Target) (e : EPD_Class)
  (image : list Z) (line fixed_value border : Z) (read_progmem : bool)
  (stage : EPD_stage) :
  line_bytes t e image
             (mk_line line None fixed_value read_progmem stage border) =
  Fetched ([0x72; border]
           ++ repeat fixed_value (Z.to_nat (bytes_per_line e))
           ++ scan_loop t e (u16 line) (Z.to_nat (bytes_per_scan e)) 0
           ++ repeat fixed_value (Z.to_nat (bytes_per_line e))).
Proof.
  unfold line_bytes.
  rewrite odd_loop_fixed, even_loop_fixed by reflexivity.
  reflexivity.
Qed.

Lemma busy_wait_low_samples (samples : list level) (n : nat)
  (rest : list level) :
  busy_wait samples = Some (n, rest) ->
  low_samples samples = S (low_samples rest).
Proof.
  unfold low_samples. revert n.
  induction samples as [|[|] s IH]; intros n; cbn [busy_wait filter length].
  - discriminate.
  - intros E. now inversion E.
  - destruct (busy_wait s) as [[k r]|]; [|discriminate].
    intros E. inversion E; subst. exact (IH k eq_refl).
Qed.

Lemma skip_waits_low_samples (n : nat) :
  forall samples rest,
    skip_waits n samples = Some rest ->
    low_samples samples = (n + low_samples rest)%nat.
Proof.
  induction n as [|n IH]; intros samples rest; cbn [skip_waits].
  - intros E. now inversion E.
  - destruct (busy_wait samples) as [[k r]|] eqn:Hw; [|discriminate].
    intros E. rewrite (busy_wait_low_samples _ _ _ Hw), (IH _ _ E). lia.
Qed.

Lemma skip_waits_too_few (n : nat) (samples : list level) :
  (low_samples samples < n)%nat -> skip_waits n samples = None.
Proof.
  intros H. destruct (skip_waits n samples) as [rest|] eqn:E;
    [|reflexivity].
  apply skip_waits_low_samples in E. lia.
Qed.

Lemma put_wait_all_starved (bytes : list Z) (busy_pin : Z) :
  forall w,
    skip_waits (length bytes) (busy_in w) = None ->
    put_wait_all bytes busy_pin w = Starved.
Proof.
  induction bytes as [|c bytes IH]; intros w H; cbn [length skip_waits] in H;
    [discriminate|].
  cbn [put_wait_all].
  destruct (busy_wait (busy_in w)) as [[n r]|] eqn:Hw.
  - rewrite (run_SPI_put_wait _ _ _ _ n r Hw). apply IH. exact H.
  - unfold bind at 1, SPI_put_wait. rewrite run_SPI_put.
    unfold while_busy. cbn [busy_in output]. now rewrite Hw.
Qed.

Lemma fold_line_events (e : EPD_Class) (bytes : list Z) (ps : Z -> level)
  (q : Z) :
  fold_left apply_event (line_events e bytes) ps q =
  if q =? u8 (EPD_Pin_EPD_CS e) then HIGH
  else if q =? EPD_Pin_EPD_CS e then HIGH
  else ps q.
Proof.
  unfold line_events, spi_on_events, spi_off_events, spi_frame.
  rewrite !fold_left_app.
  assert (Hb : forall ps0,
             fold_left apply_event (map SpiTransfer bytes) ps0 = ps0).
  { induction bytes as [|c bs IH]; intros ps0; cbn [map fold_left];
      [reflexivity | apply IH]. }
  cbn [fold_left apply_event map]. rewrite Hb.
  cbn [fold_left apply_event].
  destruct (q =? u8 (EPD_Pin_EPD_CS e)); [reflexivity|].
  destruct (q =? EPD_Pin_EPD_CS e); reflexivity.
Qed.

(** X15: a call of [line] whose bytes can be read returns once the COG has
    released BUSY after each byte: it makes 10 transfers besides the bytes,
    uses one LOW sample per byte, leaves chip select HIGH and every other
    pin as it was; with fewer LOW samples than bytes it never returns. *)
Theorem line_needs_one_release_per_byte (t : Target) (e : EPD_Class)
  (image : list Z) (c : line_call) (bytes : list Z) (w : World) :
  line_bytes t e image c = Fetched bytes ->
  ((length bytes <= low_samples (busy_in w))%nat ->
   exists w',
     line t e image c w = Ok tt w' /\
     trace w' = trace w ++ line_events e bytes /\
     spi_count w' = (length bytes + 10 + spi_count w)%nat /\
     low_samples (busy_in w) = (length bytes + low_samples (busy_in w'))%nat /\
     clock_in w' = clock_in w /\
     pins w' (EPD_Pin_EPD_CS e) = HIGH /\
     (forall q, q <> EPD_Pin_EPD_CS e -> q <> u8 (EPD_Pin_EPD_CS e) ->
                pins w' q = pins w q)) /\
  ((low_samples (busy_in w) < length bytes)%nat ->
   line t e image c w = Starved).
Proof.
  intros Hb. split.
  - intros Hlow.
    destruct (low_samples_skip_waits (length bytes) (busy_in w) Hlow)
      as (rest & Hr & E).
    exists (set_busy rest (output (line_events e bytes) w)).
    split.
    + pose proof (run_line t e image c bytes (@ret unit) w rest Hb Hr) as H.
      unfold bind in H.
      destruct (line t e image c w) as [[] w1| |]; try discriminate H.
      unfold ret in H. exact H.
    + split; [reflexivity|]. split.
      * cbn [spi_count set_busy output]. unfold line_events.
        rewrite !transfers_app, transfers_map.
        change (transfers spi_on_events) with 2%nat.
        change (transfers spi_off_events) with 2%nat.
        unfold spi_frame. rewrite !transfers_app, !transfers_map.
        unfold transfers. cbn [filter is_transfer length]. lia.
      * split; [exact E|]. split; [reflexivity|].
        cbn [pins set_busy output]. split.
        -- rewrite fold_line_events, Z.eqb_refl.
           now destruct (EPD_Pin_EPD_CS e =? u8 (EPD_Pin_EPD_CS e)).
        -- intros q H1 H2. rewrite fold_line_events.
           destruct (Z.eqb_spec q (u8 (EPD_Pin_EPD_CS e))); [contradiction|].
           destruct (Z.eqb_spec q (EPD_Pin_EPD_CS e)); [contradiction|].
           reflexivity.
  - intros Hlow. unfold line. run. rewrite Hb, run_lift_fetch.
    unfold bind at 1.
    now rewrite put_wait_all_starved by (apply skip_waits_too_few; exact Hlow).
Qed.

Lemma line_needs_one_release_per_byte_witness :
  line example_target (EPD_new example_status EPD_1_44 example_pins) []
       (mk_line 5 None 0xff false EPD_normal 0)
       (mk_world (fun _ => LOW) [] [LOW; HIGH; LOW] (fun _ => 0) O [])
  = Starved.
Proof.
  refine (proj2 (line_needs_one_release_per_byte
                   example_target (EPD_new example_status EPD_1_44
                     example_pins) []
                   (mk_line 5 None 0xff false EPD_normal 0) _
                   (mk_world (fun _ => LOW) [] [LOW; HIGH; LOW]
                             (fun _ => 0) O [])
                   _) _).
  - vm_compute. reflexivity.
  - apply Nat.ltb_lt. vm_compute. reflexivity.
Defined.

(** ** Frames *)

Lemma call_of_visit_cases (P : line_call -> Prop)
  (total_lines repeat border : Z) (real : Z -> line_call) (v : visit) :
  P (mk_line 0x7fff None 0x00 false EPD_normal border) ->
  (forall pos, 0 <= pos <= total_lines ->
               P (mk_line pos None 0x00 false EPD_normal border)) ->
  (forall pos, 0 <= pos <= total_lines -> P (real pos)) ->
  P (call_of_visit total_lines repeat border real v).
Proof.
  intros Hd Hb Hr. unfold call_of_visit.
  destruct (Z.ltb_spec (v_pos v) 0); cbn [orb]; [exact Hd|].
  destruct (Z.gtb_spec (v_pos v) total_lines); [exact Hd|].
  destruct ((0 =? v_offset v) && (v_pass v =? repeat - 1));
    [apply Hb | apply Hr]; lia.
Qed.

Lemma line_all_runs (t : Target) (e : EPD_Class) (image : list Z)
  (calls : list line_call) :
  Forall (fun c => exists bytes,
              line_bytes t e image c = Fetched bytes /\
              length bytes = line_length e) calls ->
  forall w,
    (length calls * line_length e <= low_samples (busy_in w))%nat ->
    exists w',
      line_all t e image calls w = Ok tt w' /\
      low_samples (busy_in w) =
      (length calls * line_length e + low_samples (busy_in w'))%nat /\
      spi_count w' = (length calls * (line_length e + 10) + spi_count w)%nat /\
      clock_in w' = clock_in w.
Proof.
  induction 1 as [|c calls (bytes & Hb & Hl) _ IH]; intros w Hlow.
  - exists w. cbn [line_all length]. unfold ret. repeat split; lia.
  - cbn [length] in Hlow.
    destruct (low_samples_skip_waits (line_length e) (busy_in w)
                ltac:(lia)) as (r & Hr & E).
    cbn [line_all].
    rewrite (run_line t e image c bytes _ w r Hb) by (rewrite Hl; exact Hr).
    destruct (IH (set_busy r (output (line_events e bytes) w))
                ltac:(cbn [busy_in set_busy]; lia))
      as (w' & -> & E' & Hc & Hk).
    exists w'. split; [reflexivity|].
    cbn [busy_in set_busy] in E'. cbn [length]. split; [lia|].
    split; [|exact Hk].
    rewrite Hc. cbn [spi_count set_busy output]. unfold line_events.
    rewrite !transfers_app, transfers_map.
    change (transfers spi_on_events) with 2%nat.
    change (transfers spi_off_events) with 2%nat.
    unfold spi_frame. rewrite !transfers_app, !transfers_map.
    unfold transfers. cbn [filter is_transfer length]. lia.
Qed.

(** X16: [frame_fixed_13] reads no image, so with a positive step and one
    release of BUSY per byte it returns, having sent exactly the lines of
    its sweep; each line costs its bytes and ten more transfers. *)
Theorem frame_fixed_13_completes (t : Target) (e : EPD_Class) (value : Z)
  (stage : EPD_stage) (w : World) :
  0 < stage_step e stage ->
  exists calls,
    frame_fixed_13_calls t e value stage = Some calls /\
    Forall (fun c => lc_data c = None) calls /\
    ((length calls * line_length e <= low_samples (busy_in w))%nat ->
     exists w',
       frame_fixed_13 t e value stage w = Ok tt w' /\
       trace w' = trace w ++ concat (map (call_events t e) calls) /\
       low_samples (busy_in w) =
       (length calls * line_length e + low_samples (busy_in w'))%nat).
Proof.
  intros Hstep.
  destruct (sweep_visits_total (stage_repeat e stage) (stage_step e stage)
              (stage_block e stage) (lines_per_display e) Hstep)
    as (visits & Hv).
  destruct (frame_13_calls_of_visits t e value stage visits Hv) as (Hf & _).
  eexists. split; [exact Hf|].
  assert (Hnone : Forall (fun c => lc_data c = None)
                    (map (call_of_visit
                            (lines_per_display e) (stage_repeat e stage)
                            (default_border_byte t)
                            (fun pos => mk_line pos None value false stage
                                                (default_border_byte t)))
                         visits)).
  { apply Forall_forall. intros c Hc. apply in_map_iff in Hc.
    destruct Hc as (v & <- & _).
    apply call_of_visit_cases; intros; reflexivity. }
  split; [exact Hnone|].
  intros Hlow. unfold frame_fixed_13. rewrite Hf. cbn [run_calls].
  destruct (line_all_output t e _ Hnone w Hlow) as (rest & -> & E).
  eexists. split; [reflexivity|]. split; [reflexivity|]. exact E.
Qed.

Lemma frame_fixed_13_completes_witness :
  exists calls,
    frame_fixed_13_calls example_target (EPD_new example_status EPD_1_44
      example_pins)
                         0xff EPD_inverse = Some calls /\
    Forall (fun c => lc_data c = None) calls.
Proof.
  destruct (frame_fixed_13_completes
              example_target (EPD_new example_status EPD_1_44 example_pins) 0xff
              EPD_inverse example_world ltac:(vm_compute; reflexivity))
    as (calls & H1 & H2 & _).
  exists calls. split; [exact H1 | exact H2].
Defined.

(** X17: [frame_data_13] returns when the image holds one scanline more
    than the panel has lines: with [(lines_per_display + 1) *
    bytes_per_line] bytes no read of the sweep is out of bounds. *)
Theorem frame_data_13_with_spare_scanline (t : Target) (e : EPD_Class)
  (image : list Z) (stage : EPD_stage) (w : World) :
  0 < stage_step e stage ->
  0 <= bytes_per_line e ->
  (lines_per_display e + 1) * bytes_per_line e <= Z.of_nat (length image) ->
  exists calls,
    frame_data_13_calls t e stage = Some calls /\
    ((length calls * line_length e <= low_samples (busy_in w))%nat ->
     exists w',
       frame_data_13 t e image stage w = Ok tt w' /\
       spi_count w' =
       (length calls * (line_length e + 10) + spi_count w)%nat /\
       low_samples (busy_in w) =
       (length calls * line_length e + low_samples (busy_in w'))%nat).
Proof.
  intros Hstep Hbpl Himage.
  destruct (sweep_visits_total (stage_repeat e stage) (stage_step e stage)
              (stage_block e stage) (lines_per_display e) Hstep)
    as (visits & Hv).
  destruct (frame_13_calls_of_visits t e 0 stage visits Hv) as (_ & Hf).
  eexists. split; [exact Hf|].
  intros Hlow. unfold frame_data_13. rewrite Hf. cbn [run_calls].
  assert (Hall : Forall (fun c => exists bytes,
                            line_bytes t e image c = Fetched bytes /\
                            length bytes = line_length e)
                    (map (call_of_visit
                            (lines_per_display e) (stage_repeat e stage)
                            (default_border_byte t)
                            (fun pos => mk_line pos
                                          (Some (pos * bytes_per_line e)) 0
                                          true stage (default_border_byte t)))
                         visits)).
  { apply Forall_forall. intros c Hc. apply in_map_iff in Hc.
    destruct Hc as (v & <- & _).
    apply call_of_visit_cases.
    - apply line_bytes_fixed_length. reflexivity.
    - intros. apply line_bytes_fixed_length. reflexivity.
    - intros pos Hpos.
      apply (line_bytes_data_length t e image _ (pos * bytes_per_line e));
        [reflexivity | nia | nia]. }
  destruct (line_all_runs t e image _ Hall w Hlow)
    as (w' & Hrun & E & Hc & _).
  exists w'. split; [exact Hrun|]. split; [exact Hc | exact E].
Qed.

Lemma frame_data_13_with_spare_scanline_witness :
  exists calls,
    frame_data_13_calls example_target (EPD_new example_status EPD_1_44
      example_pins)
                        EPD_normal = Some calls.
Proof.
  destruct (frame_data_13_with_spare_scanline
              example_target (EPD_new example_status EPD_1_44 example_pins)
              (repeat 0 1552) EPD_normal example_world
              ltac:(vm_compute; reflexivity)
              ltac:(vm_compute; discriminate)
              ltac:(vm_compute; discriminate))
    as (calls & H1 & _).
  exists calls. exact H1.
Defined.

Lemma to_long_small (x : Z) :
  -2147483648 <= x < 2147483648 -> to_long x = x.
Proof.
  intros H. unfold to_long, ulong, ULONG_MAX.
  destruct (Z_lt_le_dec x 0).
  - replace (x mod (4294967295 + 1)) with (x + 4294967296).
    + destruct (Z.ltb_spec (x + 4294967296) 2147483648); lia.
    + apply (Z.mod_unique _ _ (-1)); lia.
  - rewrite Z.mod_small by lia.
    destruct (Z.ltb_spec x 2147483648); lia.
Qed.

Lemma stage_time_used_up (st t_start t_end : Z) :
  0 <= t_start <= t_end -> t_end <= ULONG_MAX ->
  st <= t_end - t_start -> t_end - t_start - st <= 2147483648 ->
  (stage_time_after_pass st t_start t_end >? 0) = false.
Proof.
  intros H Hmax Hst Hfit. unfold stage_time_after_pass.
  unfold ULONG_MAX in *.
  destruct (Z.gtb_spec t_end t_start).
  - unfold ulong, ULONG_MAX. rewrite (Z.mod_small (t_end - t_start)) by lia.
    rewrite to_long_small by lia.
    destruct (Z.gtb_spec (st - (t_end - t_start)) 0); [lia | reflexivity].
  - replace (t_start - t_end + 1 + 4294967295) with (1 * (4294967295 + 1))
      by lia.
    unfold ulong, ULONG_MAX. rewrite Z.mod_mul by lia.
    rewrite Z.sub_0_r, to_long_small by lia.
    destruct (Z.gtb_spec st 0); [lia | reflexivity].
Qed.

Lemma frame_fixed_timed_one_pass (t : Target) (e : EPD_Class)
  (fixed_value st : Z) (w : World) (t_start t_end : Z) (later : list Z) :
  clock_in w = t_start :: t_end :: later ->
  0 <= t_start <= t_end -> t_end <= ULONG_MAX ->
  st <= t_end - t_start -> t_end - t_start - st <= 2147483648 ->
  (Z.to_nat (lines_per_display e) * line_length e
   <= low_samples (busy_in w))%nat ->
  exists rest,
    frame_fixed_timed t e fixed_value st w =
    Ok tt (set_clock later
             (set_busy rest (output (full_frame_events t e fixed_value) w)))
    /\ low_samples (busy_in w) =
       (Z.to_nat (lines_per_display e) * line_length e
        + low_samples rest)%nat.
Proof.
  intros Hclock H Hmax Hst Hfit Hlow. unfold frame_fixed_timed.
  rewrite Hclock. cbn [length].
  destruct (timed_loop_pass t e fixed_value st (S (length later)) w
              t_start t_end later Hclock Hlow) as (rest & -> & E).
  exists rest. rewrite stage_time_used_up by assumption.
  split; [reflexivity | exact E].
Qed.

(** X18: [frame_fixed_timed] writes the frame once, also when the stage
    time is zero or negative, and stops after that pass when the clock,
    without wrapping, advanced by at least the stage time during it. *)
Theorem frame_fixed_timed_single_pass (t : Target) (e : EPD_Class)
  (fixed_value st : Z) (w : World) (t_start t_end : Z) (later : list Z) :
  clock_in w = t_start :: t_end :: later ->
  one_pass_each [st] (clock_in w) ->
  (Z.to_nat (lines_per_display e) * line_length e
   <= low_samples (busy_in w))%nat ->
  exists w',
    frame_fixed_timed t e fixed_value st w = Ok tt w' /\
    trace w' = trace w ++ full_frame_events t e fixed_value /\
    clock_in w' = later /\
    pins w' = fold_left apply_event (full_frame_events t e fixed_value)
                        (pins w).
Proof.
  intros Hclock Hone Hlow. rewrite Hclock in Hone.
  destruct Hone as (H & Hmax & Hst & Hfit & _).
  destruct (frame_fixed_timed_one_pass t e fixed_value st w t_start t_end
              later Hclock H Hmax Hst Hfit Hlow) as (rest & -> & _).
  eexists. split; [reflexivity|]. repeat split.
Qed.

Lemma frame_fixed_timed_single_pass_witness :
  exists w',
    frame_fixed_timed example_target (EPD_new example_status EPD_1_44
      example_pins) 0xff 0
      (mk_world (fun _ => LOW) [] (repeat LOW (Z.to_nat 6336)) (fun _ => 0) O
        [7; 7])
    = Ok tt w' /\
    clock_in w' = [].
Proof.
  destruct (frame_fixed_timed_single_pass
              example_target (EPD_new example_status EPD_1_44 example_pins)
                0xff 0
              (mk_world (fun _ => LOW) [] (repeat LOW (Z.to_nat 6336)) (fun _
                => 0) O
                        [7; 7])
              7 7 [] eq_refl
              ltac:(vm_compute; repeat split; discriminate)
              ltac:(apply Nat.leb_le; vm_compute; reflexivity))
    as (w' & H1 & _ & H2 & _).
  exists w'. split; [exact H1 | exact H2].
Defined.

Lemma stage2_loop_rounds (t : Target) (e : EPD_Class) (n : nat) :
  forall w,
    one_pass_each
      (concat (repeat [stage2_t1 (compensation e);
                       stage2_t2 (compensation e)] n))
      (clock_in w) ->
    (n * (2 * (Z.to_nat (lines_per_display e) * line_length e))
     <= low_samples (busy_in w))%nat ->
    exists rest,
      stage2_loop t e n w =
      Ok tt (set_clock (skipn (4 * n) (clock_in w))
               (set_busy rest
                  (output (concat (repeat (stage2_round_events t e) n)) w)))
      /\ low_samples (busy_in w) =
         (n * (2 * (Z.to_nat (lines_per_display e) * line_length e))
          + low_samples rest)%nat.
Proof.
  induction n as [|n IH]; intros w Hone Hlow.
  - exists (busy_in w). cbn [stage2_loop repeat concat skipn Nat.mul].
    unfold ret. rewrite output_nil. split; [now destruct w | reflexivity].
  - cbn [repeat concat app one_pass_each] in Hone.
    destruct (clock_in w) as [|ts1 [|te1 [|ts2 [|te2 later]]]] eqn:Hclock;
      try contradiction; try (now destruct Hone as (_ & _ & _ & _ & [])).
    destruct Hone as (H1 & M1 & S1 & F1 & H2 & M2 & S2 & F2 & Hone).
    cbn [stage2_loop].
    destruct (frame_fixed_timed_one_pass t e 0xff _ w ts1 te1 _ Hclock
                H1 M1 S1 F1 ltac:(lia)) as (r1 & R1 & E1).
    rewrite (bind_Ok _ _ _ _ _ R1).
    destruct (frame_fixed_timed_one_pass t e 0xaa _
                (set_clock (ts2 :: te2 :: later)
                   (set_busy r1 (output (full_frame_events t e 0xff) w)))
                ts2 te2 later eq_refl H2 M2 S2 F2
                ltac:(cbn [busy_in set_clock set_busy]; lia))
      as (r2 & R2 & E2).
    rewrite (bind_Ok _ _ _ _ _ R2).
    cbn [busy_in set_clock set_busy] in E2.
    destruct (IH (set_clock later
                    (set_busy r2
                       (output (full_frame_events t e 0xaa)
                          (set_clock (ts2 :: te2 :: later)
                             (set_busy r1
                                (output (full_frame_events t e 0xff) w))))))
                Hone ltac:(cbn [busy_in set_clock set_busy]; lia))
      as (rest & -> & E).
    cbn [busy_in set_clock set_busy] in E.
    exists rest. split; [|lia].
    replace (4 * S n)%nat with (4 + 4 * n)%nat by lia.
    cbn [skipn Nat.add]. cbn [clock_in set_clock].
    unfold set_clock, set_busy. cbn [pins trace busy_in spi_in spi_count
                                     clock_in output].
    unfold stage2_round_events. cbn [repeat concat].
    rewrite !transfers_app, !fold_left_app, <- !app_assoc.
    f_equal. f_equal. lia.
Qed.

(** X19: [frame_stage2] alternates full frames of 0xff and 0xaa,
    [stage2_repeat] times, when each timed frame ends after one pass. *)
Theorem frame_stage2_alternates (t : Target) (e : EPD_Class) (w : World) :
  let n := Z.to_nat (stage2_repeat (compensation e)) in
  one_pass_each
    (concat (repeat [stage2_t1 (compensation e);
                     stage2_t2 (compensation e)] n))
    (clock_in w) ->
  (n * (2 * (Z.to_nat (lines_per_display e) * line_length e))
   <= low_samples (busy_in w))%nat ->
  exists w',
    frame_stage2 t e w = Ok tt w' /\
    trace w' = trace w ++ concat (repeat (stage2_round_events t e) n) /\
    clock_in w' = skipn (4 * n) (clock_in w).
Proof.
  intros n Hone Hlow. unfold frame_stage2. fold n.
  destruct (stage2_loop_rounds t e n w Hone Hlow) as (rest & -> & _).
  eexists. split; [reflexivity|]. split; reflexivity.
Qed.

Lemma frame_stage2_alternates_witness :
  exists w',
    frame_stage2 example_target (EPD_new example_status EPD_1_44 example_pins)
      (mk_world (fun _ => LOW) [] (repeat LOW (Z.to_nat 50688)) (fun _ => 0) O
         [0; 155; 155; 310; 310; 465; 465; 620;
          620; 775; 775; 930; 930; 1085; 1085; 1240])
    = Ok tt w' /\
    clock_in w' = [].
Proof.
  destruct (frame_stage2_alternates
              example_target (EPD_new example_status EPD_1_44 example_pins)
              (mk_world (fun _ => LOW) [] (repeat LOW (Z.to_nat 50688)) (fun _
                => 0) O
                 [0; 155; 155; 310; 310; 465; 465; 620;
                  620; 775; 775; 930; 930; 1085; 1085; 1240])
              ltac:(vm_compute; repeat split; discriminate)
              ltac:(apply Nat.leb_le; vm_compute; reflexivity))
    as (w' & H1 & _ & H2).
  exists w'. split; [exact H1 | exact H2].
Defined.

(** ** The last write of each line in a sweep *)

Lemma for_up_split {A} (body : Z -> A) (o : nat) :
  forall n b,
    (o < n)%nat ->
    for_up body n b =
    for_up body o b
    ++ body (b + Z.of_nat o) :: for_up body (n - o - 1) (b + Z.of_nat o + 1).
Proof.
  induction o as [|o IH]; intros n b Hn; (destruct n as [|n]; [lia|]).
  - replace (S n - 0 - 1)%nat with n by lia.
    cbn [for_up app Z.of_nat]. rewrite Z.add_0_r. reflexivity.
  - cbn [for_up app]. f_equal. rewrite (IH n (b + 1)) by lia.
    replace (b + 1 + Z.of_nat o) with (b + Z.of_nat (S o)) by lia.
    replace (S n - S o - 1)%nat with (n - o - 1)%nat by lia.
    reflexivity.
Qed.

(** In one pass, the last visit of position [l] is in the block that
    starts at or just below [l]; what follows lies further down, and
    holds the rest of that block. *)
Lemma for_lines_last_visit (n step block total_lines l : Z) (fuel : nat) :
  0 < step <= block ->
  forall line xs,
    for_lines (fun line offset => mk_visit n offset (line + offset))
              step block total_lines fuel line = Some xs ->
    line <= l < total_lines + step ->
    exists pre post,
      xs = pre ++ mk_visit n ((l - line) mod step) l :: post /\
      (forall v, In v post -> l < v_pos v) /\
      (forall d, 0 < d -> (l - line) mod step + d < block ->
                 In (mk_visit n ((l - line) mod step + d) (l + d)) post).
Proof.
  intros Hs. induction fuel as [|fuel IH]; intros line xs Hx Hl;
    cbn [for_lines] in Hx; [discriminate|].
  destruct (Z.ltb_spec line (total_lines + step)); [|lia].
  destruct (for_lines _ step block total_lines fuel (line + step))
    as [rest|] eqn:Hrest; [|discriminate].
  inversion Hx; subst xs; clear Hx.
  destruct (Z_lt_le_dec l (line + step)) as [Hin | Hout].
  - rewrite Z.mod_small by lia.
    eexists. eexists. split; [|split].
    + rewrite (for_up_split _ (Z.to_nat (l - line)) (Z.to_nat block) 0)
        by lia.
      rewrite <- app_assoc. cbn [app]. f_equal. f_equal.
      rewrite Z2Nat.id by lia. f_equal; lia.
    + intros v Hv. apply in_app_or in Hv. destruct Hv as [Hv | Hv].
      * apply for_up_In in Hv. destruct Hv as (i & Hi & ->).
        cbn [v_pos]. lia.
      * apply (for_lines_In _ step block total_lines v fuel
                 ltac:(lia) _ _ Hrest) in Hv.
        destruct Hv as (k & o & Hk & _ & Ho & ->). cbn [v_pos]. nia.
    + intros d Hd Hroom. apply in_or_app. left. apply for_up_In.
      exists (l - line + d). split; [lia|]. f_equal. lia.
  - destruct (IH (line + step) rest Hrest ltac:(lia))
      as (pre & post & -> & Hpost & Hroom).
    replace ((l - line) mod step) with ((l - (line + step)) mod step).
    + eexists. exists post. split; [|split; [exact Hpost | exact Hroom]].
      now rewrite app_assoc.
    + replace (l - (line + step)) with (l - line + (-1) * step) by lia.
      now rewrite Z.mod_add by lia.
Qed.

Lemma for_repeat_S {A} (body : Z -> option (list A)) (k : nat) (n : Z) :
  for_repeat body (S k) n =
  match body n, for_repeat body k (n + 1) with
  | Some pass, Some rest => Some (pass ++ rest)
  | _, _ => None
  end.
Proof. reflexivity. Qed.

Lemma for_repeat_last {A} (body : Z -> option (list A)) (k : nat) :
  forall n xs,
    for_repeat body (S k) n = Some xs ->
    exists earlier last,
      xs = earlier ++ last /\ body (n + Z.of_nat k) = Some last.
Proof.
  induction k as [|k IH]; intros n xs H; rewrite for_repeat_S in H.
  - destruct (body n) as [pass|] eqn:Hb; [|discriminate].
    cbn [for_repeat] in H. inversion H; subst xs.
    exists [], pass. cbn [Z.of_nat]. rewrite Z.add_0_r, app_nil_r.
    split; [reflexivity | exact Hb].
  - destruct (body n) as [pass|]; [|discriminate].
    destruct (for_repeat body (S k) (n + 1)) as [rest|] eqn:Hr;
      [|discriminate].
    inversion H; subst xs.
    destruct (IH (n + 1) rest Hr) as (earlier & last & -> & Hl).
    exists (pass ++ earlier), last. split; [now rewrite app_assoc|].
    rewrite <- Hl. f_equal. lia.
Qed.

Lemma sweep_last_visit (repeat step block total_lines l : Z)
  (visits : list visit) :
  1 <= repeat -> 1 <= step <= block -> 0 <= l < total_lines ->
  sweep_visits repeat step block total_lines = Some visits ->
  let o := (l + block) mod step in
  exists pre post,
    visits = pre ++ mk_visit (repeat - 1) o l :: post /\
    (forall v, In v post -> l < v_pos v) /\
    (forall d, 0 < d -> o + d < block ->
               In (mk_visit (repeat - 1) (o + d) (l + d)) post).
Proof.
  intros Hr Hs Hl Hv o. unfold sweep_visits, sweep_13 in Hv.
  replace (Z.to_nat repeat) with (S (Z.to_nat (repeat - 1))) in Hv by lia.
  apply for_repeat_last in Hv.
  destruct Hv as (earlier & last & -> & Hlast).
  replace (0 + Z.of_nat (Z.to_nat (repeat - 1))) with (repeat - 1)
    in Hlast by lia.
  destruct (for_lines_last_visit _ step block total_lines l _
              ltac:(lia) _ _ Hlast ltac:(lia))
    as (pre & post & -> & Hpost & Hroom).
  replace ((l - (step - block)) mod step) with o in *.
  - exists (earlier ++ pre), post.
    split; [now rewrite <- app_assoc|]. split; [exact Hpost | exact Hroom].
  - unfold o.
    replace (l - (step - block)) with (l + block + (-1) * step) by lia.
    now rewrite Z.mod_add by lia.
Qed.

Lemma sweep_last_call (total_lines repeat step block border l : Z)
  (real : Z -> line_call) (visits : list visit) :
  1 <= repeat -> 1 <= step <= block ->
  0 <= l < total_lines -> total_lines < 0x7fff ->
  (forall pos, lc_line (real pos) = pos) ->
  sweep_visits repeat step block total_lines = Some visits ->
  exists pre post,
    map (call_of_visit total_lines repeat border real) visits =
    pre ++ (if (l + block) mod step =? 0
            then mk_line l None 0x00 false EPD_normal border
            else real l) :: post /\
    (forall c, In c post ->
               l < lc_line c <= total_lines \/ lc_line c = 0x7fff) /\
    (forall d, 0 < d -> l + d <= total_lines ->
               (l + block) mod step + d < block ->
               In (real (l + d)) post).
Proof.
  intros Hr Hs Hl Hmax Hreal Hv.
  destruct (sweep_last_visit repeat step block total_lines l visits
              Hr Hs Hl Hv) as (pre & post & -> & Hpost & Hroom).
  assert (Ho : 0 <= (l + block) mod step) by (apply Z.mod_pos_bound; lia).
  rewrite map_app. cbn [map]. eexists. eexists. split; [|split].
  - f_equal. f_equal. unfold call_of_visit. cbn [v_pos v_offset v_pass].
    destruct (Z.ltb_spec l 0); [lia|].
    destruct (Z.gtb_spec l total_lines); [lia|]. cbn [orb].
    rewrite Z.eqb_refl, andb_true_r, Z.eqb_sym. reflexivity.
  - intros c Hc. apply in_map_iff in Hc. destruct Hc as (v & <- & Hin).
    apply Hpost in Hin. unfold call_of_visit.
    destruct (Z.ltb_spec (v_pos v) 0); cbn [orb lc_line]; [lia|].
    destruct (Z.gtb_spec (v_pos v) total_lines); cbn [lc_line];
      [now right|].
    destruct ((0 =? v_offset v) && (v_pass v =? repeat - 1));
      cbn [lc_line]; [|rewrite Hreal]; left; lia.
  - intros d Hd Hin Hroom'. apply in_map_iff.
    exists (mk_visit (repeat - 1) ((l + block) mod step + d) (l + d)).
    split; [|now apply Hroom].
    unfold call_of_visit. cbn [v_pos v_offset v_pass].
    destruct (Z.ltb_spec (l + d) 0); [lia|].
    destruct (Z.gtb_spec (l + d) total_lines); [lia|]. cbn [orb].
    destruct (Z.eqb_spec 0 ((l + block) mod step + d)); [lia|].
    reflexivity.
Qed.

(** In every band a block is at least four lines longer than a step. *)
Lemma active_band_room (s0 : EPD_error) (sz : EPD_size) (p : pin_assignment)
  (temperature : Z) (stage : EPD_stage) :
  let e := setFactor temperature (EPD_new s0 sz p) in
  stage_step e stage + 4 <= stage_block e stage.
Proof.
  unfold setFactor.
  destruct sz, (temperature <? 10), (temperature >? 40), stage;
    vm_compute; congruence.
Qed.

(** The scan bytes for a line of a panel with four lines per scan byte. *)
Lemma scan_loop_of_line (t : Target) (e : EPD_Class) (line : Z) :
  lines_per_display e = 4 * bytes_per_scan e ->
  0 < bytes_per_scan e <= 44 ->
  0 <= line < lines_per_display e ->
  scan_loop t e (u16 line) (Z.to_nat (bytes_per_scan e)) 0 =
    repeat 0 (Z.to_nat ((lines_per_display e - line - 1) / 4))
    ++ Z.shiftl 0x03 (2 * (line mod 4))
    :: repeat 0 (Z.to_nat (bytes_per_scan e
                           - (lines_per_display e - line - 1) / 4 - 1)).
Proof.
  intros Hlines Hbps Hline.
  assert (Hk : 0 <= (lines_per_display e - line - 1) / 4 < bytes_per_scan e).
  { split; [apply Z.div_pos; lia | apply Z.div_lt_upper_bound; lia]. }
  destruct (scan_marker_value line (proj1 Hline)) as [Hv _].
  unfold u16. rewrite Z.mod_small by lia.
  assert (Hsp : scan_pos t e line = (lines_per_display e - line - 1) / 4)
    by (apply scan_pos_in_range; lia).
  rewrite scan_loop_marker by (rewrite Hsp; lia).
  rewrite Hsp, Hv, Z.sub_0_r. do 3 f_equal. lia.
Qed.

Lemma marker_not_in_zeros (a n : nat) (m : Z) (r : list Z) :
  m <> 0 -> repeat 0 n <> repeat 0 a ++ m :: r.
Proof.
  intros Hm. revert n. induction a as [|a IH]; intros [|n] H;
    cbn [repeat app] in H; inversion H; subst; try congruence.
  all: now apply (IH n).
Qed.

(** Which row a call made after the last write of line [l] can drive,
    its line argument being further down, one past the last line, or the
    dummy index. *)
Lemma later_call_row (t : Target) (e : EPD_Class) (c : line_call) (l : Z) :
  lines_per_display e = 4 * bytes_per_scan e ->
  0 < bytes_per_scan e <= 44 ->
  0 <= l < lines_per_display e ->
  l < lc_line c <= lines_per_display e \/ lc_line c = 0x7fff ->
  (int16 t = true -> ~ drives_row t e c l) /\
  (int16 t = false ->
   drives_row t e c l ->
   lc_line c = lines_per_display e /\ l = lines_per_display e - 4) /\
  (int16 t = false ->
   lc_line c = lines_per_display e -> l = lines_per_display e - 4 ->
   drives_row t e c l).
Proof.
  intros Hlines Hbps Hl Hc. unfold drives_row.
  destruct (scan_marker_value l (proj1 Hl)) as [_ Hnl].
  pose proof (scan_loop_of_line t e l Hlines Hbps Hl) as Hrow.
  assert (Hzero : forall x,
             scan_loop t e (u16 x) (Z.to_nat (bytes_per_scan e)) 0
             = repeat 0 (Z.to_nat (bytes_per_scan e)) ->
             scan_loop t e (u16 x) (Z.to_nat (bytes_per_scan e)) 0
             <> scan_loop t e (u16 l) (Z.to_nat (bytes_per_scan e)) 0).
  { intros x Hx. rewrite Hx, Hrow. now apply marker_not_in_zeros. }
  assert (Hinj : forall x,
             0 <= x < lines_per_display e ->
             scan_loop t e (u16 x) (Z.to_nat (bytes_per_scan e)) 0
             = scan_loop t e (u16 l) (Z.to_nat (bytes_per_scan e)) 0 ->
             x = l).
  { intros x Hx Heq.
    rewrite (scan_loop_of_line t e x Hlines Hbps Hx), Hrow in Heq.
    destruct (scan_marker_value x (proj1 Hx)) as [_ Hnx].
    destruct (marker_position_inj _ _ _ _ _ _ Hnx Hnl Heq) as [Hk Hm].
    apply marker_inj in Hm; try (apply Z.mod_pos_bound; lia).
    assert (Hk' : (lines_per_display e - x - 1) / 4
                  = (lines_per_display e - l - 1) / 4).
    { apply Z2Nat.inj in Hk; [exact Hk | |]; apply Z.div_pos; lia. }
    rewrite Hlines in Hk'.
    Z.div_mod_to_equations. lia. }
  assert (Hdummy : scan_loop t e (u16 0x7fff) (Z.to_nat (bytes_per_scan e)) 0
                   = repeat 0 (Z.to_nat (bytes_per_scan e))).
  { change (u16 0x7fff) with 0x7fff. apply scan_loop_zero.
    destruct (scan_pos_sentinel t e); lia. }
  assert (Hpast16 : int16 t = true ->
             scan_loop t e (u16 (lines_per_display e))
                       (Z.to_nat (bytes_per_scan e)) 0
             = repeat 0 (Z.to_nat (bytes_per_scan e))).
  { intros Ht. unfold u16. rewrite Z.mod_small by lia.
    apply scan_loop_zero. right. unfold scan_pos. rewrite Ht.
    replace (lines_per_display e - lines_per_display e - 1) with (-1) by lia.
    change (u16 (-1)) with 65535. change (65535 / 4) with 16383. lia. }
  assert (Hpast32 : int16 t = false ->
             scan_loop t e (u16 (lines_per_display e))
                       (Z.to_nat (bytes_per_scan e)) 0
             = scan_loop t e (u16 (lines_per_display e - 4))
                         (Z.to_nat (bytes_per_scan e)) 0).
  { intros Ht. unfold u16. rewrite !Z.mod_small by lia.
    assert (H0 : scan_pos t e (lines_per_display e) = 0).
    { unfold scan_pos. rewrite Ht.
      replace (lines_per_display e - lines_per_display e - 1) with (-1)
        by lia. reflexivity. }
    assert (H4 : scan_pos t e (lines_per_display e - 4) = 0).
    { unfold scan_pos. rewrite Ht.
      replace (lines_per_display e - (lines_per_display e - 4) - 1) with 3
        by lia. reflexivity. }
    assert (Hsh : scan_shift (lines_per_display e)
                  = scan_shift (lines_per_display e - 4)).
    { unfold scan_shift. f_equal.
      change 0x03 with (Z.ones 2). rewrite !Z.land_ones by lia.
      rewrite Hlines.
      replace (4 * bytes_per_scan e - 4) with (4 * (bytes_per_scan e - 1))
        by lia.
      change (2 ^ 2) with 4.
      now rewrite !(Z.mul_comm 4), !Z.mod_mul by lia. }
    rewrite !scan_loop_marker by (rewrite ?H0, ?H4; lia).
    now rewrite H0, H4, Hsh. }
  split; [|split].
  - intros Ht. destruct Hc as [Hc | ->]; [|now apply Hzero].
    destruct (Z.eq_dec (lc_line c) (lines_per_display e)) as [-> | Hne].
    + apply Hzero, Hpast16, Ht.
    + intros Heq. apply Hinj in Heq; lia.
  - intros Ht Heq. destruct Hc as [Hc | Hc].
    + destruct (Z.eq_dec (lc_line c) (lines_per_display e)) as [E | Hne].
      * split; [exact E|]. rewrite E, (Hpast32 Ht) in Heq.
        apply Hinj in Heq; lia.
      * apply Hinj in Heq; lia.
    + rewrite Hc in Heq. now apply Hzero in Heq.
  - intros Ht E ->. rewrite E. now apply Hpast32.
Qed.

(** X20: in a sweep of [frame_fixed_13] or [frame_data_13], the last
    call of [line] whose line argument is [l], a line of the panel, is in
    the last pass; it is the zero-value line when [l + block] is a
    multiple of [step], and the real value or scanline otherwise.  Every
    later call has a line argument further down, [lines_per_display], or
    the dummy index.  With a 16-bit [int] none of them drives the row of
    line [l].  With a 32-bit [int] the calls with line argument
    [lines_per_display] drive the row of line [lines_per_display - 4],
    and no other later call drives the row of [l]; one of them is made,
    with the real value or the scanline past the image, after the last
    write of line [lines_per_display - 4]. *)
Theorem sweep_13_last_write_of_line (t : Target) (s0 : EPD_error)
  (sz : EPD_size) (p : pin_assignment) (temperature value : Z)
  (stage : EPD_stage) (l : Z) :
  let e := setFactor temperature (EPD_new s0 sz p) in
  let total := lines_per_display e in
  let border := default_border_byte t in
  let settles := (l + stage_block e stage) mod stage_step e stage =? 0 in
  let blank := mk_line l None 0x00 false EPD_normal border in
  let fixed pos := mk_line pos None value false stage border in
  let data pos :=
    mk_line pos (Some (pos * bytes_per_line e)) 0 true stage border in
  0 <= l < total ->
  exists pre_fixed post_fixed pre_data post_data,
    frame_fixed_13_calls t e value stage =
    Some (pre_fixed ++ (if settles then blank else fixed l) :: post_fixed) /\
    frame_data_13_calls t e stage =
    Some (pre_data ++ (if settles then blank else data l) :: post_data) /\
    (forall c,
        In c post_fixed \/ In c post_data ->
        (l < lc_line c <= total \/ lc_line c = 0x7fff) /\
        (int16 t = true -> ~ drives_row t e c l) /\
        (int16 t = false -> drives_row t e c l ->
         lc_line c = total /\ l = total - 4)) /\
    (int16 t = false -> l = total - 4 ->
     In (fixed total) post_fixed /\ drives_row t e (fixed total) l /\
     In (data total) post_data /\ drives_row t e (data total) l).
Proof.
  intros e total border settles blank fixed data Hl.
  destruct (active_band s0 sz p temperature stage) as (Hr & Hs & _).
  pose proof (active_band_room s0 sz p temperature stage) as Hroom.
  destruct (panel_geometry s0 sz p) as (Hlines & Hbps & _).
  cbv zeta in Hroom. fold e in Hr, Hs, Hroom.
  change (lines_per_display (EPD_new s0 sz p)) with total in Hlines.
  change (bytes_per_scan (EPD_new s0 sz p)) with (bytes_per_scan e)
    in Hlines, Hbps.
  destruct (sweep_visits_total (stage_repeat e stage) (stage_step e stage)
              (stage_block e stage) total ltac:(lia))
    as (visits & Hv).
  destruct (frame_13_calls_of_visits t e value stage visits Hv)
    as (Hfixed & Hdata).
  destruct (sweep_last_call total _ _ _ border l fixed visits
              Hr Hs Hl ltac:(lia) ltac:(reflexivity) Hv)
    as (pre_f & post_f & Ef & Hpost_f & Hroom_f).
  destruct (sweep_last_call total _ _ _ border l data visits
              Hr Hs Hl ltac:(lia) ltac:(reflexivity) Hv)
    as (pre_d & post_d & Ed & Hpost_d & Hroom_d).
  assert (Ho : 0 <= (l + stage_block e stage) mod stage_step e stage
               < stage_step e stage) by (apply Z.mod_pos_bound; lia).
  exists pre_f, post_f, pre_d, post_d.
  split; [rewrite Hfixed; f_equal; exact Ef|].
  split; [rewrite Hdata; f_equal; exact Ed|]. split.
  - intros c Hc.
    assert (Hrange : l < lc_line c <= total \/ lc_line c = 0x7fff)
      by (destruct Hc as [Hc | Hc]; [now apply Hpost_f | now apply Hpost_d]).
    destruct (later_call_row t e c l Hlines Hbps Hl Hrange)
      as (H16 & H32 & _).
    split; [exact Hrange|]. split; [exact H16 | exact H32].
  - intros Ht E.
    assert (Hlast : forall c,
               lc_line c = total -> drives_row t e c l).
    { intros c Hc.
      apply (later_call_row t e c l Hlines Hbps Hl); try assumption.
      left. fold total. lia. }
    assert (E4 : l + 4 = total) by lia.
    assert (H4 : (l + stage_block e stage) mod stage_step e stage + 4
                 < stage_block e stage) by lia.
    pose proof (Hroom_f 4 ltac:(lia) ltac:(lia) H4) as Hf4.
    pose proof (Hroom_d 4 ltac:(lia) ltac:(lia) H4) as Hd4.
    rewrite E4 in Hf4, Hd4.
    split; [exact Hf4|]. split; [now apply Hlast|].
    split; [exact Hd4 | now apply Hlast].
Qed.

Lemma sweep_13_last_write_of_line_witness :
  exists pre post,
    frame_fixed_13_calls
      (mk_target false EPD_normal 0)
      (setFactor 25 (EPD_new example_status EPD_1_44 example_pins))
      0xff EPD_inverse =
    Some (pre ++ mk_line 92 None 0x00 false EPD_normal 0 :: post) /\
    In (mk_line 96 None 0xff false EPD_inverse 0) post.
Proof.
  destruct (sweep_13_last_write_of_line
              (mk_target false EPD_normal 0) example_status EPD_1_44
              example_pins 25 0xff EPD_inverse 92
              ltac:(vm_compute; split; [discriminate | reflexivity]))
    as (pre & post & pre_d & post_d & H & _ & _ & Hlater).
  exists pre, post. split; [exact H|].
  exact (proj1 (Hlater eq_refl eq_refl)).
Defined.
